(** * Landmark-driven jewelry placement

    Shallow embedding of the placement code of the virtual try-on
    application: the hand and face keypoint maps
    ([src/models/HandPoseDetector.js], [src/models/FaceLandmarkDetector.js]),
    the canvas renderer with its smoothing cache
    ([src/utils/JewelryRenderer.js]) and the live AR resolver
    ([src/components/ARVirtualTryOn.js]); with them the hand detector's
    life cycle, the rotation of a face, and the telemetry store that shares
    the renderer's file. *)

From Stdlib Require Import Floats ZArith Lia.
From stdpp Require Import base option list gmap strings pretty.

Set Warnings "-inexact-float".
Local Open Scope float_scope.

(** ** JavaScript values used by the placement code *)

Module JS.

(** A JavaScript number is an IEEE 754 binary64 value.  Primitive floats
    are the same format with the same rounding, so [+], [-], [*], [/]
    evaluate bit for bit as in the engine. *)
Abbreviation num := float.

(** [v === 0] on numbers: true for [+0] and [-0], false for [NaN]. *)
Definition is_zero (v : num) : bool := v =? 0.

(** ToBoolean on a number: [+0], [-0] and [NaN] are falsy. *)
Definition truthy (v : num) : bool := negb (is_zero v || is_nan v).

(** [v || d] where [v] is a number. *)
Definition num_or (v d : num) : num := if truthy v then v else d.

(** A property that may be missing: [None] is [undefined]. *)
Definition toNumber (v : option num) : num :=
  match v with Some f => f | None => nan end.

(** [v || d] where [v] may be [undefined]. *)
Definition opt_or (v : option num) (d : num) : num :=
  match v with Some f => num_or f d | None => d end.

(** [Math.PI] *)
Definition PI : num := 0x1.921fb54442d18p+1.

(** [Math.sqrt]: engines compile it to the correctly rounded IEEE square
    root. *)
Definition Math_sqrt (v : num) : num := PrimFloat.sqrt v.

Definition is_pzero (v : num) : bool :=
  match classify v with PZero => true | _ => false end.
Definition is_nzero (v : num) : bool :=
  match classify v with NZero => true | _ => false end.
Definition is_pinf (v : num) : bool := v =? infinity.
Definition is_ninf (v : num) : bool := v =? neg_infinity.

(** [Math.max(a, b)]: [NaN] if either argument is, and [+0] above [-0]. *)
Definition Math_max (a b : num) : num :=
  if is_nan a || is_nan b then nan
  else if is_pzero b && is_nzero a then b
  else if a <? b then b else a.

(** The transcendental functions are specified by ECMA-262 as a table of
    exact results for special arguments and an implementation-approximated
    value elsewhere.  The approximations are the interface the engine
    provides; the tables are written out below. *)
Class MathImpl := {
  atan2_approx : num -> num -> num;
  acos_approx : num -> num;
  pow_approx : num -> num -> num
}.

Section Math.
Context `{MathImpl}.

(** [Math.atan2(y, x)] *)
Definition Math_atan2 (ny nx : num) : num :=
  if is_nan ny || is_nan nx then nan
  else if is_pzero ny then
    (if (0 <? nx) || is_pzero nx then 0 else atan2_approx ny nx)
  else if is_nzero ny then
    (if (0 <? nx) || is_pzero nx then -0 else atan2_approx ny nx)
  else if is_pinf ny || is_ninf ny then atan2_approx ny nx
  else if 0 <? ny then
    (if is_pinf nx then 0 else atan2_approx ny nx)
  else
    (if is_pinf nx then -0 else atan2_approx ny nx).

(** [Math.acos(x)] *)
Definition Math_acos (v : num) : num :=
  if is_nan v || (1 <? v) || (v <? -1) then nan
  else if v =? 1 then 0
  else acos_approx v.

(** [Math.pow(base, 2)] *)
Definition Math_pow2 (base : num) : num :=
  if is_nan base then nan
  else if is_pinf base || is_ninf base then infinity
  else if is_zero base then 0
  else pow_approx base 2.

End Math.

(** *** Exceptions

    Reading a property of [undefined] throws a [TypeError]; [throw new
    Error(msg)] throws an [Error].  Code that may throw lives in [result]. *)
Inductive JsError :=
| TypeError
| Error (msg : string).

Inductive result (A : Type) :=
| Ok (a : A)
| Throw (e : JsError).
Arguments Ok {A} a.
Arguments Throw {A} e.

Definition bind {A B} (r : result A) (k : A -> result B) : result B :=
  match r with
  | Ok a => k a
  | Throw e => Throw e
  end.

(** [try { body } catch (error) { handler }] *)
Definition try_catch {A} (body : result A) (handler : JsError -> result A)
  : result A :=
  match body with
  | Ok a => Ok a
  | Throw e => handler e
  end.

Definition throws {A} (r : result A) : bool :=
  match r with Ok _ => false | Throw _ => true end.

End JS.

Import JS.

(** [result] is a monad; [x ← c; k] sequences two statements and stops at
    the first one that throws. *)
#[export] Instance result_ret : MRet result := fun A a => Ok a.
#[export] Instance result_bind : MBind result := fun A B k r => JS.bind r k.

(** ** Points

    A landmark or keypoint object [{x, y, z}].  Detectors running in 2D omit
    [z], so that property may be [undefined]. *)
Record Point3D := mkPoint { px : num; py : num; pz : option num }.

(** [p.z] read as a number. *)
Definition zn (p : Point3D) : num := toNumber (pz p).

(** A vector object whose three components are numbers. *)
Record Vec3 := mkVec { vx : num; vy : num; vz : num }.

(** A landmark array.  [None] for the array is [undefined]; an entry [None]
    is a hole ([undefined] or [null]) in the array. *)
Abbreviation landmarks_t := (option (list (option Point3D))).

(** [landmarks[i]]: throws when [landmarks] is [undefined], yields
    [undefined] out of range. *)
Definition idx (landmarks : landmarks_t) (i : nat) : result (option Point3D) :=
  match landmarks with
  | None => Throw TypeError
  | Some l => Ok (mjoin (l !! i))
  end.

(** Reading a property of a value that may be [undefined]. *)
Definition obj (p : option Point3D) : result Point3D :=
  match p with
  | Some q => Ok q
  | None => Throw TypeError
  end.

(** [a || b] on two array reads. *)
Definition or_else (a b : option Point3D) : option Point3D :=
  match a with Some _ => a | None => b end.

(** ** Hand keypoint map and hand post-processing
    ([src/models/HandPoseDetector.js]) *)

Module HandPoseDetector.

(** A raw prediction of the hand model. *)
Record Prediction := mkPrediction {
  keypoints3D : landmarks_t;
  keypoints : landmarks_t;
  handedness : option string;
  score : option num
}.

(** [prediction.keypoints3D || prediction.keypoints]; an array, even an
    empty one, is truthy. *)
Definition landmarksOf (prediction : Prediction) : landmarks_t :=
  match keypoints3D prediction with
  | Some l => Some l
  | None => keypoints prediction
  end.

Definition handLandmarkNames : list string :=
  [ "wrist";
    "thumb_cmc"; "thumb_mcp"; "thumb_ip"; "thumb_tip";
    "index_finger_mcp"; "index_finger_pip"; "index_finger_dip";
    "index_finger_tip";
    "middle_finger_mcp"; "middle_finger_pip"; "middle_finger_dip";
    "middle_finger_tip";
    "ring_finger_mcp"; "ring_finger_pip"; "ring_finger_dip";
    "ring_finger_tip";
    "pinky_mcp"; "pinky_pip"; "pinky_dip"; "pinky_tip" ].

(** The object [{x: lm.x, y: lm.y, z: lm.z || 0}] stored for a landmark. *)
Definition keypointOf (lm : Point3D) : Point3D :=
  mkPoint (px lm) (py lm) (Some (opt_or (pz lm) 0)).

(** One round of the loop [for (let i = 0; i < landmarks.length; i++)]. *)
Definition nameLandmark (lms : list (option Point3D))
    (keypoints : gmap string Point3D) (i : nat) : gmap string Point3D :=
  match handLandmarkNames !! i, mjoin (lms !! i) with
  | Some name, Some lm => <[name := keypointOf lm]> keypoints
  | _, _ => keypoints
  end.

Definition addRingPosition (keypoints : gmap string Point3D)
  : gmap string Point3D :=
  match keypoints !! "ring_finger_mcp", keypoints !! "ring_finger_pip" with
  | Some mcp, Some pip =>
      <["ring_position" :=
          mkPoint ((px mcp + px pip) / 2) ((py mcp + py pip) / 2)
                  (Some ((zn mcp + zn pip) / 2))]> keypoints
  | _, _ => keypoints
  end.

Definition addBraceletPosition (keypoints : gmap string Point3D)
  : gmap string Point3D :=
  match keypoints !! "wrist" with
  | Some wrist => <["bracelet_position" := wrist]> keypoints
  | None => keypoints
  end.

Definition addWatchPosition (keypoints : gmap string Point3D)
  : gmap string Point3D :=
  match keypoints !! "wrist", keypoints !! "pinky_mcp" with
  | Some wrist, Some pinky_mcp =>
      <["watch_position" :=
          mkPoint (px wrist * 0.8 + px pinky_mcp * 0.2)
                  (py wrist * 0.8 + py pinky_mcp * 0.2)
                  (Some (zn wrist * 0.8 + zn pinky_mcp * 0.2))]> keypoints
  | _, _ => keypoints
  end.

(** [extractKeypoints(prediction)].  [landmarks.length] throws when neither
    [keypoints3D] nor [keypoints] is there. *)
Definition extractKeypoints (prediction : Prediction)
  : result (gmap string Point3D) :=
  match landmarksOf prediction with
  | None => Throw TypeError
  | Some lms =>
      let keypoints := foldl (nameLandmark lms) ∅ (seq 0 (length lms)) in
      let keypoints := addRingPosition keypoints in
      let keypoints := addBraceletPosition keypoints in
      let keypoints := addWatchPosition keypoints in
      Ok keypoints
  end.

Record Segments := mkSegments {
  mcpToPip : num; pipToDip : num; dipToTip : num
}.

Record FingerDimensions := mkFinger {
  width : num;
  length : num;
  segments : option Segments
}.

Record FingerMeasurements := mkFingers {
  index : FingerDimensions;
  middle : FingerDimensions;
  ring : FingerDimensions;
  pinky : FingerDimensions
}.

Record HandMeasurements := mkMeasurements {
  palmWidth : num;
  handLength : num;
  fingerMeasurements : FingerMeasurements;
  wristCircumference : num;
  aspectRatio : num
}.

Record Angles := mkAngles { pitch : num; yaw : num; roll : num }.

Record Vectors := mkVectors {
  palmDirection : Vec3;
  fingerDirection : Vec3;
  palmNormal : Vec3
}.

Record Orientation := mkOrientation { angles : Angles; vectors : Vectors }.

(** [normalizeVector(vector)] *)
Definition normalizeVector (vector : Vec3) : Vec3 :=
  let magnitude :=
    Math_sqrt (vx vector * vx vector
               + vy vector * vy vector
               + vz vector * vz vector) in
  if is_zero magnitude then mkVec 0 0 0
  else mkVec (vx vector / magnitude)
             (vy vector / magnitude)
             (vz vector / magnitude).

Section WithMath.
Context `{MathImpl}.

(** The expression
    [Math.sqrt(Math.pow(a.x - b.x, 2) + Math.pow(a.y - b.y, 2)
               + Math.pow((a.z || 0) - (b.z || 0), 2))]
    that the measurement code writes out for each pair of joints. *)
Definition span (a b : option Point3D) : result num :=
  a ← obj a;
  b ← obj b;
  Ok (Math_sqrt (Math_pow2 (px a - px b)
                 + Math_pow2 (py a - py b)
                 + Math_pow2 (opt_or (pz a) 0 - opt_or (pz b) 0))).

(** The object [{x: a.x - b.x, y: a.y - b.y, z: (a.z || 0) - (b.z || 0)}]. *)
Definition delta (a b : option Point3D) : result Vec3 :=
  a ← obj a;
  b ← obj b;
  Ok (mkVec (px a - px b) (py a - py b) (opt_or (pz a) 0 - opt_or (pz b) 0)).

Definition defaultFingerDimensions : FingerDimensions :=
  mkFinger 0 0 (Some (mkSegments 0 0 0)).

Definition fingerDimensionsBody (landmarks : landmarks_t) (baseIndex : nat)
  : result FingerDimensions :=
  mcp ← idx landmarks baseIndex;
  pip ← idx landmarks (baseIndex + 1);
  dip ← idx landmarks (baseIndex + 2);
  tip ← idx landmarks (baseIndex + 3);
  fingerLength ← span tip mcp;
  let fingerWidth := fingerLength * 0.15 in
  mcpToPip ← span pip mcp;
  pipToDip ← span dip pip;
  dipToTip ← span tip dip;
  Ok (mkFinger fingerWidth fingerLength
        (Some (mkSegments mcpToPip pipToDip dipToTip))).

(** [calculateFingerDimensions(landmarks, baseIndex)] *)
Definition calculateFingerDimensions (landmarks : landmarks_t)
    (baseIndex : nat) : result FingerDimensions :=
  try_catch (fingerDimensionsBody landmarks baseIndex)
            (fun _ => Ok defaultFingerDimensions).

Definition defaultHandMeasurements : HandMeasurements :=
  mkMeasurements 0 0
    (mkFingers (mkFinger 0 0 None) (mkFinger 0 0 None)
               (mkFinger 0 0 None) (mkFinger 0 0 None))
    0 0.

Definition handMeasurementsBody (landmarks : landmarks_t)
  : result HandMeasurements :=
  pinkyMcp ← idx landmarks 17;
  indexMcp ← idx landmarks 5;
  palmWidth ← span indexMcp pinkyMcp;
  wrist ← idx landmarks 0;
  middleTip ← idx landmarks 12;
  handLength ← span middleTip wrist;
  index ← calculateFingerDimensions landmarks 5;
  middle ← calculateFingerDimensions landmarks 9;
  ring ← calculateFingerDimensions landmarks 13;
  pinky ← calculateFingerDimensions landmarks 17;
  let wristCircumference := palmWidth * 2.5 in
  Ok (mkMeasurements palmWidth handLength
        (mkFingers index middle ring pinky)
        wristCircumference (handLength / palmWidth)).

(** [calculateHandMeasurements(prediction)] *)
Definition calculateHandMeasurements (prediction : Prediction)
  : result HandMeasurements :=
  let landmarks := landmarksOf prediction in
  try_catch (handMeasurementsBody landmarks)
            (fun _ => Ok defaultHandMeasurements).

Definition defaultOrientation : Orientation :=
  mkOrientation (mkAngles 0 0 0)
    (mkVectors (mkVec 0 1 0) (mkVec 0 1 0) (mkVec 1 0 0)).

Definition handOrientationBody (landmarks : landmarks_t)
  : result Orientation :=
  wrist ← idx landmarks 0;
  middleMcp ← idx landmarks 9;
  middleTip ← idx landmarks 12;
  indexMcp ← idx landmarks 5;
  pinkyMcp ← idx landmarks 17;
  palmDirection ← delta middleMcp wrist;
  fingerDirection ← delta middleTip middleMcp;
  palmWidth ← delta pinkyMcp indexMcp;
  let palmNormal :=
    mkVec (vy palmDirection * vz palmWidth - vz palmDirection * vy palmWidth)
          (vz palmDirection * vx palmWidth - vx palmDirection * vz palmWidth)
          (vx palmDirection * vy palmWidth - vy palmDirection * vx palmWidth)
  in
  let normalizePalmDirection := normalizeVector palmDirection in
  let normalizeFingerDirection := normalizeVector fingerDirection in
  let normalizePalmNormal := normalizeVector palmNormal in
  let pitch := Math_acos (vy normalizePalmDirection) in
  let projectedPalmDirection := mkVec (vx palmDirection) 0 (vz palmDirection) in
  let normalizeProjectedPalmDirection :=
    normalizeVector projectedPalmDirection in
  let yaw := Math_atan2 (vx normalizeProjectedPalmDirection)
                        (vz normalizeProjectedPalmDirection) in
  let roll := Math_atan2 (vx normalizePalmNormal) (vz normalizePalmNormal) in
  Ok (mkOrientation
        (mkAngles (pitch * (180 / PI)) (yaw * (180 / PI)) (roll * (180 / PI)))
        (mkVectors normalizePalmDirection normalizeFingerDirection
                   normalizePalmNormal)).

(** [calculateHandOrientation(prediction)] *)
Definition calculateHandOrientation (prediction : Prediction)
  : result Orientation :=
  let landmarks := landmarksOf prediction in
  try_catch (handOrientationBody landmarks)
            (fun _ => Ok defaultOrientation).

(** One processed hand, as [processPredictions] builds it. *)
Record Hand := mkHand {
  hand_landmarks : landmarks_t;
  hand_keypoints : option (gmap string Point3D);
  hand_handedness : string;
  hand_measurements : option HandMeasurements;
  hand_orientation : option Orientation;
  hand_confidence : option num
}.

Definition processPrediction (prediction : Prediction) : result Hand :=
  let handedness :=
    if bool_decide (handedness prediction = Some "Left")
    then "Left" else "Right" in
  keypoints ← extractKeypoints prediction;
  measurements ← calculateHandMeasurements prediction;
  orientation ← calculateHandOrientation prediction;
  Ok (mkHand (landmarksOf prediction) (Some keypoints) handedness
             (Some measurements) (Some orientation) (score prediction)).

(** [predictions.map(prediction => ...)] *)
Fixpoint processPredictions (predictions : list Prediction)
  : result (list Hand) :=
  match predictions with
  | [] => Ok []
  | prediction :: rest =>
      hand ← processPrediction prediction;
      hands ← processPredictions rest;
      Ok (hand :: hands)
  end.

End WithMath.

(** *** The detector object

    [Model] is the detector that the pose library hands out.  Loading the
    model, running it and the clock belong to the environment: the methods
    below take what the environment answered as arguments. *)

Record Detector (Model : Type) := mkDetector {
  model : option Model;
  isInitialized : bool;
  lastPredictionTime : num;
  detectionConfidence : num;
  maxHands : num
}.
Arguments mkDetector {Model} _ _ _ _ _.
Arguments model {Model} _.
Arguments isInitialized {Model} _.
Arguments lastPredictionTime {Model} _.
Arguments detectionConfidence {Model} _.
Arguments maxHands {Model} _.

(** The argument of [updateConfig]; a property that is not given is
    [undefined]. *)
Record Config := mkConfig {
  config_detectionConfidence : option num;
  config_maxHands : option num
}.

Section Lifecycle.
Context `{MathImpl} {Model : Type}.

(** [constructor()] *)
Definition constructor : Detector Model := mkDetector None false 0 0.7 2.

(** [initialize()].  The file imports the pose library and the two backend
    packages for their effect, and binds no name [tf]; [tf.setBackend] is
    therefore a read of the global of that name.  [tf] is [None] when the
    page has no such global (the read throws a ReferenceError, inside the
    [try]) and otherwise the outcome of [tf.setBackend('webgl')].
    [createDetector maxHands minDetectionConfidence] is the outcome of
    loading the model. *)
Definition initialize (tf : option (result ()))
    (createDetector : num -> num -> result Model) (this : Detector Model)
  : Detector Model * bool :=
  match tf with
  | Some (Ok _) =>
      match createDetector (maxHands this) (detectionConfidence this) with
      | Ok loaded =>
          (mkDetector (Some loaded) true (lastPredictionTime this)
                      (detectionConfidence this) (maxHands this),
           true)
      | Throw _ => (this, false)
      end
  | _ => (this, false)
  end.

(** [detect(input)] at the time [now] that [performance.now()] reads;
    [estimateHands] is the answer of [this.model.estimateHands(input)].
    The result is the detector afterwards and the value returned ([None]
    for [null]) or the exception thrown. *)
Definition detect (now : num)
    (estimateHands : Model -> result (option (list Prediction)))
    (this : Detector Model)
  : Detector Model * result (option (list Hand)) :=
  match isInitialized this, model this with
  | true, Some loaded =>
      if now - lastPredictionTime this <? 100 then (this, Ok None)
      else
        let this :=
          mkDetector (model this) (isInitialized this) now
                     (detectionConfidence this) (maxHands this) in
        (this,
         Ok (match estimateHands loaded with
             | Ok (Some (prediction :: rest)) =>
                 match processPredictions (prediction :: rest) with
                 | Ok hands => Some hands
                 | Throw _ => None
                 end
             | _ => None
             end))
  | _, _ => (this, Throw (Error "Hand pose detector not initialized"))
  end.

(** [dispose()].  [modelDispose loaded] is [None] when the model has no
    [dispose] function, and otherwise the outcome of calling it; an
    exception of that call is not caught. *)
Definition dispose (modelDispose : Model -> option (result ()))
    (this : Detector Model) : result (Detector Model) :=
  let disposed :=
    mkDetector None false (lastPredictionTime this)
               (detectionConfidence this) (maxHands this) in
  match model this with
  | Some loaded =>
      match modelDispose loaded with
      | Some (Throw e) => Throw e
      | _ => Ok disposed
      end
  | None => Ok disposed
  end.

(** [updateConfig(config)]: the detector when the call returns, and whether
    it started [this.initialize()].  That call is not awaited, so the model
    it loads arrives after [updateConfig] has returned. *)
Definition updateConfig (modelDispose : Model -> option (result ()))
    (config : Config) (this : Detector Model)
  : result (Detector Model * bool) :=
  let this :=
    match config_detectionConfidence config with
    | Some confidence =>
        mkDetector (model this) (isInitialized this) (lastPredictionTime this)
                   confidence (maxHands this)
    | None => this
    end in
  let this :=
    match config_maxHands config with
    | Some hands =>
        mkDetector (model this) (isInitialized this) (lastPredictionTime this)
                   (detectionConfidence this) hands
    | None => this
    end in
  if isInitialized this
     && (bool_decide (is_Some (config_detectionConfidence config))
         || bool_decide (is_Some (config_maxHands config)))
  then this ← dispose modelDispose this; Ok (this, true)
  else Ok (this, false).

End Lifecycle.

End HandPoseDetector.

(** ** Face keypoint map ([src/models/FaceLandmarkDetector.js]) *)

Module FaceLandmarkDetector.

Record Prediction := mkPrediction {
  keypoints : landmarks_t;
  mesh : landmarks_t
}.

(** [prediction.keypoints || prediction.mesh] *)
Definition landmarksOf (prediction : Prediction) : landmarks_t :=
  match keypoints prediction with
  | Some l => Some l
  | None => mesh prediction
  end.

(** [landmarks[i] || landmarks[j]] *)
Definition either (landmarks : landmarks_t) (i j : nat)
  : result (option Point3D) :=
  a ← idx landmarks i;
  match a with
  | Some _ => Ok a
  | None => idx landmarks j
  end.

(** The keypoints object.  An assignment [keypoints.name = value] stores the
    property even when [value] is [undefined], so a stored value is an
    [option]. *)
Abbreviation keypoints_t := (gmap string (option Point3D)).

(** Reading [keypoints.name]: [undefined] both for a missing property and
    for one that holds [undefined]. *)
Definition prop (keypoints : keypoints_t) (name : string) : option Point3D :=
  mjoin (keypoints !! name).

(** The two landmark places that each assignment of [extractKeypoints]
    reads, by the name it assigns to. *)
Definition faceLandmarkIndices : list (string * (nat * nat)) :=
  [ ("leftEar", (234, 93)); ("rightEar", (454, 323));
    ("leftEye", (33, 159)); ("rightEye", (263, 386));
    ("noseTip", (1, 19));
    ("upperLip", (13, 0)); ("lowerLip", (14, 17)) ]%nat.

(** [extractKeypoints(prediction)] *)
Definition extractKeypoints (prediction : Prediction) : result keypoints_t :=
  let keypoints : keypoints_t := ∅ in
  let landmarks := landmarksOf prediction in
  match landmarks with
  | None => Ok keypoints
  | Some l =>
      if bool_decide (length l = 0%nat) then Ok keypoints
      else
        leftEar ← either landmarks 234 93;
        let keypoints := <["leftEar" := leftEar]> keypoints in
        rightEar ← either landmarks 454 323;
        let keypoints := <["rightEar" := rightEar]> keypoints in
        leftEye ← either landmarks 33 159;
        let keypoints := <["leftEye" := leftEye]> keypoints in
        rightEye ← either landmarks 263 386;
        let keypoints := <["rightEye" := rightEye]> keypoints in
        noseTip ← either landmarks 1 19;
        let keypoints := <["noseTip" := noseTip]> keypoints in
        upperLip ← either landmarks 13 0;
        let keypoints := <["upperLip" := upperLip]> keypoints in
        lowerLip ← either landmarks 14 17;
        let keypoints := <["lowerLip" := lowerLip]> keypoints in
        match prop keypoints "leftEar", prop keypoints "rightEar" with
        | Some leftEar, Some rightEar =>
            Ok (<["neckBase" :=
                   Some (mkPoint ((px leftEar + px rightEar) / 2)
                                 (Math_max (py leftEar) (py rightEar) + 50)
                                 (Some ((zn leftEar + zn rightEar) / 2)))]>
                  keypoints)
        | _, _ => Ok keypoints
        end
  end.

(** The object [{pitch, yaw, roll}] of [calculateFaceRotation], in
    degrees. *)
Record Rotation := mkRotation { pitch : num; yaw : num; roll : num }.

Section WithMath.
Context `{MathImpl}.

(** [calculateFaceRotation(prediction)] *)
Definition calculateFaceRotation (prediction : Prediction) : Rotation :=
  match landmarksOf prediction with
  | None => mkRotation 0 0 0
  | Some l =>
      if bool_decide (length l < 468)%nat then mkRotation 0 0 0
      else
        let leftEye := or_else (mjoin (l !! 33%nat)) (mjoin (l !! 159%nat)) in
        let rightEye := or_else (mjoin (l !! 263%nat)) (mjoin (l !! 386%nat)) in
        let noseTip := or_else (mjoin (l !! 1%nat)) (mjoin (l !! 19%nat)) in
        match leftEye, rightEye, noseTip with
        | Some leftEye, Some rightEye, Some noseTip =>
            let deltaY := py rightEye - py leftEye in
            let deltaX := px rightEye - px leftEye in
            let roll := Math_atan2 deltaY deltaX * (180 / PI) in
            let eyeCenter_x := (px leftEye + px rightEye) / 2 in
            let eyeCenter_y := (py leftEye + py rightEye) / 2 in
            let eyeToNoseX := px noseTip - eyeCenter_x in
            let yaw := eyeToNoseX * 100 in
            let eyeToNoseY := py noseTip - eyeCenter_y in
            let pitch := eyeToNoseY * 100 in
            mkRotation pitch yaw roll
        | _, _, _ => mkRotation 0 0 0
        end
  end.

End WithMath.

End FaceLandmarkDetector.

(** ** Catalog entry of a jewelry item

    The properties of the item object that the placement code reads.  A
    missing property is [None]. *)
Record JewelryItem := mkItem {
  type : string;
  preferredHand : option string;
  fingerIndex : option N;
  sizeAdjustment : option num;
  imageUrl : option string;
  leftImageUrl : option string;
  rightImageUrl : option string
}.

(** ToBoolean on a string property: [undefined] and the empty string are
    falsy. *)
Definition url_truthy (u : option string) : option string :=
  match u with
  | Some s => if bool_decide (s = "") then None else Some s
  | None => None
  end.

(** [item.fingerIndex || 3] *)
Definition fingerIndexOr (item : JewelryItem) (d : N) : N :=
  match fingerIndex item with
  | Some n => if bool_decide (n = 0%N) then d else n
  | None => d
  end.

(** ** The live AR resolver ([src/components/ARVirtualTryOn.js]) *)

Module ARVirtualTryOn.

Import HandPoseDetector.

(** The [itemAdjustments] state of the component. *)
Record ItemAdjustments := mkAdjustments {
  scale : num;
  xOffset : num;
  yOffset : num;
  rotation : num
}.

(** What the user starts with, and what [resetAdjustments] restores. *)
Definition initialAdjustments : ItemAdjustments := mkAdjustments 1.0 0 0 0.

(** One call [drawImage(ctx, imageUrl, x, y, scale, rotation, xOffset,
    yOffset)]: the transform handed to the canvas. *)
Record DrawImage := mkDrawImage {
  di_imageUrl : string;
  di_x : num;
  di_y : num;
  di_scale : num;
  di_rotation : num;
  di_xOffset : num;
  di_yOffset : num
}.

(** The hand selection at the head of [drawHandItem]:
    [handDetections.find(hand => hand.handedness === side)], then
    [handDetections[0]] when that found nothing. *)
Definition targetHandOf (handDetections : list Hand) (item : JewelryItem)
  : option Hand :=
  if bool_decide (preferredHand item = Some "left") then
    match List.find (fun hand => bool_decide (hand_handedness hand = "Left"))
                    handDetections with
    | Some hand => Some hand
    | None =>
        if bool_decide (0 < List.length handDetections)%nat
        then head handDetections else None
    end
  else
    match List.find (fun hand => bool_decide (hand_handedness hand = "Right"))
                    handDetections with
    | Some hand => Some hand
    | None =>
        if bool_decide (0 < List.length handDetections)%nat
        then head handDetections else None
    end.

(** The handedness [drawHandItem] looks for. *)
Definition sideOf (item : JewelryItem) : string :=
  if bool_decide (preferredHand item = Some "left") then "Left" else "Right".
Section WithMath.
Context `{MathImpl}.

(** [drawHandItem(ctx, handDetections, item)], as the list of [drawImage]
    calls it makes. *)
Definition drawHandItem (itemAdjustments : ItemAdjustments)
    (handDetections : list Hand) (item : JewelryItem) : list DrawImage :=
  if bool_decide (List.length handDetections = 0%nat) then []
  else
    match targetHandOf handDetections item with
    | None => []
    | Some targetHand =>
        let keypoints := default ∅ (hand_keypoints targetHand) in
        if bool_decide (type item = "ring") then
          let fingerIndex := fingerIndexOr item 3 in
          let fingerBase := keypoints !! (pretty fingerIndex +:+ "_mcp") in
          let fingerMiddle := keypoints !! (pretty fingerIndex +:+ "_pip") in
          match fingerBase, fingerMiddle with
          | Some fingerBase, Some fingerMiddle =>
              let ringX := px fingerBase * 0.3 + px fingerMiddle * 0.7 in
              let ringY := py fingerBase * 0.3 + py fingerMiddle * 0.7 in
              let angle :=
                Math_atan2 (py fingerMiddle - py fingerBase)
                           (px fingerMiddle - px fingerBase)
                * (180 / PI) in
              match url_truthy (imageUrl item) with
              | Some url =>
                  [ mkDrawImage url ringX ringY
                      (toNumber (sizeAdjustment item) * scale itemAdjustments)
                      (angle + rotation itemAdjustments)
                      (xOffset itemAdjustments) (yOffset itemAdjustments) ]
              | None => []
              end
          | _, _ => []
          end
        else if bool_decide (type item = "bracelet") then
          let wrist := keypoints !! "wrist" in
          match wrist with
          | Some wrist =>
              match url_truthy (imageUrl item) with
              | Some url =>
                  [ mkDrawImage url (px wrist) (py wrist)
                      (toNumber (sizeAdjustment item) * scale itemAdjustments)
                      (num_or
                         (toNumber (roll ∘ angles <$> hand_orientation targetHand)
                          + rotation itemAdjustments)
                         (rotation itemAdjustments))
                      (xOffset itemAdjustments) (yOffset itemAdjustments) ]
              | None => []
              end
          | None => []
          end
        else if bool_decide (type item = "watch") then
          let watchPoint := keypoints !! "wrist" in
          match watchPoint with
          | Some watchPoint =>
              match url_truthy (imageUrl item) with
              | Some url =>
                  [ mkDrawImage url (px watchPoint) (py watchPoint)
                      (toNumber (sizeAdjustment item) * scale itemAdjustments)
                      (num_or
                         (toNumber (roll ∘ angles <$> hand_orientation targetHand)
                          + rotation itemAdjustments)
                         (rotation itemAdjustments))
                      (xOffset itemAdjustments) (yOffset itemAdjustments) ]
              | None => []
              end
          | None => []
          end
        else []
    end.

End WithMath.

(** The property of a face detection that [drawFaceItem] reads. *)
Record Face := mkFace {
  face_keypoints : option FaceLandmarkDetector.keypoints_t
}.

(** [drawFaceItem(ctx, faceDetections, item)], as the list of [drawImage]
    calls it makes. *)
Definition drawFaceItem (itemAdjustments : ItemAdjustments)
    (faceDetections : list Face) (item : JewelryItem) : list DrawImage :=
  match faceDetections with
  | [] => []
  | face :: _ =>
      let keypoints := default ∅ (face_keypoints face) in
      let draw (url : option string) (at_ : Point3D) :=
        match url_truthy url with
        | Some url =>
            [ mkDrawImage url (px at_) (py at_)
                (toNumber (sizeAdjustment item) * scale itemAdjustments)
                (rotation itemAdjustments)
                (xOffset itemAdjustments) (yOffset itemAdjustments) ]
        | None => []
        end in
      if bool_decide (type item = "earring") then
        match FaceLandmarkDetector.prop keypoints "leftEar",
              FaceLandmarkDetector.prop keypoints "rightEar" with
        | Some leftEar, Some rightEar =>
            draw (leftImageUrl item) leftEar
            ++ draw (rightImageUrl item) rightEar
        | _, _ => []
        end
      else if bool_decide (type item = "necklace") then
        match FaceLandmarkDetector.prop keypoints "neckBase" with
        | Some neckBase => draw (imageUrl item) neckBase
        | None => []
        end
      else []
  end.

End ARVirtualTryOn.

(** ** The canvas renderer ([src/utils/JewelryRenderer.js]) *)

Module JewelryRenderer.

Record Face := mkFace {
  face_landmarks : landmarks_t;
  face_rotation : option num
}.

Record Hand := mkHand { hand_landmarks : landmarks_t }.

Record TrackingPoints := mkTracking {
  face : option Face;
  leftHand : option Hand;
  rightHand : option Hand
}.

(** [this.smoothedPositions]; [None] is [null]. *)
Record SmoothedPositions := mkSmoothed {
  earrings_left : option Point3D;
  earrings_right : option Point3D;
  necklace : option Point3D;
  ring : option Point3D;
  bracelet : option Point3D;
  watch : option Point3D
}.

(** The renderer object.  [textures] holds the URLs whose image is in the
    cache [this.textures]. *)
Record Renderer := mkRenderer {
  textures : gset string;
  smoothedPositions : SmoothedPositions;
  smoothingFactor : num;
  lastRenderedType : option string
}.

Definition emptyPositions : SmoothedPositions :=
  mkSmoothed None None None None None None.

(** [constructor()] *)
Definition constructor : Renderer := mkRenderer ∅ emptyPositions 0.7 None.

(** [clearCache()] *)
Definition clearCache (this : Renderer) : Renderer :=
  mkRenderer (textures this) emptyPositions (smoothingFactor this) None.

(** One image put on the canvas by [drawImageAtPoint]: translated to
    [(x, y)], rotated by [rotation] degrees, [size] wide and high. *)
Record DrawOp := mkDrawOp {
  op_imageUrl : string;
  op_x : num;
  op_y : num;
  op_size : num;
  op_rotation : num
}.

(** [try { return body } catch (error) { return null }] *)
Definition try_null {A} (body : result (option A)) : option A :=
  match body with Ok v => v | Throw _ => None end.

(** [try { return body } catch (error) { return fallback }] *)
Definition try_default {A} (body : result A) (fallback : A) : A :=
  match body with Ok v => v | Throw _ => fallback end.

(** The draws made by [try { await draw1; await draw2; ... } catch
    (error) { console.error(...) }]: those before the first one that
    throws. *)
Fixpoint drawn (calls : list (result DrawOp)) : list DrawOp :=
  match calls with
  | Ok op :: rest => op :: drawn rest
  | _ => []
  end.

(** [smoothPosition(previousPosition, newPosition, smoothFactor)] *)
Definition smoothPosition (previousPosition : option Point3D)
    (newPosition : Point3D) (smoothFactor : num) : Point3D :=
  match previousPosition with
  | None => newPosition
  | Some previousPosition =>
      mkPoint
        (px previousPosition * smoothFactor
         + px newPosition * (1 - smoothFactor))
        (py previousPosition * smoothFactor
         + py newPosition * (1 - smoothFactor))
        (Some (zn previousPosition * smoothFactor
               + zn newPosition * (1 - smoothFactor)))
  end.

(** [drawImageAtPoint(canvasContext, imageUrl, x, y, size, rotation)].
    [loadTexture] does not store what it loads, so an image that is not in
    the cache is still missing after the load and the call throws. *)
Definition drawImageAtPoint (this : Renderer) (imageUrl : string)
    (x y size rotation : num) : result DrawOp :=
  if bool_decide (imageUrl ∈ textures this)
  then Ok (mkDrawOp imageUrl x y size rotation)
  else Throw (Error ("Failed to load image: " +:+ imageUrl)).

(** [getLeftEarringPosition(face)] *)
Definition getLeftEarringPosition (face : Face) : option Point3D :=
  let leftEarIndex := 234%nat in
  try_null (idx (face_landmarks face) leftEarIndex).

(** [getRightEarringPosition(face)] *)
Definition getRightEarringPosition (face : Face) : option Point3D :=
  let rightEarIndex := 454%nat in
  try_null (idx (face_landmarks face) rightEarIndex).

(** [getNeckPosition(face)] *)
Definition getNeckPosition (face : Face) : option Point3D :=
  let chinIndex := 152%nat in
  try_null (chin ← idx (face_landmarks face) chinIndex;
            chin ← obj chin;
            Ok (Some (mkPoint (px chin) (py chin + 0.1) (pz chin)))).

(** [getFingerRingPosition(hand, fingerIndex)] *)
Definition getFingerRingPosition (hand : Hand) (fingerIndex : N)
  : option Point3D :=
  let baseJointIndex := (fingerIndex * 4 + 1)%N in
  let middleJointIndex := (fingerIndex * 4 + 2)%N in
  try_null (baseJoint ← idx (hand_landmarks hand) (N.to_nat baseJointIndex);
            middleJoint ← idx (hand_landmarks hand) (N.to_nat middleJointIndex);
            baseJoint ← obj baseJoint;
            middleJoint ← obj middleJoint;
            Ok (Some (mkPoint
                        (px baseJoint * 0.3 + px middleJoint * 0.7)
                        (py baseJoint * 0.3 + py middleJoint * 0.7)
                        (Some (zn baseJoint * 0.3 + zn middleJoint * 0.7))))).

(** [getWristPosition(hand)] *)
Definition getWristPosition (hand : Hand) : option Point3D :=
  let wristIndex := 0%nat in
  try_null (idx (hand_landmarks hand) wristIndex).

(** [getWatchPosition(hand)] *)
Definition getWatchPosition (hand : Hand) : option Point3D :=
  let wristIndex := 0%nat in
  let palmIndex := 9%nat in
  try_null (wrist ← idx (hand_landmarks hand) wristIndex;
            palm ← idx (hand_landmarks hand) palmIndex;
            wrist ← obj wrist;
            palm ← obj palm;
            Ok (Some (mkPoint (px wrist * 0.8 + px palm * 0.2)
                              (py wrist * 0.8 + py palm * 0.2)
                              (Some (zn wrist * 0.8 + zn palm * 0.2))))).

(** The hand chosen at the head of [renderRing], [renderBracelet] and
    [renderWatch]:
    [item.preferredHand === 'left' ? trackingPoints.leftHand
       : (trackingPoints.rightHand || trackingPoints.leftHand)]. *)
Definition chooseHand (item : JewelryItem) (trackingPoints : TrackingPoints)
  : option Hand :=
  if bool_decide (preferredHand item = Some "left")
  then leftHand trackingPoints
  else match rightHand trackingPoints with
       | Some hand => Some hand
       | None => leftHand trackingPoints
       end.


Section WithMath.
Context `{MathImpl}.

(** [calculateDistance(point1, point2)] *)
Definition calculateDistance (point1 point2 : option Point3D) : result num :=
  point2 ← obj point2;
  point1 ← obj point1;
  Ok (Math_sqrt (Math_pow2 (px point2 - px point1)
                 + Math_pow2 (py point2 - py point1)
                 + Math_pow2 (zn point2 - zn point1))).

(** [estimateShoulderWidth(face)] *)
Definition estimateShoulderWidth (face : Face) : num :=
  let leftCheekIndex := 234%nat in
  let rightCheekIndex := 454%nat in
  try_default
    (leftCheek ← idx (face_landmarks face) leftCheekIndex;
     rightCheek ← idx (face_landmarks face) rightCheekIndex;
     faceWidth ← calculateDistance leftCheek rightCheek;
     Ok (faceWidth * 3))
    0.3.

(** [estimateFingerWidth(hand, fingerIndex)] *)
Definition estimateFingerWidth (hand : Hand) (fingerIndex : N) : num :=
  let adjacentFinger1 := N.max 0 (fingerIndex - 1) in
  let adjacentFinger2 := N.min 4 (fingerIndex + 1) in
  try_default
    (baseJoint1 ← idx (hand_landmarks hand) (N.to_nat (adjacentFinger1 * 4 + 1));
     baseJoint2 ← idx (hand_landmarks hand) (N.to_nat (adjacentFinger2 * 4 + 1));
     d ← calculateDistance baseJoint1 baseJoint2;
     Ok (d * 0.4))
    0.02.

(** [estimateWristWidth(hand)] *)
Definition estimateWristWidth (hand : Hand) : num :=
  let wristIndex := 0%nat in
  let thumbBaseIndex := 1%nat in
  let pinkyBaseIndex := 17%nat in
  try_default
    (wrist ← idx (hand_landmarks hand) wristIndex;
     thumbBase ← idx (hand_landmarks hand) thumbBaseIndex;
     pinkyBase ← idx (hand_landmarks hand) pinkyBaseIndex;
     d ← calculateDistance thumbBase pinkyBase;
     Ok (d * 1.2))
    0.1.

(** [calculateFingerRotation(hand, fingerIndex)] *)
Definition calculateFingerRotation (hand : Hand) (fingerIndex : N) : num :=
  let baseJointIndex := (fingerIndex * 4 + 1)%N in
  let tipJointIndex := (fingerIndex * 4 + 4)%N in
  try_default
    (baseJoint ← idx (hand_landmarks hand) (N.to_nat baseJointIndex);
     tipJoint ← idx (hand_landmarks hand) (N.to_nat tipJointIndex);
     tipJoint ← obj tipJoint;
     baseJoint ← obj baseJoint;
     let angleRad := Math_atan2 (py tipJoint - py baseJoint)
                                (px tipJoint - px baseJoint) in
     Ok (angleRad * (180 / PI)))
    0.

(** [calculateArmRotation(hand)] *)
Definition calculateArmRotation (hand : Hand) : num :=
  let wristIndex := 0%nat in
  let middleFingerBaseIndex := 9%nat in
  try_default
    (wrist ← idx (hand_landmarks hand) wristIndex;
     middleBase ← idx (hand_landmarks hand) middleFingerBaseIndex;
     middleBase ← obj middleBase;
     wrist ← obj wrist;
     let angleRad := Math_atan2 (py middleBase - py wrist)
                                (px middleBase - px wrist) in
     Ok (angleRad * (180 / PI)))
    0.

(** Assignment to one slot of [this.smoothedPositions]. *)
Definition withPositions (this : Renderer) (sp : SmoothedPositions)
  : Renderer :=
  mkRenderer (textures this) sp (smoothingFactor this) (lastRenderedType this).

(** One guarded draw: [if (url) { await this.drawImageAtPoint(...) }]. *)
Definition drawIf (this : Renderer) (url : option string)
    (x y size rotation : num) : list (result DrawOp) :=
  match url_truthy url with
  | Some url => [drawImageAtPoint this url x y size rotation]
  | None => []
  end.

(** [renderEarrings(canvasContext, earrings, trackingPoints, videoWidth,
    videoHeight)]: the renderer afterwards and the images drawn, or the
    exception that escaped. *)
Definition renderEarrings (this : Renderer) (earrings : JewelryItem)
    (trackingPoints : TrackingPoints) (videoWidth videoHeight : num)
  : Renderer * result (list DrawOp) :=
  match face trackingPoints with
  | None => (this, Ok [])
  | Some face =>
      let leftEarPoint := getLeftEarringPosition face in
      let rightEarPoint := getRightEarringPosition face in
      match leftEarPoint, rightEarPoint with
      | Some leftEarPoint, Some rightEarPoint =>
          let sp := smoothedPositions this in
          let leftEar :=
            smoothPosition (earrings_left sp) leftEarPoint
                           (smoothingFactor this) in
          let rightEar :=
            smoothPosition (earrings_right sp) rightEarPoint
                           (smoothingFactor this) in
          let this :=
            withPositions this
              (mkSmoothed (Some leftEar) (Some rightEar) (necklace sp)
                          (ring sp) (bracelet sp) (watch sp)) in
          (this,
           eye1 ← idx (face_landmarks face) 27;
           eye2 ← idx (face_landmarks face) 33;
           eyeDistance ← calculateDistance eye1 eye2;
           let scale :=
             num_or (eyeDistance * toNumber (sizeAdjustment earrings)) 0.15 in
           Ok (drawn
                 (drawIf this (leftImageUrl earrings)
                    (px leftEar * videoWidth) (py leftEar * videoHeight)
                    (scale * videoWidth) (opt_or (face_rotation face) 0)
                  ++
                  drawIf this (rightImageUrl earrings)
                    (px rightEar * videoWidth) (py rightEar * videoHeight)
                    (scale * videoWidth) (opt_or (face_rotation face) 0))))
      | _, _ => (this, Ok [])
      end
  end.

(** [renderNecklace(...)] *)
Definition renderNecklace (this : Renderer) (necklace_item : JewelryItem)
    (trackingPoints : TrackingPoints) (videoWidth videoHeight : num)
  : Renderer * result (list DrawOp) :=
  match face trackingPoints with
  | None => (this, Ok [])
  | Some face =>
      match getNeckPosition face with
      | None => (this, Ok [])
      | Some neckPoint =>
          let sp := smoothedPositions this in
          let neck :=
            smoothPosition (necklace sp) neckPoint (smoothingFactor this) in
          let this :=
            withPositions this
              (mkSmoothed (earrings_left sp) (earrings_right sp) (Some neck)
                          (ring sp) (bracelet sp) (watch sp)) in
          let shoulderWidth := estimateShoulderWidth face in
          let scale :=
            shoulderWidth * opt_or (sizeAdjustment necklace_item) 1.0 in
          (this,
           Ok (drawn
                 (drawIf this (imageUrl necklace_item)
                    (px neck * videoWidth) (py neck * videoHeight)
                    (scale * videoWidth) (opt_or (face_rotation face) 0))))
      end
  end.

(** [renderRing(...)] *)
Definition renderRing (this : Renderer) (ring_item : JewelryItem)
    (trackingPoints : TrackingPoints) (videoWidth videoHeight : num)
  : Renderer * result (list DrawOp) :=
  match chooseHand ring_item trackingPoints with
  | None => (this, Ok [])
  | Some hand =>
      let fingerIndex := fingerIndexOr ring_item 3 in
      match getFingerRingPosition hand fingerIndex with
      | None => (this, Ok [])
      | Some fingerPoint =>
          let sp := smoothedPositions this in
          let fingerPos :=
            smoothPosition (ring sp) fingerPoint (smoothingFactor this) in
          let this :=
            withPositions this
              (mkSmoothed (earrings_left sp) (earrings_right sp) (necklace sp)
                          (Some fingerPos) (bracelet sp) (watch sp)) in
          let fingerWidth := estimateFingerWidth hand fingerIndex in
          let scale := fingerWidth * opt_or (sizeAdjustment ring_item) 1.5 in
          let rotation := calculateFingerRotation hand fingerIndex in
          (this,
           Ok (drawn
                 (drawIf this (imageUrl ring_item)
                    (px fingerPos * videoWidth) (py fingerPos * videoHeight)
                    (scale * videoWidth) rotation)))
      end
  end.

(** [renderBracelet(...)] *)
Definition renderBracelet (this : Renderer) (bracelet_item : JewelryItem)
    (trackingPoints : TrackingPoints) (videoWidth videoHeight : num)
  : Renderer * result (list DrawOp) :=
  match chooseHand bracelet_item trackingPoints with
  | None => (this, Ok [])
  | Some hand =>
      match getWristPosition hand with
      | None => (this, Ok [])
      | Some wristPoint =>
          let sp := smoothedPositions this in
          let wrist :=
            smoothPosition (bracelet sp) wristPoint (smoothingFactor this) in
          let this :=
            withPositions this
              (mkSmoothed (earrings_left sp) (earrings_right sp) (necklace sp)
                          (ring sp) (Some wrist) (watch sp)) in
          let wristWidth := estimateWristWidth hand in
          let scale := wristWidth * opt_or (sizeAdjustment bracelet_item) 1.2 in
          let rotation := calculateArmRotation hand in
          (this,
           Ok (drawn
                 (drawIf this (imageUrl bracelet_item)
                    (px wrist * videoWidth) (py wrist * videoHeight)
                    (scale * videoWidth) rotation)))
      end
  end.

(** [renderWatch(...)] *)
Definition renderWatch (this : Renderer) (watch_item : JewelryItem)
    (trackingPoints : TrackingPoints) (videoWidth videoHeight : num)
  : Renderer * result (list DrawOp) :=
  match chooseHand watch_item trackingPoints with
  | None => (this, Ok [])
  | Some hand =>
      match getWatchPosition hand with
      | None => (this, Ok [])
      | Some watchPoint =>
          let sp := smoothedPositions this in
          let wristPos :=
            smoothPosition (watch sp) watchPoint (smoothingFactor this) in
          let this :=
            withPositions this
              (mkSmoothed (earrings_left sp) (earrings_right sp) (necklace sp)
                          (ring sp) (bracelet sp) (Some wristPos)) in
          let wristWidth := estimateWristWidth hand in
          let scale := wristWidth * opt_or (sizeAdjustment watch_item) 1.5 in
          let rotation := calculateArmRotation hand in
          (this,
           Ok (drawn
                 (drawIf this (imageUrl watch_item)
                    (px wristPos * videoWidth) (py wristPos * videoHeight)
                    (scale * videoWidth) rotation)))
      end
  end.

(** [render(canvasContext, jewelryItem, trackingPoints, videoWidth,
    videoHeight)].  [lastRenderedType] is stored after the [switch], so not
    when the chosen method threw. *)
Definition render (this : Renderer) (jewelryItem : JewelryItem)
    (trackingPoints : TrackingPoints) (videoWidth videoHeight : num)
  : Renderer * result (list DrawOp) :=
  let jewelryType := type jewelryItem in
  let '(this, drawn) :=
    if bool_decide (jewelryType = "earrings") then
      renderEarrings this jewelryItem trackingPoints videoWidth videoHeight
    else if bool_decide (jewelryType = "necklace") then
      renderNecklace this jewelryItem trackingPoints videoWidth videoHeight
    else if bool_decide (jewelryType = "ring") then
      renderRing this jewelryItem trackingPoints videoWidth videoHeight
    else if bool_decide (jewelryType = "bracelet") then
      renderBracelet this jewelryItem trackingPoints videoWidth videoHeight
    else if bool_decide (jewelryType = "watch") then
      renderWatch this jewelryItem trackingPoints videoWidth videoHeight
    else (this, Ok []) in
  match drawn with
  | Ok ops =>
      (mkRenderer (textures this) (smoothedPositions this)
                  (smoothingFactor this) (Some jewelryType),
       Ok ops)
  | Throw e => (this, Throw e)
  end.

(** The frames of a session: [render] called once per frame on the
    renderer the previous frame left; the draws of each frame in order.  A
    frame whose [render] threw has drawn nothing. *)
Fixpoint frames (this : Renderer) (jewelryItem : JewelryItem)
    (videoWidth videoHeight : num) (inputs : list TrackingPoints)
  : Renderer * list (list DrawOp) :=
  match inputs with
  | [] => (this, [])
  | trackingPoints :: rest =>
      let '(this, result) :=
        render this jewelryItem trackingPoints videoWidth videoHeight in
      let '(this, outs) :=
        frames this jewelryItem videoWidth videoHeight rest in
      (this, match result with Ok ops => ops | Throw _ => [] end :: outs)
  end.

End WithMath.

End JewelryRenderer.

(** ** The telemetry store of the server
    (the controller that follows the renderer in
    [src/utils/JewelryRenderer.js])

    [Body] is the parsed request body; [metrics body] says whether
    [body.metrics] is truthy. *)

Module TelemetryController.

Definition MAX_TELEMETRY_ENTRIES : nat := 100.

(** [array.slice(0, end)] for an integer [end]: a negative [end] counts
    from the end of the array. *)
Definition slice0 {A} (l : list A) (end_ : Z) : list A :=
  let len := Z.of_nat (List.length l) in
  let final := if (end_ <? 0)%Z then Z.max (len + end_) 0 else Z.min end_ len in
  take (Z.to_nat final) l.

Section Store.
Context {Body : Type} (metrics : Body -> bool).

(** A stored entry [{...req.body, received}]. *)
Record Entry := mkEntry { entry_body : Body; received : string }.

(** The request, as far as the handlers read it: [req.body] ([None] when
    no body was parsed), [req.query.analyze], and the value of
    [parseInt(req.query.limit)] ([None] for NaN). *)
Record Request := mkRequest {
  req_body : option Body;
  query_analyze : option string;
  query_limit : option Z
}.

(** The JSON document of a response. *)
Inductive Json :=
| ErrorJson (message : string) (error : option JsError)
| ReceivedJson (message : string) (analyze : bool)
| EntriesJson (count : nat) (data : list Entry)
| ClearedJson (message : string).

Record Response := mkResponse { status : nat; json : Json }.

(** [receiveTelemetry(req, res)] at the time [now] that
    [new Date().toISOString()] reads: the store afterwards, the response,
    and the entry handed to the background analysis when the query asks
    for one. *)
Definition receiveTelemetry (now : string) (telemetryStore : list Entry)
    (req : Request) : list Entry * Response * option Entry :=
  match req_body req with
  | None =>
      (telemetryStore,
       mkResponse 500
         (ErrorJson "Failed to process telemetry data" (Some TypeError)),
       None)
  | Some body =>
      if negb (metrics body) then
        (telemetryStore,
         mkResponse 400 (ErrorJson "Telemetry metrics are required" None),
         None)
      else
        let telemetryEntry := mkEntry body now in
        let telemetryStore := telemetryEntry :: telemetryStore in
        let telemetryStore :=
          if bool_decide (MAX_TELEMETRY_ENTRIES < List.length telemetryStore)%nat
          then take MAX_TELEMETRY_ENTRIES telemetryStore
          else telemetryStore in
        let shouldAnalyze := bool_decide (query_analyze req = Some "true") in
        (telemetryStore,
         mkResponse 200 (ReceivedJson "Telemetry data received" shouldAnalyze),
         if shouldAnalyze then Some telemetryEntry else None)
  end.

(** [getTelemetry(req, res)] *)
Definition getTelemetry (telemetryStore : list Entry) (req : Request)
  : Response :=
  let limit :=
    match query_limit req with
    | Some parsed => if (parsed =? 0)%Z then 10%Z else parsed
    | None => 10%Z
    end in
  let entries := slice0 telemetryStore limit in
  mkResponse 200 (EntriesJson (List.length entries) entries).

(** [clearTelemetry(req, res)] *)
Definition clearTelemetry (telemetryStore : list Entry) (req : Request)
  : list Entry * Response :=
  ([], mkResponse 200 (ClearedJson "Telemetry data cleared")).

(** One request to the controller, and the controller serving a list of
    them in order. *)
Inductive Call :=
| Receive (now : string) (req : Request)
| Get (req : Request)
| Clear (req : Request).

Definition serve (telemetryStore : list Entry) (call : Call)
  : list Entry * Response :=
  match call with
  | Receive now req => (receiveTelemetry now telemetryStore req).1
  | Get req => (telemetryStore, getTelemetry telemetryStore req)
  | Clear req => clearTelemetry telemetryStore req
  end.

Fixpoint serveAll (telemetryStore : list Entry) (calls : list Call)
  : list Entry * list Response :=
  match calls with
  | [] => (telemetryStore, [])
  | call :: rest =>
      let '(telemetryStore, response) := serve telemetryStore call in
      let '(telemetryStore, responses) := serveAll telemetryStore rest in
      (telemetryStore, response :: responses)
  end.

End Store.

Arguments Entry : clear implicits.
Arguments Request : clear implicits.
Arguments Json : clear implicits.
Arguments Response : clear implicits.
Arguments Call : clear implicits.

End TelemetryController.

(** ** Binary64 numbers as the IEEE specification has them

    [Prim2SF] reads a number as a sign, a mantissa and an exponent, or as a
    zero, an infinity or NaN.  The classes below are stated on that
    reading. *)

Module Binary64.
Local Open Scope Z_scope.

(** The number of binary digits of a mantissa. *)
Definition digits (m : Z) : Z := Zdigits2 m.

(** The binary order of magnitude of a finite number: [m * 2^e] with [d]
    digits in [m] lies in [[2^(d+e-1), 2^(d+e))]. *)
Definition magnitude (f : spec_float) : Z :=
  match f with
  | S754_finite _ m e => digits (Zpos m) + e
  | _ => 0
  end.

(** Neither NaN nor an infinity. *)
Definition finite (f : spec_float) : Prop :=
  match f with
  | S754_zero _ | S754_finite _ _ _ => True
  | _ => False
  end.

(** Not NaN and not negative (a zero of either sign counts). *)
Definition nonneg (f : spec_float) : Prop :=
  match f with
  | S754_zero _ => True
  | S754_infinity s | S754_finite s _ _ => s = false
  | S754_nan => False
  end.

(** Positive and of magnitude at least [k], or plus infinity. *)
Definition reaches (k : Z) (f : spec_float) : Prop :=
  match f with
  | S754_infinity s => s = false
  | S754_finite s m e => s = false /\ k <= digits (Zpos m) + e
  | _ => False
  end.

(** [x*x + y*y + z*z], as the operations round it. *)
Definition sum_of_squares (x y z : spec_float) : spec_float :=
  SF64add (SF64add (SF64mul x x) (SF64mul y y)) (SF64mul z z).

End Binary64.

(** ** The specification's wording, for comparison *)

Module Spec.

(** Euclidean distance of two points (with [z] read as a number). *)
Definition distance (a b : Point3D) : num :=
  Math_sqrt ((px b - px a) * (px b - px a)
             + (py b - py a) * (py b - py a)
             + (zn b - zn a) * (zn b - zn a)).

(** "[neckBase] as the midpoint of left/right ear points offset downward by
    a configurable fraction of inter-ear distance": downward is the
    direction of growing [y] on the image. *)
Definition neckBase (fraction : num) (leftEar rightEar : Point3D) : Point3D :=
  mkPoint ((px leftEar + px rightEar) / 2)
          ((py leftEar + py rightEar) / 2
           + fraction * distance leftEar rightEar)
          (Some ((zn leftEar + zn rightEar) / 2)).

(** "No NaN or Infinity components". *)
Definition finiteVec (v : Vec3) : bool :=
  is_finite (vx v) && is_finite (vy v) && is_finite (vz v).

End Spec.

(** ** Inputs used in the examples *)

Module Examples.

(** A landmark array with holes everywhere but at the listed places. *)
Definition sparse (n : nat) (entries : list (nat * Point3D))
  : list (option Point3D) :=
  foldr (fun e l => <[e.1 := Some e.2]> l) (replicate n None) entries.


Definition ringItem : JewelryItem :=
  mkItem "ring" None None (Some 1) (Some "ring.png") None None.

(** Watch: a right hand with wrist (0.5, 0.8, 0) and pinky MCP
    (0.6, 0.75, 0), and a watch that prefers the left hand. *)
Definition wrist : Point3D := mkPoint 0.5 0.8 (Some 0).
Definition pinky_mcp : Point3D := mkPoint 0.6 0.75 (Some 0).
Definition middle_mcp : Point3D := mkPoint 0.5 0.6 (Some 0).

Definition watchPrediction : HandPoseDetector.Prediction :=
  HandPoseDetector.mkPrediction
    (Some (sparse 21 [(0%nat, wrist); (17%nat, pinky_mcp)])) None
    (Some "Right") None.

Definition watchItem : JewelryItem :=
  mkItem "watch" (Some "left") None (Some 1) (Some "watch.png") None None.

(** The same hand with the middle-finger MCP (landmark 9) as well. *)
Definition watchHand : JewelryRenderer.Hand :=
  JewelryRenderer.mkHand
    (Some (sparse 21 [(0%nat, wrist); (9%nat, middle_mcp); (17%nat, pinky_mcp)])).

(** A ring for the left hand, and a frame in which only a right hand with
    all 21 landmarks was found. *)
Definition leftRingItem : JewelryItem :=
  mkItem "ring" (Some "left") None (Some 1) (Some "ring.png") None None.

Definition rightRingItem : JewelryItem :=
  mkItem "ring" (Some "right") None (Some 1) (Some "ring.png") None None.

Definition fullHand : JewelryRenderer.Hand :=
  JewelryRenderer.mkHand (Some (replicate 21 (Some (mkPoint 0.5 0.5 (Some 0))))).

Definition onlyRightHand : JewelryRenderer.TrackingPoints :=
  JewelryRenderer.mkTracking None None (Some fullHand).

Definition onlyLeftHand : JewelryRenderer.TrackingPoints :=
  JewelryRenderer.mkTracking None (Some fullHand) None.

(** A renderer with the example images in its cache. *)
Definition renderer : JewelryRenderer.Renderer :=
  JewelryRenderer.mkRenderer
    {[ "ring.png"; "watch.png"; "left.png"; "right.png"; "necklace.png" ]}
    JewelryRenderer.emptyPositions 0.7 None.

(** Face: both ears at (100, 150, 0). *)
Definition ear : Point3D := mkPoint 100 150 (Some 0).

Definition earsPrediction : FaceLandmarkDetector.Prediction :=
  FaceLandmarkDetector.mkPrediction
    (Some (sparse 468 [(234%nat, ear); (454%nat, ear)])) None.

(** The ears of the mock detection, 200 apart, and a face twice as wide. *)
Definition mockPrediction : FaceLandmarkDetector.Prediction :=
  FaceLandmarkDetector.mkPrediction
    (Some (sparse 468 [(234%nat, mkPoint 100 150 (Some 0));
                       (454%nat, mkPoint 300 150 (Some 0))])) None.

Definition widePrediction : FaceLandmarkDetector.Prediction :=
  FaceLandmarkDetector.mkPrediction
    (Some (sparse 468 [(234%nat, mkPoint 100 150 (Some 0));
                       (454%nat, mkPoint 500 150 (Some 0))])) None.

(** A face of the canvas renderer in normalized coordinates. *)
Definition facePoint : Point3D := mkPoint 0.5 0.5 (Some 0).

Definition detectedFace : JewelryRenderer.TrackingPoints :=
  JewelryRenderer.mkTracking
    (Some (JewelryRenderer.mkFace (Some (replicate 468 (Some facePoint))) None))
    None None.




Definition earringsItem : JewelryItem :=
  mkItem "earrings" None None (Some 1) None (Some "left.png") (Some "right.png").

Definition necklaceItem : JewelryItem :=
  mkItem "necklace" None None (Some 1) (Some "necklace.png") None None.

(** A face of which only the two ears (234, 454) came through, and one of
    which only the left ear did. *)
Definition earsOnlyFace : JewelryRenderer.TrackingPoints :=
  JewelryRenderer.mkTracking
    (Some (JewelryRenderer.mkFace
             (Some (sparse 468 [(234%nat, facePoint); (454%nat, facePoint)]))
             None))
    None None.

Definition leftEarOnlyFace : JewelryRenderer.TrackingPoints :=
  JewelryRenderer.mkTracking
    (Some (JewelryRenderer.mkFace
             (Some (sparse 468 [(234%nat, facePoint)])) None))
    None None.

(** Rings for finger 0, the thumb, and for a finger 5 that no hand has. *)
Definition thumbRingItem : JewelryItem :=
  mkItem "ring" None (Some 0%N) (Some 1) (Some "ring.png") None None.

Definition sixthFingerRingItem : JewelryItem :=
  mkItem "ring" None (Some 5%N) (Some 1) (Some "ring.png") None None.

(** Earrings as the AR view names them, and a face detection of which only
    the left ear keypoint is there. *)
Definition earringItem : JewelryItem :=
  mkItem "earring" None None (Some 1) None (Some "left.png") (Some "right.png").

Definition leftEarOnlyDetection : ARVirtualTryOn.Face :=
  ARVirtualTryOn.mkFace (Some {[ "leftEar" := Some ear ]}).

(** A bracelet, and a detected hand with a wrist keypoint and no
    orientation. *)
Definition braceletItem : JewelryItem :=
  mkItem "bracelet" None None (Some 1) (Some "bracelet.png") None None.

Definition wristOnlyHand : HandPoseDetector.Hand :=
  HandPoseDetector.mkHand None (Some {[ "wrist" := wrist ]}) "Right"
                          None None None.

(** A 2-D prediction: one landmark, the wrist, without z. *)
Definition flatPrediction : HandPoseDetector.Prediction :=
  HandPoseDetector.mkPrediction None (Some [Some (mkPoint 0.5 0.8 None)])
                                (Some "Left") None.

(** A hand all of whose 21 landmarks lie on one point, and the same hand
    with two landmarks more. *)
Definition pointHandPrediction : HandPoseDetector.Prediction :=
  HandPoseDetector.mkPrediction (Some (replicate 21 (Some facePoint))) None
                                None None.

Definition longHandPrediction : HandPoseDetector.Prediction :=
  HandPoseDetector.mkPrediction (Some (replicate 23 (Some facePoint))) None
                                None None.

(** A prediction with neither [keypoints3D] nor [keypoints]. *)
Definition emptyHandPrediction : HandPoseDetector.Prediction :=
  HandPoseDetector.mkPrediction None None (Some "Right") None.

(** A detector whose model, here a token, is loaded. *)
Definition readyDetector : HandPoseDetector.Detector () :=
  HandPoseDetector.mkDetector (Some ()) true 0 0.7 2.

(** A full face mesh with level eyes: left eye (33) at (150, 100), right
    eye (263) at (250, 100), nose tip (1) at (200, 150). *)
Definition levelFacePrediction : FaceLandmarkDetector.Prediction :=
  FaceLandmarkDetector.mkPrediction
    (Some (sparse 468 [(33%nat, mkPoint 150 100 (Some 0));
                       (263%nat, mkPoint 250 100 (Some 0));
                       (1%nat, mkPoint 200 150 (Some 0))])) None.

(** A renderer whose bracelet slot holds a position with x = NaN. *)
Definition nanRenderer : JewelryRenderer.Renderer :=
  JewelryRenderer.mkRenderer ∅
    (JewelryRenderer.mkSmoothed None None None None
       (Some (mkPoint nan 0.5 (Some 0))) None)
    0.7 None.

(** Telemetry reports whose body is just the flag that says whether it has
    metrics. *)
Definition report : TelemetryController.Request bool :=
  TelemetryController.mkRequest (Some true) None None.

Definition query (limit : Z) : TelemetryController.Request bool :=
  TelemetryController.mkRequest None None (Some limit).

End Examples.

(** * Properties *)

(** Two numbers that differ under [=?] are different. *)
Lemma num_neq (a b : num) : (a =? b) = false -> (b =? b) = true -> a <> b.
Proof. intros Hab Hbb ->. congruence. Qed.

Ltac num_neq := apply num_neq; vm_compute; reflexivity.

(** Reading a property of an object written as a chain of assignments. *)
Ltac lookups :=
  repeat first [ rewrite lookup_insert_eq
               | rewrite lookup_insert_ne by done
               | rewrite lookup_empty ].

(** ** The temporal smoother *)

(** C1: with the default factor 0.7 the smoother returns
    previous * 0.7 + current * (1 - 0.7) on each of x, y and z, and
    previous = 100 with current = 0 gives exactly 70 on each of them. *)
Theorem C1_smoothPosition_default :
  JewelryRenderer.smoothingFactor JewelryRenderer.constructor = 0.7 /\
  (forall p c : Point3D,
     JewelryRenderer.smoothPosition (Some p) c
       (JewelryRenderer.smoothingFactor JewelryRenderer.constructor) =
     mkPoint (px p * 0.7 + px c * (1 - 0.7))
             (py p * 0.7 + py c * (1 - 0.7))
             (Some (zn p * 0.7 + zn c * (1 - 0.7)))) /\
  JewelryRenderer.smoothPosition
    (Some (mkPoint 100 100 (Some 100))) (mkPoint 0 0 (Some 0))
    (JewelryRenderer.smoothingFactor JewelryRenderer.constructor) =
  mkPoint 70 70 (Some 70).
Proof.
  split; [reflexivity|]. split.
  - intros p c. reflexivity.
  - vm_compute. reflexivity.
Qed.

(** ** The ring resolver *)

Section Ring.
Context `{MathImpl}.
Import ARVirtualTryOn.

Lemma targetHandOf_nonempty hands item hand :
  targetHandOf hands item = Some hand -> List.length hands <> 0%nat.
Proof.
  unfold targetHandOf. destruct hands as [|h hs]; simpl; [|lia].
  by destruct (bool_decide (preferredHand item = Some "left")).
Qed.


End Ring.



(** ** Hand selection *)

Section HandSelection.
Import ARVirtualTryOn.

(** The AR resolver uses a hand of the preferred side when one is among the
    detections: the first such hand in detection order. *)
Lemma targetHandOf_preferred hands item :
  (exists hand, hand ∈ hands /\ HandPoseDetector.hand_handedness hand = sideOf item) ->
  exists hand,
    targetHandOf hands item = Some hand /\
    hand ∈ hands /\ HandPoseDetector.hand_handedness hand = sideOf item.
Proof.
  intros (hand & Hin & Hside). unfold targetHandOf, sideOf in *.
  destruct (bool_decide (preferredHand item = Some "left"));
    (destruct (List.find _ hands) as [found|] eqn:Hfind;
     [ apply List.find_some in Hfind as [Hfin Hdec];
       exists found; split; [done|]; split;
       [ by apply list_elem_of_In | by apply bool_decide_eq_true in Hdec ]
     | apply list_elem_of_In in Hin;
       apply (List.find_none _ _ Hfind) in Hin;
       by apply bool_decide_eq_false in Hin ]).
Qed.

(** Otherwise it falls back to the first detected hand. *)
Lemma targetHandOf_fallback hands item first rest :
  hands = first :: rest ->
  (forall hand, hand ∈ hands ->
     HandPoseDetector.hand_handedness hand <> sideOf item) ->
  targetHandOf hands item = Some first.
Proof.
  intros -> Hnone. unfold targetHandOf, sideOf in *.
  destruct (bool_decide (preferredHand item = Some "left"));
    (destruct (List.find _ (first :: rest)) as [found|] eqn:Hfind;
     [ apply List.find_some in Hfind as [Hfin Hdec];
       apply bool_decide_eq_true in Hdec;
       exfalso; apply (Hnone found); [by apply list_elem_of_In|done]
     | reflexivity ]).
Qed.

End HandSelection.

Section CanvasHandSelection.
Context `{MathImpl}.
Import JewelryRenderer.

(** The canvas renderer looks for a left-hand item on the left hand only. *)
Lemma chooseHand_left item trackingPoints :
  preferredHand item = Some "left" ->
  chooseHand item trackingPoints = leftHand trackingPoints.
Proof. intros Hleft. unfold chooseHand. by rewrite bool_decide_true. Qed.

(** Any other preference takes the right hand and falls back to the left. *)
Lemma chooseHand_other item trackingPoints :
  preferredHand item <> Some "left" ->
  chooseHand item trackingPoints =
  match rightHand trackingPoints with
  | Some hand => Some hand
  | None => leftHand trackingPoints
  end.
Proof. intros Hleft. unfold chooseHand. by rewrite bool_decide_false. Qed.

(** C4 at the failing input: a ring that prefers the left hand, in a frame
    where only a right hand was found, is not drawn by the canvas renderer,
    while a ring that prefers the right hand falls back to the only (left)
    hand and is drawn. *)
Theorem C4_renderRing_left_without_fallback :
  chooseHand Examples.leftRingItem Examples.onlyRightHand = None /\
  renderRing Examples.renderer Examples.leftRingItem Examples.onlyRightHand
             640 480 = (Examples.renderer, Ok []) /\
  chooseHand Examples.rightRingItem Examples.onlyLeftHand
  = Some Examples.fullHand /\
  exists this op,
    renderRing Examples.renderer Examples.rightRingItem Examples.onlyLeftHand
               640 480 = (this, Ok [op]).
Proof.
  split; [reflexivity|]. split; [reflexivity|]. split; [reflexivity|].
  eexists _, _. vm_compute. reflexivity.
Qed.

End CanvasHandSelection.

(** ** The hand keypoint map *)

Section HandKeypoints.
Import HandPoseDetector.

Lemma handLandmarkNames_NoDup : NoDup handLandmarkNames.
Proof. by apply (bool_decide_unpack _). Qed.

Lemma handLandmarkNames_not_derived name i :
  handLandmarkNames !! i = Some name ->
  name <> "ring_position" /\ name <> "bracelet_position" /\
  name <> "watch_position".
Proof.
  intros Hname.
  assert (Hall : Forall (fun n => n <> "ring_position" /\
                                  n <> "bracelet_position" /\
                                  n <> "watch_position") handLandmarkNames)
    by (by apply (bool_decide_unpack _)).
  by apply (proj1 (Forall_lookup _ _) Hall i name).
Qed.

(** After the first [n] rounds of the loop, the name of place [i] holds the
    landmark of place [i] when [i < n] and the landmark is there, and is
    missing otherwise. *)
Lemma named_rounds (lms : list (option Point3D)) (n i : nat) (name : string) :
  handLandmarkNames !! i = Some name ->
  foldl (nameLandmark lms) ∅ (seq 0 n) !! name =
  if decide (i < n)%nat then keypointOf <$> mjoin (lms !! i) else None.
Proof.
  intros Hname. induction n as [|n IH].
  - simpl. rewrite lookup_empty. by destruct (decide (i < 0)%nat); [lia|].
  - rewrite seq_S, foldl_app. simpl. unfold nameLandmark at 1.
    destruct (handLandmarkNames !! n) as [nm|] eqn:Hn.
    + destruct (mjoin (lms !! n)) as [lm|] eqn:Hlm.
      * destruct (decide (nm = name)) as [->|Hne].
        -- assert (n = i) as ->
             by (eapply NoDup_lookup; eauto using handLandmarkNames_NoDup).
           rewrite lookup_insert_eq, Hlm.
           by destruct (decide (i < S i)%nat); [|lia].
        -- rewrite lookup_insert_ne by done. rewrite IH.
           assert (i <> n) by congruence.
           destruct (decide (i < n)%nat), (decide (i < S n)%nat);
             try reflexivity; lia.
      * rewrite IH.
        destruct (decide (i < n)%nat), (decide (i < S n)%nat);
          try reflexivity; try lia.
        assert (i = n) as -> by lia. by rewrite Hlm.
    + rewrite IH. assert (i <> n) by congruence.
      destruct (decide (i < n)%nat), (decide (i < S n)%nat);
        try reflexivity; lia.
Qed.

(** The three derived positions are stored under names of their own, so
    they leave the named landmarks as the loop stored them. *)
Lemma addRingPosition_keep (keypoints : gmap string Point3D) name :
  name <> "ring_position" ->
  addRingPosition keypoints !! name = keypoints !! name.
Proof.
  intros Hne. unfold addRingPosition.
  repeat case_match; by rewrite ?lookup_insert_ne by done.
Qed.

Lemma addBraceletPosition_keep (keypoints : gmap string Point3D) name :
  name <> "bracelet_position" ->
  addBraceletPosition keypoints !! name = keypoints !! name.
Proof.
  intros Hne. unfold addBraceletPosition.
  repeat case_match; by rewrite ?lookup_insert_ne by done.
Qed.

Lemma addWatchPosition_keep (keypoints : gmap string Point3D) name :
  name <> "watch_position" ->
  addWatchPosition keypoints !! name = keypoints !! name.
Proof.
  intros Hne. unfold addWatchPosition.
  repeat case_match; by rewrite ?lookup_insert_ne by done.
Qed.

Lemma derived_keep (keypoints : gmap string Point3D) (name : string) :
  name <> "ring_position" -> name <> "bracelet_position" ->
  name <> "watch_position" ->
  addWatchPosition (addBraceletPosition (addRingPosition keypoints)) !! name
  = keypoints !! name.
Proof.
  intros Hr Hb Hw.
  by rewrite addWatchPosition_keep, addBraceletPosition_keep,
             addRingPosition_keep.
Qed.

(** What [extractKeypoints] stores under each landmark name. *)
Lemma extractKeypoints_named prediction lms :
  landmarksOf prediction = Some lms ->
  exists keypoints,
    extractKeypoints prediction = Ok keypoints /\
    forall i name,
      handLandmarkNames !! i = Some name ->
      keypoints !! name = keypointOf <$> mjoin (lms !! i).
Proof.
  intros Hlms. unfold extractKeypoints. rewrite Hlms.
  eexists. split; [reflexivity|].
  intros i name Hname.
  destruct (handLandmarkNames_not_derived _ _ Hname) as (Hr & Hb & Hw).
  rewrite derived_keep by done.
  rewrite (named_rounds lms _ i name Hname).
  destruct (decide (i < List.length lms)%nat) as [|Hge]; [done|].
  rewrite lookup_ge_None_2 by lia. reflexivity.
Qed.

(** The watch composite. *)
Lemma extractKeypoints_watch_position prediction lms wrist pinky_mcp :
  landmarksOf prediction = Some lms ->
  lms !! 0%nat = Some (Some wrist) ->
  lms !! 17%nat = Some (Some pinky_mcp) ->
  exists keypoints,
    extractKeypoints prediction = Ok keypoints /\
    keypoints !! "wrist" = Some (keypointOf wrist) /\
    keypoints !! "pinky_mcp" = Some (keypointOf pinky_mcp) /\
    keypoints !! "watch_position" =
    Some (mkPoint (px wrist * 0.8 + px pinky_mcp * 0.2)
                  (py wrist * 0.8 + py pinky_mcp * 0.2)
                  (Some (opt_or (pz wrist) 0 * 0.8
                         + opt_or (pz pinky_mcp) 0 * 0.2))).
Proof.
  intros Hlms Hwrist Hpinky.
  destruct (extractKeypoints_named prediction lms Hlms)
    as (keypoints & Hextract & Hnamed).
  exists keypoints. split; [done|].
  pose proof (Hnamed 0%nat "wrist" eq_refl) as Hw.
  pose proof (Hnamed 17%nat "pinky_mcp" eq_refl) as Hp.
  rewrite Hwrist in Hw. rewrite Hpinky in Hp. simpl in Hw, Hp.
  split; [done|]. split; [done|].
  unfold extractKeypoints in Hextract. rewrite Hlms in Hextract.
  injection Hextract as <-.
  set (named := foldl (nameLandmark lms) ∅ (seq 0 (List.length lms))) in *.
  rewrite addWatchPosition_keep in Hw, Hp by done.
  unfold addWatchPosition. rewrite Hw, Hp.
  rewrite lookup_insert_eq. reflexivity.
Qed.

(** The set holds nothing under any other name. *)
Lemma named_rounds_other (lms : list (option Point3D)) (n : nat) (key : string) :
  key ∉ handLandmarkNames ->
  foldl (nameLandmark lms) ∅ (seq 0 n) !! key = None.
Proof.
  intros Hkey. induction n as [|n IH]; [done|].
  rewrite seq_S, foldl_app. simpl. unfold nameLandmark at 1.
  destruct (handLandmarkNames !! n) as [nm|] eqn:Hn; [|done].
  destruct (mjoin (lms !! n)) as [lm|]; [|done].
  rewrite lookup_insert_ne; [done|].
  intros ->. apply Hkey. by eapply list_elem_of_lookup_2.
Qed.

Lemma extractKeypoints_other prediction keypoints key :
  extractKeypoints prediction = Ok keypoints ->
  key ∉ handLandmarkNames ->
  key <> "ring_position" -> key <> "bracelet_position" ->
  key <> "watch_position" ->
  keypoints !! key = None.
Proof.
  unfold extractKeypoints.
  destruct (landmarksOf prediction) as [lms|]; [|discriminate].
  intros [= <-] Hkey Hr Hb Hw.
  rewrite derived_keep by done. by apply named_rounds_other.
Qed.

End HandKeypoints.

(** The AR resolver looks the ring finger up under the names ["3_mcp"] and
    ["3_pip"], which the hand map never assigns: on the hands that
    [processPredictions] returns, a ring of the default finger is not
    drawn. *)
Lemma ring_keys_of_detected_hands `{MathImpl} predictions hands hand :
  HandPoseDetector.processPredictions predictions = Ok hands ->
  hand ∈ hands ->
  exists keypoints,
    HandPoseDetector.hand_keypoints hand = Some keypoints /\
    keypoints !! "3_mcp" = None /\ keypoints !! "3_pip" = None.
Proof.
  revert hands. induction predictions as [|prediction rest IH];
    simpl; intros hands.
  - intros [= <-] ?%elem_of_nil. done.
  - unfold HandPoseDetector.processPrediction.
    destruct (HandPoseDetector.extractKeypoints prediction)
      as [keypoints|] eqn:Hextract; [|discriminate].
    cbn [mbind result_bind JS.bind].
    destruct (HandPoseDetector.calculateHandMeasurements prediction);
      [|discriminate].
    destruct (HandPoseDetector.calculateHandOrientation prediction);
      [|discriminate].
    cbn [JS.bind].
    destruct (HandPoseDetector.processPredictions rest) as [others|];
      [|discriminate].
    intros [= <-] [->|Hin]%elem_of_cons; [|by apply (IH others)].
    exists keypoints. split; [done|].
    split; eapply extractKeypoints_other; eauto;
      first [by apply (bool_decide_unpack _) | done].
Qed.

Lemma ring_not_drawn_on_detected_hands `{MathImpl}
    itemAdjustments predictions hands item :
  HandPoseDetector.processPredictions predictions = Ok hands ->
  type item = "ring" -> fingerIndex item = None ->
  ARVirtualTryOn.drawHandItem itemAdjustments hands item = [].
Proof.
  intros Hhands Htype Hfinger. unfold ARVirtualTryOn.drawHandItem.
  case_bool_decide; [done|].
  destruct (ARVirtualTryOn.targetHandOf hands item) as [hand|] eqn:Htarget;
    [|done].
  assert (hand ∈ hands) as Hin.
  { unfold ARVirtualTryOn.targetHandOf in Htarget.
    destruct (bool_decide (preferredHand item = Some "left"));
      (destruct (List.find _ hands) as [found|] eqn:Hfind;
       [ injection Htarget as <-; apply List.find_some in Hfind as [Hf _];
         by apply list_elem_of_In
       | destruct hands; simpl in Htarget; [done|];
         injection Htarget as <-; by left ]). }
  destruct (ring_keys_of_detected_hands predictions hands hand Hhands Hin)
    as (keypoints & -> & Hmcp & Hpip).
  rewrite Htype. simpl. unfold fingerIndexOr. rewrite Hfinger.
  change (pretty 3%N +:+ "_mcp") with "3_mcp".
  by rewrite Hmcp.
Qed.

(** ** The watch anchor *)

(** C3, as the code has it: the hand map derives [watch_position] as
    wrist * 0.8 + pinky_mcp * 0.2 on x, y and z (a missing z counting as 0),
    but no resolver anchors the watch there.  The AR resolver draws the
    watch at the wrist keypoint, and [getWatchPosition] of the canvas
    renderer blends the wrist with landmark 9, the middle-finger MCP. *)
Theorem C3_watch_position
    (prediction : HandPoseDetector.Prediction)
    (lms : list (option Point3D)) (wrist pinky_mcp : Point3D) :
  HandPoseDetector.landmarksOf prediction = Some lms ->
  lms !! 0%nat = Some (Some wrist) ->
  lms !! 17%nat = Some (Some pinky_mcp) ->
  exists keypoints,
    HandPoseDetector.extractKeypoints prediction = Ok keypoints /\
    keypoints !! "watch_position" =
      Some (mkPoint (px wrist * 0.8 + px pinky_mcp * 0.2)
                    (py wrist * 0.8 + py pinky_mcp * 0.2)
                    (Some (opt_or (pz wrist) 0 * 0.8
                           + opt_or (pz pinky_mcp) 0 * 0.2))) /\
    (forall (M : MathImpl) itemAdjustments handDetections item targetHand url,
       ARVirtualTryOn.targetHandOf handDetections item = Some targetHand ->
       HandPoseDetector.hand_keypoints targetHand = Some keypoints ->
       type item = "watch" ->
       url_truthy (imageUrl item) = Some url ->
       exists d,
         ARVirtualTryOn.drawHandItem itemAdjustments handDetections item = [d]
         /\ ARVirtualTryOn.di_x d = px wrist
         /\ ARVirtualTryOn.di_y d = py wrist) /\
    (forall middle_mcp,
       lms !! 9%nat = Some (Some middle_mcp) ->
       JewelryRenderer.getWatchPosition (JewelryRenderer.mkHand (Some lms)) =
       Some (mkPoint (px wrist * 0.8 + px middle_mcp * 0.2)
                     (py wrist * 0.8 + py middle_mcp * 0.2)
                     (Some (zn wrist * 0.8 + zn middle_mcp * 0.2)))).
Proof.
  intros Hlms Hwrist Hpinky.
  destruct (extractKeypoints_watch_position prediction lms wrist pinky_mcp
              Hlms Hwrist Hpinky) as (keypoints & Hextract & Hw & _ & Hwatch).
  exists keypoints. split; [done|]. split; [done|]. split.
  - intros M adj hands item hand url Htarget Hkeys Htype Hurl.
    unfold ARVirtualTryOn.drawHandItem.
    rewrite bool_decide_false
      by eauto using targetHandOf_nonempty.
    rewrite Htarget, Hkeys, Htype. simpl.
    rewrite Hw, Hurl. eexists. split; [reflexivity|]. done.
  - intros middle_mcp Hmiddle.
    unfold JewelryRenderer.getWatchPosition, idx. simpl.
    rewrite Hwrist, Hmiddle. reflexivity.
Qed.

(** The scenario of the specification: wrist (0.5, 0.8, 0), pinky MCP
    (0.6, 0.75, 0).  In binary64 the composite is
    (0.52, 0.7900000000000001, 0). *)
Lemma C3_watch_example :
  exists keypoints,
    HandPoseDetector.extractKeypoints Examples.watchPrediction = Ok keypoints /\
    keypoints !! "watch_position" =
      Some (mkPoint 0.52 0.7900000000000001 (Some 0)).
Proof.
  destruct (C3_watch_position Examples.watchPrediction
              (Examples.sparse 21 [(0%nat, Examples.wrist);
                                   (17%nat, Examples.pinky_mcp)])
              Examples.wrist Examples.pinky_mcp
              eq_refl eq_refl eq_refl)
    as (keypoints & Hextract & Hwatch & _).
  exists keypoints. split; [exact Hextract|].
  rewrite Hwatch. vm_compute. reflexivity.
Defined.

(** With the middle-finger MCP at (0.5, 0.6, 0) the canvas renderer puts the
    watch at (0.5, 0.76, 0) (0.7600000000000001 in binary64), between the
    wrist and the middle finger. *)
Lemma getWatchPosition_example :
  JewelryRenderer.getWatchPosition Examples.watchHand
  = Some (mkPoint 0.5 0.7600000000000001 (Some 0)).
Proof. vm_compute. reflexivity. Qed.

(** C3 as stated fails: in that scenario a watch that prefers the left hand
    is drawn on the only (right) hand at its wrist, (0.5, 0.8), and not at
    the hand's [watch_position]. *)
Lemma C3_watch_not_at_composite :
  exists hand composite d,
    (forall M : MathImpl,
       HandPoseDetector.processPredictions [Examples.watchPrediction]
       = Ok [hand]) /\
    HandPoseDetector.hand_keypoints hand ≫= (.!! "watch_position")
    = Some composite /\
    (forall M : MathImpl,
       ARVirtualTryOn.drawHandItem ARVirtualTryOn.initialAdjustments
         [hand] Examples.watchItem = [d]) /\
    ARVirtualTryOn.di_x d = 0.5 /\ ARVirtualTryOn.di_y d = 0.8 /\
    ARVirtualTryOn.di_x d <> px composite /\
    ARVirtualTryOn.di_y d <> py composite.
Proof.
  eexists _, _, _. split; [intros M; vm_compute; reflexivity|].
  split; [vm_compute; reflexivity|].
  split; [intros M; vm_compute; reflexivity|].
  split; [reflexivity|]. split; [reflexivity|].
  split; simpl; num_neq.
Qed.

(** ** The face keypoint map and the neck base *)

Section FaceKeypoints.
Import FaceLandmarkDetector.

Lemma either_Some (l : list (option Point3D)) (i j : nat) :
  either (Some l) i j = Ok (or_else (mjoin (l !! i)) (mjoin (l !! j))).
Proof. unfold either, idx. simpl. by destruct (mjoin (l !! i)). Qed.

(** On a non-empty array nothing throws; each name reads its first place,
    or its second when the first is missing, and [neckBase] is there when
    both ears are. *)
Lemma extractKeypoints_nonempty prediction l :
  landmarksOf prediction = Some l -> l <> [] ->
  exists keypoints,
    extractKeypoints prediction = Ok keypoints /\
    (forall name i j,
       (name, (i, j)) ∈ faceLandmarkIndices ->
       prop keypoints name = or_else (mjoin (l !! i)) (mjoin (l !! j))) /\
    prop keypoints "neckBase" =
      match or_else (mjoin (l !! 234%nat)) (mjoin (l !! 93%nat)),
            or_else (mjoin (l !! 454%nat)) (mjoin (l !! 323%nat)) with
      | Some leftEar, Some rightEar =>
          Some (mkPoint ((px leftEar + px rightEar) / 2)
                        (Math_max (py leftEar) (py rightEar) + 50)
                        (Some ((zn leftEar + zn rightEar) / 2)))
      | _, _ => None
      end.
Proof.
  intros Hl Hne. unfold extractKeypoints. rewrite Hl.
  rewrite bool_decide_false by (by destruct l).
  rewrite !either_Some. cbn [mbind result_bind JS.bind].
  set (leftEar := or_else (mjoin (l !! 234%nat)) (mjoin (l !! 93%nat))).
  set (rightEar := or_else (mjoin (l !! 454%nat)) (mjoin (l !! 323%nat))).
  unfold prop at 1 2. lookups. simpl.
  destruct leftEar as [le|] eqn:Hle, rightEar as [re|] eqn:Hre;
    (eexists; split; [reflexivity|]; split;
     [ intros name i j Hin; unfold faceLandmarkIndices in Hin;
       rewrite !elem_of_cons, elem_of_nil in Hin;
       unfold prop;
       destruct Hin as [Hin|[Hin|[Hin|[Hin|[Hin|[Hin|[Hin|[]]]]]]]];
       injection Hin as -> -> ->; lookups;
       try reflexivity; subst leftEar rightEar; by rewrite ?Hle, ?Hre
     | unfold prop; lookups; reflexivity ]).
Qed.

(** An empty or missing array gives the empty keypoint object. *)
Lemma extractKeypoints_empty prediction :
  landmarksOf prediction = None \/ landmarksOf prediction = Some [] ->
  extractKeypoints prediction = Ok ∅.
Proof. intros [Hl|Hl]; unfold extractKeypoints; by rewrite Hl. Qed.

(** The face map never throws. *)
Lemma extractKeypoints_total prediction :
  exists keypoints, extractKeypoints prediction = Ok keypoints.
Proof.
  destruct (landmarksOf prediction) as [[|lm l]|] eqn:Hl.
  - exists ∅. apply extractKeypoints_empty. by right.
  - destruct (extractKeypoints_nonempty prediction (lm :: l) Hl)
      as (keypoints & Hex & _); [done|]. by exists keypoints.
  - exists ∅. apply extractKeypoints_empty. by left.
Qed.

End FaceKeypoints.

(** C5, as the code has it: [neckBase] lies midway between the ears on x
    and z, and on y a fixed 50 below the lower ear, whatever the distance
    between the ears; the canvas renderer puts the neck 0.1 below the chin
    (landmark 152). *)
Theorem C5_neckBase_fixed_offset :
  (forall prediction l leftEar rightEar,
     FaceLandmarkDetector.landmarksOf prediction = Some l ->
     or_else (mjoin (l !! 234%nat)) (mjoin (l !! 93%nat)) = Some leftEar ->
     or_else (mjoin (l !! 454%nat)) (mjoin (l !! 323%nat)) = Some rightEar ->
     exists keypoints,
       FaceLandmarkDetector.extractKeypoints prediction = Ok keypoints /\
       FaceLandmarkDetector.prop keypoints "leftEar" = Some leftEar /\
       FaceLandmarkDetector.prop keypoints "rightEar" = Some rightEar /\
       FaceLandmarkDetector.prop keypoints "neckBase" =
         Some (mkPoint ((px leftEar + px rightEar) / 2)
                       (Math_max (py leftEar) (py rightEar) + 50)
                       (Some ((zn leftEar + zn rightEar) / 2)))) /\
  (forall face l chin,
     JewelryRenderer.face_landmarks face = Some l ->
     l !! 152%nat = Some (Some chin) ->
     JewelryRenderer.getNeckPosition face =
       Some (mkPoint (px chin) (py chin + 0.1) (pz chin))).
Proof.
  split.
  - intros prediction l leftEar rightEar Hl Hleft Hright.
    assert (Hne : l <> []) by (intros ->; discriminate).
    destruct (extractKeypoints_nonempty prediction l Hl Hne)
      as (keypoints & Hextract & Hnamed & Hneck).
    exists keypoints. split; [done|].
    rewrite (Hnamed "leftEar" 234%nat 93%nat),
            (Hnamed "rightEar" 454%nat 323%nat), Hneck, Hleft, Hright;
      [done| |]; unfold FaceLandmarkDetector.faceLandmarkIndices;
      rewrite !elem_of_cons; auto.
  - intros face l chin Hl Hchin.
    unfold JewelryRenderer.getNeckPosition, idx. rewrite Hl. simpl.
    by rewrite Hchin.
Qed.

(** Ears 200 apart and ears 400 apart, both at y = 150, give a
    [neckBase] at y = 200. *)
Lemma C5_neckBase_examples :
  (exists keypoints,
     FaceLandmarkDetector.extractKeypoints Examples.mockPrediction
     = Ok keypoints /\
     FaceLandmarkDetector.prop keypoints "neckBase"
     = Some (mkPoint 200 200 (Some 0))) /\
  (exists keypoints,
     FaceLandmarkDetector.extractKeypoints Examples.widePrediction
     = Ok keypoints /\
     FaceLandmarkDetector.prop keypoints "neckBase"
     = Some (mkPoint 300 200 (Some 0))).
Proof.
  split.
  - destruct (proj1 C5_neckBase_fixed_offset Examples.mockPrediction _
                (mkPoint 100 150 (Some 0)) (mkPoint 300 150 (Some 0))
                eq_refl eq_refl eq_refl)
      as (keypoints & Hextract & _ & _ & Hneck).
    exists keypoints. split; [exact Hextract|].
    rewrite Hneck. vm_compute. reflexivity.
  - destruct (proj1 C5_neckBase_fixed_offset Examples.widePrediction _
                (mkPoint 100 150 (Some 0)) (mkPoint 500 150 (Some 0))
                eq_refl eq_refl eq_refl)
      as (keypoints & Hextract & _ & _ & Hneck).
    exists keypoints. split; [exact Hextract|].
    rewrite Hneck. vm_compute. reflexivity.
Defined.

(** A product with zero is a zero or NaN. *)
Lemma mul_zero_cases (f : num) :
  (exists s, Prim2SF (f * 0) = S754_zero s) \/ Prim2SF (f * 0) = S754_nan.
Proof.
  rewrite mul_spec. change (Prim2SF 0) with (S754_zero false).
  destruct (Prim2SF f) as [s|s| |s m e]; simpl; eauto.
Qed.

(** No fraction of a distance of zero moves 150 to 200. *)
Lemma offset_of_nothing (f : num) : 150 + f * 0 <> 200.
Proof.
  intros Heq. apply (f_equal Prim2SF) in Heq. rewrite add_spec in Heq.
  destruct (mul_zero_cases f) as [[s Hz]|Hn].
  - rewrite Hz in Heq. vm_compute in Heq. discriminate.
  - rewrite Hn in Heq. vm_compute in Heq. discriminate.
Qed.

(** C5 as stated fails: with both ears at (100, 150, 0) the code puts
    [neckBase] at y = 200, and no fraction of the distance between the ears
    gives that offset. *)
Lemma C5_no_fraction_of_ear_distance :
  ~ exists fraction : num, exists keypoints,
      FaceLandmarkDetector.extractKeypoints Examples.earsPrediction
      = Ok keypoints /\
      FaceLandmarkDetector.prop keypoints "neckBase"
      = Some (Spec.neckBase fraction Examples.ear Examples.ear).
Proof.
  intros (fraction & keypoints & Hextract & Hneck).
  destruct (extractKeypoints_nonempty Examples.earsPrediction _ eq_refl)
    as (keypoints' & Hextract' & _ & Hneck'); [discriminate|].
  rewrite Hextract in Hextract'. injection Hextract' as <-.
  rewrite Hneck' in Hneck. vm_compute in Hneck.
  injection Hneck as Hy.
  by apply (offset_of_nothing fraction).
Qed.

(** ** Frames without a detection *)

Section Occlusion.
Context `{MathImpl}.
Import JewelryRenderer.



End Occlusion.



(** ** Short, empty and missing landmark arrays *)

(** C7, as the code has it: on an array of any length, the empty one
    included, the hand map returns without throwing a set that holds, under
    each landmark name, the landmark of that place when it is there and
    nothing otherwise; on a missing array it throws a [TypeError].  The face
    map never throws: a missing or empty array gives the empty set, and on
    any other array each name reads its first place or else its second, so a
    name whose two places are beyond the end reads [undefined]. *)
Theorem C7_keypoint_maps_on_short_input :
  (forall prediction lms,
     HandPoseDetector.landmarksOf prediction = Some lms ->
     exists keypoints,
       HandPoseDetector.extractKeypoints prediction = Ok keypoints /\
       (forall i name,
          HandPoseDetector.handLandmarkNames !! i = Some name ->
          keypoints !! name = HandPoseDetector.keypointOf <$> mjoin (lms !! i))
       /\
       (forall i name,
          HandPoseDetector.handLandmarkNames !! i = Some name ->
          (List.length lms <= i)%nat -> keypoints !! name = None)) /\
  (forall prediction,
     HandPoseDetector.landmarksOf prediction = None ->
     HandPoseDetector.extractKeypoints prediction = Throw TypeError) /\
  (forall prediction,
     FaceLandmarkDetector.landmarksOf prediction = None \/
     FaceLandmarkDetector.landmarksOf prediction = Some [] ->
     FaceLandmarkDetector.extractKeypoints prediction = Ok ∅) /\
  (forall prediction l,
     FaceLandmarkDetector.landmarksOf prediction = Some l ->
     exists keypoints,
       FaceLandmarkDetector.extractKeypoints prediction = Ok keypoints /\
       (forall name i j,
          (name, (i, j)) ∈ FaceLandmarkDetector.faceLandmarkIndices ->
          FaceLandmarkDetector.prop keypoints name
          = or_else (mjoin (l !! i)) (mjoin (l !! j))) /\
       (forall name i j,
          (name, (i, j)) ∈ FaceLandmarkDetector.faceLandmarkIndices ->
          (List.length l <= i)%nat -> (List.length l <= j)%nat ->
          FaceLandmarkDetector.prop keypoints name = None)).
Proof.
  split; [|split; [|split]].
  - intros prediction lms Hlms.
    destruct (extractKeypoints_named prediction lms Hlms)
      as (keypoints & Hextract & Hnamed).
    exists keypoints. split; [done|]. split; [done|].
    intros i name Hname Hshort. rewrite (Hnamed i name Hname).
    by rewrite lookup_ge_None_2.
  - intros prediction Hlms. unfold HandPoseDetector.extractKeypoints.
    by rewrite Hlms.
  - apply extractKeypoints_empty.
  - intros prediction l Hl.
    assert (Hread : forall keypoints,
              (forall name i j,
                 (name, (i, j)) ∈ FaceLandmarkDetector.faceLandmarkIndices ->
                 FaceLandmarkDetector.prop keypoints name
                 = or_else (mjoin (l !! i)) (mjoin (l !! j))) ->
              forall name i j,
                (name, (i, j)) ∈ FaceLandmarkDetector.faceLandmarkIndices ->
                (List.length l <= i)%nat -> (List.length l <= j)%nat ->
                FaceLandmarkDetector.prop keypoints name = None).
    { intros keypoints Hnamed name i j Hin Hi Hj.
      rewrite (Hnamed name i j Hin).
      by rewrite !lookup_ge_None_2. }
    destruct l as [|lm l].
    + exists ∅. split; [apply extractKeypoints_empty; by right|].
      assert (forall name i j,
                (name, (i, j)) ∈ FaceLandmarkDetector.faceLandmarkIndices ->
                FaceLandmarkDetector.prop ∅ name
                = or_else (mjoin (@nil (option Point3D) !! i))
                          (mjoin (@nil (option Point3D) !! j))) as Hnamed.
      { intros name i j _. unfold FaceLandmarkDetector.prop.
        rewrite lookup_empty. by rewrite !lookup_nil. }
      split; [done|]. by apply Hread.
    + destruct (extractKeypoints_nonempty prediction (lm :: l) Hl)
        as (keypoints & Hextract & Hnamed & _); [done|].
      exists keypoints. split; [done|]. split; [done|]. by apply Hread.
Qed.

(** A hand of which only the wrist came through, and a face mesh cut off
    after 100 landmarks. *)
Lemma C7_short_arrays :
  (exists keypoints,
     HandPoseDetector.extractKeypoints
       (HandPoseDetector.mkPrediction (Some [Some Examples.wrist]) None
                                      None None) = Ok keypoints /\
     keypoints !! "wrist" = Some Examples.wrist /\
     keypoints !! "pinky_mcp" = None) /\
  (exists keypoints,
     FaceLandmarkDetector.extractKeypoints
       (FaceLandmarkDetector.mkPrediction
          (Some (replicate 100 (Some Examples.ear))) None) = Ok keypoints /\
     FaceLandmarkDetector.prop keypoints "leftEar" = Some Examples.ear /\
     FaceLandmarkDetector.prop keypoints "rightEar" = None).
Proof.
  destruct C7_keypoint_maps_on_short_input as (Hhand & _ & _ & Hface).
  split.
  - destruct (Hhand (HandPoseDetector.mkPrediction
                       (Some [Some Examples.wrist]) None None None)
                    [Some Examples.wrist] eq_refl)
      as (keypoints & Hextract & Hnamed & Hshort).
    exists keypoints. split; [exact Hextract|]. split.
    + rewrite (Hnamed 0%nat "wrist" eq_refl). reflexivity.
    + apply (Hshort 17%nat "pinky_mcp" eq_refl). simpl. lia.
  - destruct (Hface (FaceLandmarkDetector.mkPrediction
                       (Some (replicate 100 (Some Examples.ear))) None)
                    (replicate 100 (Some Examples.ear)) eq_refl)
      as (keypoints & Hextract & Hnamed & Hshort).
    exists keypoints. split; [exact Hextract|]. split.
    + rewrite (Hnamed "leftEar" 234%nat 93%nat); [reflexivity|].
      unfold FaceLandmarkDetector.faceLandmarkIndices.
      rewrite !elem_of_cons. auto.
    + apply (Hshort "rightEar" 454%nat 323%nat).
      * unfold FaceLandmarkDetector.faceLandmarkIndices.
        rewrite !elem_of_cons. auto.
      * rewrite length_replicate. lia.
      * rewrite length_replicate. lia.
Defined.

(** C7 as stated fails: an empty array is no error for either map, and
    neither is a missing one for the face map; each returns the empty
    set. *)
Lemma C7_empty_input_is_no_error :
  HandPoseDetector.extractKeypoints
    (HandPoseDetector.mkPrediction (Some []) None None None) = Ok ∅ /\
  FaceLandmarkDetector.extractKeypoints
    (FaceLandmarkDetector.mkPrediction (Some []) None) = Ok ∅ /\
  FaceLandmarkDetector.extractKeypoints
    (FaceLandmarkDetector.mkPrediction None None) = Ok ∅.
Proof. repeat split. Qed.

(** ** Scale *)


Section Scale.
Context `{MathImpl}.
Import JewelryRenderer.







End Scale.



(** ** Hand measurements and orientation *)

Section HandPostProcessing.
Context `{MathImpl}.
Import HandPoseDetector.

Lemma calculateFingerDimensions_total landmarks baseIndex :
  exists dimensions,
    calculateFingerDimensions landmarks baseIndex = Ok dimensions.
Proof.
  unfold calculateFingerDimensions, try_catch.
  destruct (fingerDimensionsBody landmarks baseIndex); eauto.
Qed.

Ltac missing_landmark lms Hi Hmissing :=
  rewrite !elem_of_cons, elem_of_nil in Hi;
  repeat (destruct Hi as [->|Hi]); try done;
  rewrite Hmissing;
  repeat (match goal with
          | |- context [mjoin (lms !! ?k)] => destruct (mjoin (lms !! k))
          end);
  reflexivity.

(** The measurements cannot be taken when landmark 0, 5, 12 or 17 is
    missing. *)
Lemma handMeasurementsBody_missing landmarks :
  landmarks = None \/
  (exists lms i, landmarks = Some lms /\ i ∈ [0; 5; 12; 17]%nat /\
                 mjoin (lms !! i) = None) ->
  handMeasurementsBody landmarks = Throw TypeError.
Proof.
  intros [->|(lms & i & -> & Hi & Hmissing)]; [reflexivity|].
  unfold handMeasurementsBody, idx. cbn [mbind result_bind JS.bind].
  missing_landmark lms Hi Hmissing.
Qed.

(** Nor the orientation when landmark 0, 5, 9, 12 or 17 is. *)
Lemma handOrientationBody_missing landmarks :
  landmarks = None \/
  (exists lms i, landmarks = Some lms /\ i ∈ [0; 5; 9; 12; 17]%nat /\
                 mjoin (lms !! i) = None) ->
  handOrientationBody landmarks = Throw TypeError.
Proof.
  intros [->|(lms & i & -> & Hi & Hmissing)]; [reflexivity|].
  unfold handOrientationBody, idx. cbn [mbind result_bind JS.bind].
  missing_landmark lms Hi Hmissing.
Qed.

(** C10: [calculateHandMeasurements] and [calculateHandOrientation] return
    for every prediction.  Whatever is thrown while measuring is caught and
    answered with the defaults: palm width, hand length, finger widths and
    lengths, wrist circumference and aspect ratio 0; pitch, yaw and roll 0
    with the unit vectors (0,1,0), (0,1,0) and (1,0,0).  That is what a
    prediction without landmarks, or without one of the landmarks read,
    gets.  [calculateFingerDimensions] catches what its own body throws in
    the same way, so a finger that cannot be measured is reported with width
    and length 0 next to the measurements that could be taken. *)
Theorem C10_hand_postprocessing_never_throws (prediction : Prediction) :
  (forall landmarks baseIndex,
     exists dimensions,
       calculateFingerDimensions landmarks baseIndex = Ok dimensions /\
       (throws (fingerDimensionsBody landmarks baseIndex) = true ->
        dimensions = defaultFingerDimensions)) /\
  (exists measurements,
     calculateHandMeasurements prediction = Ok measurements /\
     (throws (handMeasurementsBody (landmarksOf prediction)) = true ->
      measurements = defaultHandMeasurements)) /\
  (exists orientation,
     calculateHandOrientation prediction = Ok orientation /\
     (throws (handOrientationBody (landmarksOf prediction)) = true ->
      orientation = defaultOrientation)) /\
  (landmarksOf prediction = None \/
   (exists lms i, landmarksOf prediction = Some lms /\
                  i ∈ [0; 5; 12; 17]%nat /\ mjoin (lms !! i) = None) ->
   calculateHandMeasurements prediction = Ok defaultHandMeasurements) /\
  (landmarksOf prediction = None \/
   (exists lms i, landmarksOf prediction = Some lms /\
                  i ∈ [0; 5; 9; 12; 17]%nat /\ mjoin (lms !! i) = None) ->
   calculateHandOrientation prediction = Ok defaultOrientation) /\
  defaultHandMeasurements =
    mkMeasurements 0 0
      (mkFingers (mkFinger 0 0 None) (mkFinger 0 0 None)
                 (mkFinger 0 0 None) (mkFinger 0 0 None)) 0 0 /\
  defaultOrientation =
    mkOrientation (mkAngles 0 0 0)
      (mkVectors (mkVec 0 1 0) (mkVec 0 1 0) (mkVec 1 0 0)).
Proof.
  split; [|split; [|split; [|split; [|split; [|split]]]]]; try reflexivity.
  - intros landmarks baseIndex. unfold calculateFingerDimensions, try_catch.
    destruct (fingerDimensionsBody _ _) as [dimensions|e]; eexists;
      (split; [reflexivity|]); [discriminate|done].
  - unfold calculateHandMeasurements, try_catch.
    destruct (handMeasurementsBody _) as [measurements|e]; eexists;
      (split; [reflexivity|]); [discriminate|done].
  - unfold calculateHandOrientation, try_catch.
    destruct (handOrientationBody _) as [orientation|e]; eexists;
      (split; [reflexivity|]); [discriminate|done].
  - intros Hmissing. unfold calculateHandMeasurements.
    by rewrite handMeasurementsBody_missing.
  - intros Hmissing. unfold calculateHandOrientation.
    by rewrite handOrientationBody_missing.
Qed.

End HandPostProcessing.

(** The hand of which only the wrist and the pinky MCP came through gets
    the default measurements and the default orientation. *)
Lemma C10_defaults_example :
  exists measurements orientation,
    measurements = HandPoseDetector.defaultHandMeasurements /\
    orientation = HandPoseDetector.defaultOrientation /\
    forall M : MathImpl,
      HandPoseDetector.calculateHandMeasurements Examples.watchPrediction
      = Ok measurements /\
      HandPoseDetector.calculateHandOrientation Examples.watchPrediction
      = Ok orientation.
Proof.
  eexists _, _. split; [reflexivity|]. split; [reflexivity|].
  intros M.
  destruct (C10_hand_postprocessing_never_throws Examples.watchPrediction)
    as (_ & _ & _ & Hmeasurements & Horientation & _).
  split.
  - apply Hmeasurements. right. eexists _, 5%nat.
    split; [reflexivity|]. split; [|reflexivity].
    rewrite !elem_of_cons. auto.
  - apply Horientation. right. eexists _, 5%nat.
    split; [reflexivity|]. split; [|reflexivity].
    rewrite !elem_of_cons. auto.
Defined.

(** ** Normalizing a vector

    The arithmetic of [normalizeVector] is followed on the IEEE
    specification of the operations: how many binary digits a rounded
    result has at least and at most. *)

Section Rounding.
Import Binary64.
Local Open Scope Z_scope.


(** The specification is written with the core library's integer
    operations; [lia] wants the standard library's names for them. *)
Ltac zops :=
  change IntDef.Z.add with Z.add in *;
  change IntDef.Z.sub with Z.sub in *;
  change IntDef.Z.mul with Z.mul in *;
  change IntDef.Z.opp with Z.opp in *;
  change IntDef.Z.min with Z.min in *;
  change IntDef.Z.max with Z.max in *.

Ltac zlia := zops; lia.

Lemma digits2_pos_size p : digits2_pos p = Pos.size p.
Proof. induction p; simpl; congruence. Qed.

Lemma digits_pos p : digits (Zpos p) = Z.log2 (Zpos p) + 1.
Proof.
  unfold digits. simpl. rewrite digits2_pos_size.
  destruct p; simpl; lia.
Qed.

Lemma digits_log2 m : 0 < m -> digits m = Z.log2 m + 1.
Proof. destruct m; try lia. intros _. apply digits_pos. Qed.

Lemma digits_nonneg m : 0 <= digits m.
Proof. destruct m; simpl; lia. Qed.

Lemma digits_positive m : 0 < m -> 0 < digits m.
Proof. destruct m; simpl; lia. Qed.

Lemma digits_mono a b : 0 <= a <= b -> digits a <= digits b.
Proof.
  intros [Ha Hab]. destruct (Z.eq_dec a 0) as [->|Hne].
  - apply digits_nonneg.
  - rewrite !digits_log2 by lia. apply Z.add_le_mono_r, Z.log2_le_mono. lia.
Qed.

Lemma digits_succ a : 0 <= a -> digits (a + 1) <= digits a + 1.
Proof.
  intros Ha. destruct (Z.eq_dec a 0) as [->|Hne]; [simpl; lia|].
  rewrite !digits_log2 by lia.
  pose proof (Z.log2_succ_le a) as Hs. unfold Z.succ in Hs. lia.
Qed.

Lemma digits_shiftr a n :
  0 <= a -> 0 <= n -> digits (Z.shiftr a n) = Z.max 0 (digits a - n).
Proof.
  intros Ha Hn. destruct (Z.eq_dec a 0) as [->|Hne].
  - rewrite Z.shiftr_0_l. simpl. lia.
  - assert (0 < a) by lia.
    destruct (Z.eq_dec (Z.shiftr a n) 0) as [Hz|Hnz].
    + rewrite Hz. apply Z.shiftr_eq_0_iff in Hz as [->|[_ Hlt]]; [lia|].
      change (digits 0) with 0. rewrite (digits_log2 a) by lia. lia.
    + assert (0 <= Z.shiftr a n) by (apply Z.shiftr_nonneg; lia).
      rewrite !digits_log2 by lia.
      rewrite Z.log2_shiftr by lia.
      assert (~ Z.log2 a < n).
      { intros Hlt. apply Hnz. apply Z.shiftr_eq_0_iff. right. lia. }
      lia.
Qed.

Lemma digits_shiftl a n :
  0 < a -> 0 <= n -> digits (Z.shiftl a n) = digits a + n.
Proof.
  intros Ha Hn.
  assert (0 < Z.shiftl a n)
    by (rewrite Z.shiftl_mul_pow2 by lia; apply Z.mul_pos_pos; [lia|apply Z.pow_pos_nonneg; lia]).
  rewrite !digits_log2 by lia. rewrite Z.log2_shiftl by lia. lia.
Qed.

Lemma digits_mul a b :
  0 < a -> 0 < b -> digits a + digits b - 1 <= digits (a * b).
Proof.
  intros Ha Hb. rewrite !digits_log2 by lia.
  pose proof (Z.log2_mul_below a b Ha Hb). lia.
Qed.

(** Right shifts of the rounding records. *)
Lemma shr_1_m mrs : 0 <= shr_m mrs -> shr_m (shr_1 mrs) = Z.shiftr (shr_m mrs) 1.
Proof.
  destruct mrs as [m r s]. simpl. intros Hm.
  rewrite Z.shiftr_div_pow2 by lia. change (2 ^ 1) with 2.
  destruct m as [|[p|p|]|p]; try lia; simpl; try reflexivity.
  - rewrite Pos2Z.inj_xI. apply (Z.div_unique _ _ _ 1); lia.
  - rewrite Pos2Z.inj_xO. apply (Z.div_unique _ _ _ 0); lia.
Qed.

Lemma iter_shr_1_m p : forall mrs,
  0 <= shr_m mrs ->
  shr_m (SpecFloat.iter_pos shr_1 p mrs) = Z.shiftr (shr_m mrs) (Zpos p).
Proof.
  assert (Hnn : forall a n, 0 <= a -> 0 <= Z.shiftr a n)
    by (intros; apply Z.shiftr_nonneg; lia).
  induction p as [p IH|p IH|]; intros mrs Hm; simpl.
  - assert (H1 : 0 <= shr_m (shr_1 mrs)) by (rewrite shr_1_m; auto).
    assert (H2 : 0 <= shr_m (SpecFloat.iter_pos shr_1 p (shr_1 mrs)))
      by (rewrite IH; auto).
    rewrite IH by auto. rewrite IH by auto. rewrite shr_1_m by auto.
    rewrite !Z.shiftr_shiftr by lia. f_equal. lia.
  - assert (H2 : 0 <= shr_m (SpecFloat.iter_pos shr_1 p mrs))
      by (rewrite IH; auto).
    rewrite IH by auto. rewrite IH by auto.
    rewrite !Z.shiftr_shiftr by lia. f_equal. lia.
  - by apply shr_1_m.
Qed.

Lemma shr_record_of_loc_m m l : shr_m (shr_record_of_loc m l) = m.
Proof. by destruct l as [|[]]. Qed.

Lemma fexp_eq k : fexp prec emax k = Z.max (k - 53) (-1074).
Proof. reflexivity. Qed.

Lemma shr_fexp_spec m e l mrs e' :
  0 <= m ->
  shr_fexp prec emax m e l = (mrs, e') ->
  0 <= shr_m mrs /\
  e' = Z.max e (fexp prec emax (digits m + e)) /\
  digits (shr_m mrs) = Z.max 0 (digits m - (e' - e)).
Proof.
  intros Hm. unfold shr_fexp, shr. fold (digits m).
  pose proof (digits_nonneg m) as Hd.
  destruct (fexp prec emax (digits m + e) - e) as [|n|n] eqn:Hn;
    intros [= <- <-]; rewrite ?shr_record_of_loc_m.
  - split; [done|]. split; lia.
  - rewrite iter_shr_1_m by (by rewrite shr_record_of_loc_m).
    rewrite shr_record_of_loc_m.
    split; [apply Z.shiftr_nonneg; lia|]. split; [lia|].
    rewrite digits_shiftr by lia. lia.
  - split; [done|]. split; lia.
Qed.

Lemma round_nearest_even_bounds m l :
  m <= round_nearest_even m l <= m + 1.
Proof.
  unfold round_nearest_even. destruct l as [|[]]; try lia.
  destruct (Z.even m); lia.
Qed.

(** What rounding a non-negative mantissa [mx] at exponent [ex] can give:
    never NaN; zero only from below the smallest subnormal; infinity only
    from an exponent or a magnitude out of range; and a finite number of at
    least the magnitude that went in. *)
Lemma binary_round_aux_spec s mx ex lx :
  0 <= mx ->
  match binary_round_aux prec emax s mx ex lx with
  | S754_nan => False
  | S754_zero s' => s' = s /\ (0 < mx -> digits mx + ex <= -1074)
  | S754_infinity s' => s' = s /\ (971 < ex \/ 1023 < digits mx + ex)
  | S754_finite s' m e => s' = s /\ digits mx + ex <= digits (Zpos m) + e
  end.
Proof.
  intros Hmx. unfold binary_round_aux.
  destruct (shr_fexp prec emax mx ex lx) as [mrs1 e1] eqn:H1.
  destruct (shr_fexp_spec _ _ _ _ _ Hmx H1) as (Hm1 & He1 & Hd1).
  set (m1 := round_nearest_even (shr_m mrs1) (loc_of_shr_record mrs1)) in *.
  pose proof (round_nearest_even_bounds (shr_m mrs1) (loc_of_shr_record mrs1))
    as Hrne. fold m1 in Hrne.
  pose proof (digits_mono (shr_m mrs1) m1 ltac:(lia)) as Hmono.
  pose proof (digits_succ (shr_m mrs1) Hm1) as Hsucc.
  pose proof (digits_mono m1 (shr_m mrs1 + 1) ltac:(lia)) as Hmono'.
  destruct (shr_fexp prec emax m1 e1 loc_Exact) as [mrs2 e2] eqn:H2.
  assert (Hm1' : 0 <= m1) by lia.
  destruct (shr_fexp_spec _ _ _ _ _ Hm1' H2) as (Hm2 & He2 & Hd2).
  rewrite fexp_eq in He1, He2.
  pose proof (digits_nonneg mx) as Hdx.
  pose proof (digits_positive mx) as Hdx'.
  destruct (shr_m mrs2) as [|m|m] eqn:Hm; [| |lia].
  - split; [done|]. intros Hpos. specialize (Hdx' Hpos).
    change (digits 0) with 0 in Hd2. lia.
  - pose proof (digits_positive (Zpos m) ltac:(lia)) as Hdm.
    destruct (e2 <=? emax - prec) eqn:Hle.
    + split; [done|]. lia.
    + apply Z.leb_gt in Hle. change (emax - prec) with 971 in Hle.
      split; [done|]. lia.
Qed.

Lemma valid_finite s m e :
  valid_binary (S754_finite s m e) = true ->
  -1074 <= e <= 971 /\ 1 <= digits (Zpos m) <= 53.
Proof.
  unfold SpecFloat.valid_binary, bounded, canonical_mantissa.
  intros [Hc He]%andb_prop.
  apply Z.eqb_eq in Hc. apply Z.leb_le in He.
  rewrite fexp_eq in Hc. change (emax - prec) with 971 in He.
  change (Z.pos (digits2_pos m)) with (digits (Zpos m)) in Hc.
  assert (0 < digits (Zpos m)) by (by apply digits_positive). lia.
Qed.

Lemma valid_magnitude s m e :
  valid_binary (S754_finite s m e) = true ->
  -1073 <= magnitude (S754_finite s m e) <= 1024.
Proof. intros H%valid_finite. unfold magnitude. lia. Qed.

(** *** Squares *)

Lemma square_nonneg x : finite x -> nonneg (SF64mul x x).
Proof.
  destruct x as [s|s| |s m e]; try done. intros _.
  unfold SF64mul, SFmul.
  pose proof (binary_round_aux_spec (xorb s s) (Zpos (m * m)) (e + e)
                loc_Exact ltac:(lia)) as Hspec.
  destruct (binary_round_aux _ _ _ _ _ _) as [s'|s'| |s' m' e'];
    simpl; try done; destruct Hspec as [-> _]; by destruct s.
Qed.

Lemma square_reaches s m e :
  -1074 < 2 * magnitude (S754_finite s m e) - 1 ->
  reaches (2 * magnitude (S754_finite s m e) - 1)
          (SF64mul (S754_finite s m e) (S754_finite s m e)).
Proof.
  unfold magnitude, SF64mul, SFmul. intros Hbig.
  pose proof (binary_round_aux_spec (xorb s s) (Zpos (m * m)) (e + e)
                loc_Exact ltac:(lia)) as Hspec.
  pose proof (digits_mul (Zpos m) (Zpos m) ltac:(lia) ltac:(lia)) as Hmul.
  rewrite <- Pos2Z.inj_mul in Hmul.
  assert (xorb s s = false) as Hs by (by destruct s).
  destruct (binary_round_aux _ _ _ _ _ _) as [s'|s'| |s' m' e'];
    unfold reaches; try done.
  - destruct Hspec as [_ Hz]. specialize (Hz ltac:(lia)). lia.
  - destruct Hspec as [-> _]. done.
  - destruct Hspec as [-> Hm]. split; [done|]. lia.
Qed.

(** *** Sums of non-negative numbers *)

Lemma digits_iter_xO m d :
  digits (Zpos (Pos.iter xO m d)) = digits (Zpos m) + Zpos d.
Proof.
  unfold digits. simpl.
  induction d as [|d IH] using Pos.peano_ind.
  - simpl. lia.
  - rewrite Pos.iter_succ. simpl. lia.
Qed.

Lemma shl_align_spec m e e0 :
  digits (Zpos (shl_align m e e0).1) + (shl_align m e e0).2
  = digits (Zpos m) + e /\
  (shl_align m e e0).2 = Z.min e e0.
Proof.
  unfold shl_align. destruct (e0 - e) as [|d|d] eqn:Hd; simpl fst; simpl snd.
  - lia.
  - lia.
  - rewrite digits_iter_xO. lia.
Qed.

Lemma binary_round_spec s m e :
  match binary_round prec emax s m e with
  | S754_nan => False
  | S754_zero s' => s' = s /\ digits (Zpos m) + e <= -1074
  | S754_infinity s' => s' = s
  | S754_finite s' m' e' => s' = s /\ digits (Zpos m) + e <= digits (Zpos m') + e'
  end.
Proof.
  unfold binary_round.
  pose proof (shl_align_spec m e (fexp prec emax (Zpos (digits2_pos m) + e)))
    as [Hmag _].
  destruct (shl_align _ _ _) as [mz ez]. simpl fst in Hmag. simpl snd in Hmag.
  pose proof (binary_round_aux_spec s (Zpos mz) ez loc_Exact ltac:(lia))
    as Hspec.
  destruct (binary_round_aux _ _ _ _ _ _) as [s'|s'| |s' m' e']; try done.
  - destruct Hspec as [-> Hz]. split; [done|]. specialize (Hz ltac:(lia)). lia.
  - by destruct Hspec as [-> _].
  - destruct Hspec as [-> Hm]. split; [done|]. lia.
Qed.

Lemma add_nonneg a b : nonneg a -> nonneg b -> nonneg (SF64add a b).
Proof.
  destruct a as [sa|sa| |sa ma ea], b as [sb|sb| |sb mb eb];
    simpl; try done; try (by intros -> ->); try (by destruct sa, sb).
  intros -> ->. simpl.
  pose proof (binary_round_spec false
                ((shl_align ma ea (Z.min ea eb)).1
                 + (shl_align mb eb (Z.min ea eb)).1)
                (Z.min ea eb)) as Hspec.
  destruct (binary_round _ _ _ _ _) as [s'|s'| |s' m' e']; simpl; try done;
    by destruct Hspec as [-> _].
Qed.

Lemma add_reaches k a b :
  nonneg a -> nonneg b -> -1074 < k ->
  reaches k a \/ reaches k b -> reaches k (SF64add a b).
Proof.
  intros Ha Hb Hk Hreach.
  destruct a as [sa|sa| |sa ma ea], b as [sb|sb| |sb mb eb];
    simpl in Ha, Hb; try done; subst;
    try (destruct Hreach as [Hr|Hr]; simpl in Hr; try done; fail);
    try (simpl; tauto); try (by destruct sa); try (by destruct sb).
  unfold SF64add, SFadd, binary_normalize, cond_Zopp.
  pose proof (shl_align_spec ma ea (Z.min ea eb)) as [Hma Hea].
  pose proof (shl_align_spec mb eb (Z.min ea eb)) as [Hmb Heb].
  set (ma' := (shl_align ma ea (Z.min ea eb)).1) in *.
  set (mb' := (shl_align mb eb (Z.min ea eb)).1) in *.
  change (Zpos ma' + Zpos mb') with (Zpos (ma' + mb')). cbv beta iota.
  pose proof (binary_round_spec false (ma' + mb') (Z.min ea eb)) as Hspec.
  pose proof (digits_mono (Zpos ma') (Zpos (ma' + mb')) ltac:(lia)) as H1.
  pose proof (digits_mono (Zpos mb') (Zpos (ma' + mb')) ltac:(lia)) as H2.
  unfold reaches in Hreach.
  destruct (binary_round _ _ _ _ _) as [s'|s'| |s' m' e']; unfold reaches;
    cbv beta iota in Hspec; try done.
  - destruct Hspec as [_ Hz]. lia.
  - destruct Hspec as [-> Hm]. split; [done|]. lia.
Qed.

(** *** Square roots *)

Lemma digits_upper q : 0 <= q -> q < 2 ^ digits q.
Proof.
  intros Hq. destruct (Z.eq_dec q 0) as [->|Hne]; [done|].
  rewrite digits_log2 by lia. apply Z.log2_spec. lia.
Qed.

Lemma digits_sqrt m : 0 < m -> digits m <= 2 * digits (Z.sqrt m).
Proof.
  intros Hm.
  pose proof (Z.sqrt_spec m ltac:(lia)) as [_ Hlt].
  pose proof (Z.sqrt_nonneg m) as Hq.
  pose proof (digits_upper (Z.sqrt m) Hq) as Hup.
  pose proof (digits_nonneg (Z.sqrt m)) as Hd.
  assert (m < 2 ^ (2 * digits (Z.sqrt m))) as Hpow.
  { replace (2 * digits (Z.sqrt m))
      with (digits (Z.sqrt m) + digits (Z.sqrt m)) by lia.
    rewrite Z.pow_add_r by lia. unfold Z.succ in Hlt. nia. }
  apply Z.log2_lt_pow2 in Hpow; [|lia].
  rewrite (digits_log2 m) by lia. lia.
Qed.

Lemma sqrt_core_spec m e :
  let '(q, e', l) := SFsqrt_core_binary prec emax (Zpos m) e in
  0 < q /\ digits (Zpos m) + e <= 2 * (digits q + e').
Proof.
  unfold SFsqrt_core_binary. fold (digits (Zpos m)).
  set (e' := Z.min _ (Z.div2 e)).
  assert (2 * e' <= e) as He' by (subst e'; rewrite (Z.div2_div e);
      pose proof (Z.mul_div_le e 2 ltac:(lia)); lia).
  set (m' := match e - 2 * e' with
             | Zpos _ => Z.shiftl (Zpos m) (e - 2 * e')
             | Z0 => Zpos m
             | Zneg _ => 0
             end).
  assert (0 < m' /\ digits m' = digits (Zpos m) + (e - 2 * e')) as [Hm' Hd'].
  { subst m'. destruct (e - 2 * e') as [|p|p] eqn:Hs; [split; lia| |lia].
    split.
    - rewrite Z.shiftl_mul_pow2 by lia.
      apply Z.mul_pos_pos; [lia|]. apply Z.pow_pos_nonneg; lia.
    - rewrite digits_shiftl by lia. lia. }
  pose proof (Z.sqrtrem_sqrt m') as Hsqrt.
  destruct (Z.sqrtrem m') as [q r]. simpl in Hsqrt. subst q.
  pose proof (digits_sqrt m' Hm').
  split; [by apply Z.sqrt_pos|]. lia.
Qed.

Lemma sqrt_nonneg a : nonneg a -> nonneg (SF64sqrt a).
Proof.
  destruct a as [s|s| |s m e]; simpl; try done; intros ->; [done|].
  pose proof (sqrt_core_spec m e) as Hcore.
  destruct (SFsqrt_core_binary _ _ _ _) as [[q e'] l].
  destruct Hcore as [Hq _].
  pose proof (binary_round_aux_spec false q e' l ltac:(lia)) as Hspec.
  destruct (binary_round_aux _ _ _ _ _ _) as [s'|s'| |s' m' e''];
    simpl; cbv beta iota in Hspec; try done; by destruct Hspec.
Qed.

Lemma sqrt_reaches k k' a :
  reaches k a -> -2148 < k -> 2 * k' <= k -> reaches k' (SF64sqrt a).
Proof.
  destruct a as [s|s| |s m e]; simpl; try done; [by intros ->|].
  intros [-> Hk] Hbig Hk'.
  pose proof (sqrt_core_spec m e) as Hcore.
  change (Z.pos (digits2_pos m)) with (digits (Zpos m)) in Hk.
  destruct (SFsqrt_core_binary _ _ _ _) as [[q e'] l].
  destruct Hcore as [Hq Hmag].
  pose proof (binary_round_aux_spec false q e' l ltac:(lia)) as Hspec.
  destruct (binary_round_aux _ _ _ _ _ _) as [s'|s'| |s' m' e''];
    unfold reaches; cbv beta iota in Hspec; try done.
  - destruct Hspec as [_ Hz]. specialize (Hz Hq). lia.
  - by destruct Hspec.
  - destruct Hspec as [-> Hm]. split; [done|]. lia.
Qed.

(** *** Quotients *)

Lemma digits_div a b :
  0 < a -> 0 < b -> digits (a / b) <= Z.max 0 (digits a - digits b + 1).
Proof.
  intros Ha Hb.
  assert (0 <= a / b) as Hq by (apply Z.div_pos; lia).
  destruct (Z.eq_dec (a / b) 0) as [->|Hne]; [simpl; lia|].
  assert (b * (a / b) <= a) as Hle by (apply Z.mul_div_le; lia).
  pose proof (Z.log2_mul_below b (a / b) Hb ltac:(lia)) as Hbelow.
  pose proof (Z.log2_le_mono _ _ Hle) as Hmono.
  rewrite !digits_log2 by lia. lia.
Qed.

Lemma div_core_spec m1 e1 m2 e2 :
  let '(q, e', l) := SFdiv_core_binary prec emax (Zpos m1) e1 (Zpos m2) e2 in
  0 <= q /\
  e' <= Z.max (digits (Zpos m1) + e1 - (digits (Zpos m2) + e2) - 53) (-1074) /\
  digits q + e'
  <= Z.max e' (digits (Zpos m1) + e1 - (digits (Zpos m2) + e2) + 1).
Proof.
  unfold SFdiv_core_binary.
  fold (digits (Zpos m1)). fold (digits (Zpos m2)). rewrite fexp_eq.
  set (e' := Z.min _ (e1 - e2)).
  assert (e' <= e1 - e2) as He' by (subst e'; lia).
  set (m' := match e1 - e2 - e' with
             | Zpos _ => Z.shiftl (Zpos m1) (e1 - e2 - e')
             | Z0 => Zpos m1
             | Zneg _ => 0
             end).
  assert (0 < m' /\ digits m' = digits (Zpos m1) + (e1 - e2 - e')) as [Hm' Hd'].
  { subst m'. destruct (e1 - e2 - e') as [|p|p] eqn:Hs; [split; lia| |lia].
    split.
    - rewrite Z.shiftl_mul_pow2 by lia.
      apply Z.mul_pos_pos; [lia|]. apply Z.pow_pos_nonneg; lia.
    - rewrite digits_shiftl by lia. lia. }
  pose proof (digits_div m' (Zpos m2) Hm' ltac:(lia)) as Hdiv.
  assert (0 <= m' / Zpos m2) as Hq by (apply Z.div_pos; lia).
  unfold Z.div in Hdiv, Hq.
  destruct (Z.div_eucl m' (Zpos m2)) as [q r]. cbn [fst] in Hdiv, Hq.
  subst e'. split; [done|]. split; zlia.
Qed.

Lemma div_finite x y :
  match x, y with
  | (S754_zero _ | S754_finite _ _ _), S754_infinity _ => True
  | S754_zero _, S754_finite _ _ _ => True
  | S754_finite _ _ _, S754_finite _ _ _ =>
      magnitude x - magnitude y <= 1022
  | _, _ => False
  end ->
  finite (SF64div x y).
Proof.
  destruct x as [sx|sx| |sx m1 e1], y as [sy|sy| |sy m2 e2];
    simpl; try done.
  intros Hmag. unfold SF64div, SFdiv.
  change (Z.pos (digits2_pos m1)) with (digits (Zpos m1)) in Hmag.
  change (Z.pos (digits2_pos m2)) with (digits (Zpos m2)) in Hmag.
  pose proof (div_core_spec m1 e1 m2 e2) as Hcore.
  destruct (SFdiv_core_binary _ _ _ _ _ _) as [[q e'] l].
  destruct Hcore as (Hq & He' & Hd).
  pose proof (binary_round_aux_spec (xorb sx sy) q e' l Hq) as Hspec.
  destruct (binary_round_aux _ _ _ _ _ _) as [s'|s'| |s' m' e''];
    simpl; cbv beta iota in Hspec; try done.
  destruct Hspec as [_ Hover]. lia.
Qed.

(** *** A component over the norm *)

(** [c] is a component of a vector and [S] the sum of the squares of its
    components, as computed. *)
Lemma component_over_norm c S :
  finite c -> valid_binary c = true ->
  nonneg S ->
  (forall s m e, c = S754_finite s m e ->
     -1074 < 2 * magnitude c - 1 -> reaches (2 * magnitude c - 1) S) ->
  valid_binary (SF64sqrt S) = true ->
  (forall s, SF64sqrt S <> S754_zero s) ->
  finite (SF64div c (SF64sqrt S)).
Proof.
  intros Hc Hvc HS Hreach Hvn Hnz.
  pose proof (sqrt_nonneg S HS) as Hn.
  apply div_finite.
  destruct (SF64sqrt S) as [sn|sn| |sn mn en] eqn:Hnorm; simpl in Hn.
  - by destruct (Hnz sn).
  - by destruct c.
  - done.
  - destruct c as [sc|sc| |sc mc ec]; try done.
    pose proof (valid_magnitude _ _ _ Hvc) as Hmc.
    pose proof (valid_magnitude _ _ _ Hvn) as Hmn.
    destruct (Z_le_gt_dec (magnitude (S754_finite sc mc ec)) (-51)) as [|Hbig];
      [lia|].
    specialize (Hreach sc mc ec eq_refl ltac:(lia)).
    pose proof (sqrt_reaches _ (magnitude (S754_finite sc mc ec) - 1) _
                  Hreach ltac:(lia) ltac:(lia)) as Hr.
    rewrite Hnorm in Hr. destruct Hr as [_ Hr].
    unfold magnitude in *. lia.
Qed.

Lemma sum_of_squares_nonneg x y z :
  finite x -> finite y -> finite z -> nonneg (sum_of_squares x y z).
Proof.
  intros. unfold sum_of_squares.
  repeat apply add_nonneg; by apply square_nonneg.
Qed.

Lemma sum_of_squares_reaches x y z c :
  finite x -> finite y -> finite z ->
  c = x \/ c = y \/ c = z ->
  forall s m e, c = S754_finite s m e ->
    -1074 < 2 * magnitude c - 1 ->
    reaches (2 * magnitude c - 1) (sum_of_squares x y z).
Proof.
  intros Hx Hy Hz Hc s m e -> Hbig. unfold sum_of_squares.
  pose proof (square_nonneg x Hx). pose proof (square_nonneg y Hy).
  pose proof (square_nonneg z Hz).
  pose proof (square_reaches s m e Hbig) as Hsq.
  destruct Hc as [<-|[<-|<-]].
  - apply add_reaches; try done; [by apply add_nonneg|]. left.
    apply add_reaches; try done. by left.
  - apply add_reaches; try done; [by apply add_nonneg|]. left.
    apply add_reaches; try done. by right.
  - apply add_reaches; try done; [by apply add_nonneg|]. by right.
Qed.

End Rounding.



Lemma is_finite_spec (f : float) :
  is_finite f = true <-> Binary64.finite (Prim2SF f).
Proof.
  unfold is_finite, is_nan, is_infinity.
  rewrite !FloatAxioms.eqb_spec, abs_spec.
  change (Prim2SF infinity) with (S754_infinity false).
  destruct (Prim2SF f) as [s|s| |s m e]; simpl; try done.
  - by destruct s.
  - unfold SFeqb, SFcompare.
    rewrite Z.compare_refl, Pos.compare_cont_refl.
    by destruct s.
Qed.

Lemma is_zero_spec (f : float) :
  (f =? 0) = true <-> exists s, Prim2SF f = S754_zero s.
Proof.
  rewrite FloatAxioms.eqb_spec. change (Prim2SF 0) with (S754_zero false).
  destruct (Prim2SF f) as [s|s| |s m e]; simpl; split;
    try done; try (by intros [? ?]); eauto; by destruct s.
Qed.

(** The three quotients of [normalizeVector] are finite. *)
Lemma component_finite (x y z c : num) :
  is_finite x = true -> is_finite y = true -> is_finite z = true ->
  c = x \/ c = y \/ c = z ->
  is_zero (Math_sqrt (x * x + y * y + z * z)) = false ->
  is_finite (c / Math_sqrt (x * x + y * y + z * z)) = true.
Proof.
  intros Hx%is_finite_spec Hy%is_finite_spec Hz%is_finite_spec Hc Hnz.
  assert (Hnorm : Prim2SF (Math_sqrt (x * x + y * y + z * z))
                  = SF64sqrt (Binary64.sum_of_squares
                                (Prim2SF x) (Prim2SF y) (Prim2SF z))).
  { unfold Math_sqrt, Binary64.sum_of_squares.
    by rewrite sqrt_spec, !add_spec, !mul_spec. }
  apply is_finite_spec. rewrite div_spec, Hnorm.
  apply component_over_norm.
  - by destruct Hc as [->|[->| ->]].
  - apply Prim2SF_valid.
  - by apply sum_of_squares_nonneg.
  - apply sum_of_squares_reaches; try done.
    destruct Hc as [->|[->| ->]]; auto.
  - rewrite <- Hnorm. apply Prim2SF_valid.
  - intros s Hzero. rewrite <- Hnorm in Hzero.
    assert (is_zero (Math_sqrt (x * x + y * y + z * z)) = true) as Htrue
      by (apply is_zero_spec; eauto).
    congruence.
Qed.

(** C9, as the code has it: the zero vector, of either sign, is normalized
    to {0, 0, 0}, and a vector of finite components is normalized to a
    vector of finite components: no NaN and no Infinity. *)
Theorem C9_normalizeVector_finite :
  HandPoseDetector.normalizeVector (mkVec 0 0 0) = mkVec 0 0 0 /\
  HandPoseDetector.normalizeVector (mkVec (-0) (-0) (-0)) = mkVec 0 0 0 /\
  forall vector : Vec3,
    Spec.finiteVec vector = true ->
    Spec.finiteVec (HandPoseDetector.normalizeVector vector) = true.
Proof.
  split; [reflexivity|]. split; [reflexivity|].
  intros [x y z]. unfold Spec.finiteVec. simpl.
  intros [[Hx Hy]%andb_prop Hz]%andb_prop.
  unfold HandPoseDetector.normalizeVector. simpl.
  destruct (is_zero (Math_sqrt (x * x + y * y + z * z))) eqn:Hzero;
    [reflexivity|]. simpl.
  rewrite !component_finite by auto. reflexivity.
Qed.

(** The vector (3, 4, 0) becomes (0.6, 0.8, 0).  A vector too long for its
    square to be a binary64 number, and one too short, both become
    {0, 0, 0}. *)
Lemma C9_normalizeVector_examples :
  Spec.finiteVec (HandPoseDetector.normalizeVector (mkVec 3 4 0)) = true /\
  HandPoseDetector.normalizeVector (mkVec 3 4 0) = mkVec 0.6 0.8 0 /\
  HandPoseDetector.normalizeVector (mkVec 1e200 0 0) = mkVec 0 0 0 /\
  HandPoseDetector.normalizeVector (mkVec 1e-200 0 0) = mkVec 0 0 0.
Proof.
  split.
  - apply (proj2 (proj2 C9_normalizeVector_finite) (mkVec 3 4 0)).
    reflexivity.
  - repeat split; vm_compute; reflexivity.
Defined.

(** C9 as stated fails: a vector with a NaN or an infinite component is
    normalized to a vector with NaN components. *)
Lemma C9_normalizeVector_of_NaN :
  is_nan (vx (HandPoseDetector.normalizeVector (mkVec nan 0 0))) = true /\
  is_nan (vy (HandPoseDetector.normalizeVector (mkVec nan 0 0))) = true /\
  is_nan (vx (HandPoseDetector.normalizeVector (mkVec infinity 0 0))) = true /\
  Spec.finiteVec (HandPoseDetector.normalizeVector (mkVec nan 0 0)) = false.
Proof. repeat split. Qed.

(** * Further properties of the code *)

(** ** Numbers *)

Lemma is_nan_spec (v : num) : is_nan v = true <-> Prim2SF v = S754_nan.
Proof.
  unfold is_nan. rewrite FloatAxioms.eqb_spec.
  destruct (Prim2SF v) as [s|s| |s m e]; simpl; split; try done.
  - by destruct s.
  - unfold SFeqb, SFcompare.
    rewrite Z.compare_refl, Pos.compare_cont_refl. by destruct s.
Qed.

(** NaN is absorbing for [*] and [+]. *)
Lemma nan_mul_l (a b : num) : is_nan a = true -> is_nan (a * b) = true.
Proof. rewrite !is_nan_spec, mul_spec. by intros ->. Qed.

Lemma nan_add_l (a b : num) : is_nan a = true -> is_nan (a + b) = true.
Proof. rewrite !is_nan_spec, add_spec. by intros ->. Qed.

(** A finite number minus itself is [+0]. *)
Lemma sub_diag_finite (v : num) : is_finite v = true -> v - v = 0.
Proof.
  intros Hfin%is_finite_spec. apply Prim2SF_inj. rewrite sub_spec.
  change (Prim2SF 0) with (S754_zero false).
  destruct (Prim2SF v) as [s|s| |s m e]; try done.
  - by destruct s.
  - unfold SF64sub, SFsub. cbv zeta.
    replace (IntDef.Z.sub _ _) with 0%Z; [done|].
    symmetry. apply Z.sub_diag.
Qed.

(** A division by a zero never gives a finite number. *)
Lemma div_by_zero_not_finite (a b : num) :
  is_zero b = true -> is_finite (a / b) = false.
Proof.
  intros [s Hb]%is_zero_spec.
  destruct (is_finite (a / b)) eqn:Hfin; [|done].
  apply is_finite_spec in Hfin. rewrite div_spec, Hb in Hfin.
  by destruct (Prim2SF a).
Qed.

(** ** More on the hand keypoint map *)

Section HandKeypointMap.
Import HandPoseDetector.

Lemma extractKeypoints_keys prediction keypoints key :
  extractKeypoints prediction = Ok keypoints ->
  is_Some (keypoints !! key) ->
  key ∈ handLandmarkNames
        ++ ["ring_position"; "bracelet_position"; "watch_position"].
Proof.
  intros Hextract Hsome. rewrite elem_of_app, !elem_of_cons.
  destruct (decide (key ∈ handLandmarkNames)) as [|Hnot]; [by left|right].
  destruct (decide (key = "ring_position")) as [|Hr]; [by left|].
  destruct (decide (key = "bracelet_position")) as [|Hb]; [by right; left|].
  destruct (decide (key = "watch_position")) as [|Hw];
    [by right; right; left|].
  rewrite (extractKeypoints_other prediction keypoints key) in Hsome by done.
  by destruct Hsome.
Qed.

(** Rounds of the loop beyond the 21 names store nothing, and the first 21
    read nothing beyond the first 21 landmarks. *)
Lemma named_rounds_take (lms : list (option Point3D)) (n : nat) :
  foldl (nameLandmark lms) ∅ (seq 0 n)
  = foldl (nameLandmark (take 21 lms)) ∅ (seq 0 (n `min` 21)).
Proof.
  induction n as [|n IH]; [done|].
  rewrite seq_S, foldl_app, IH.
  destruct (decide (n < 21)%nat) as [Hlt|Hge].
  - replace (S n `min` 21)%nat with (S n) by lia.
    replace (n `min` 21)%nat with n by lia.
    rewrite seq_S, foldl_app. cbn [foldl Nat.add]. unfold nameLandmark at 1 3.
    by rewrite lookup_take_lt by done.
  - replace (S n `min` 21)%nat with (n `min` 21)%nat by lia.
    cbn [foldl Nat.add]. unfold nameLandmark at 1.
    rewrite (lookup_ge_None_2 handLandmarkNames n); [done|simpl; lia].
Qed.

(** X1: The keypoint map holds the 21 landmark names and the three derived
    positions and nothing else, and it depends on the first 21 landmarks
    only: landmarks beyond them are never read. *)
Theorem extractKeypoints_of_first_21_landmarks prediction lms :
  landmarksOf prediction = Some lms ->
  exists keypoints,
    extractKeypoints prediction = Ok keypoints /\
    (forall key, is_Some (keypoints !! key) ->
       key ∈ handLandmarkNames
             ++ ["ring_position"; "bracelet_position"; "watch_position"]) /\
    extractKeypoints
      (mkPrediction (Some (take 21 lms)) None
                    (handedness prediction) (score prediction))
    = Ok keypoints.
Proof.
  intros Hlms.
  destruct (extractKeypoints_named prediction lms Hlms)
    as (keypoints & Hextract & _).
  exists keypoints. split; [done|]. split.
  - intros key. by apply extractKeypoints_keys with prediction.
  - rewrite <- Hextract. unfold extractKeypoints. rewrite Hlms. simpl.
    rewrite (named_rounds_take lms (List.length lms)).
    rewrite (named_rounds_take (take 21 lms) (List.length (take 21 lms))).
    rewrite take_take, length_take.
    replace (21 `min` 21)%nat with 21%nat by lia.
    by replace ((21 `min` List.length lms) `min` 21)%nat
      with (List.length lms `min` 21)%nat by lia.
Qed.


(** X3: The derived positions agree with the named keypoints of the map that
    is returned: [bracelet_position] is the wrist keypoint,
    [ring_position] the midpoint of the ring finger's MCP and PIP
    keypoints, and each is there exactly when the keypoints it is derived
    from are. *)
Theorem extractKeypoints_derived_positions prediction lms :
  landmarksOf prediction = Some lms ->
  exists keypoints,
    extractKeypoints prediction = Ok keypoints /\
    keypoints !! "bracelet_position" = keypoints !! "wrist" /\
    keypoints !! "ring_position" =
      match keypoints !! "ring_finger_mcp", keypoints !! "ring_finger_pip" with
      | Some mcp, Some pip =>
          Some (mkPoint ((px mcp + px pip) / 2) ((py mcp + py pip) / 2)
                        (Some ((zn mcp + zn pip) / 2)))
      | _, _ => None
      end /\
    (is_Some (keypoints !! "watch_position") <->
     is_Some (keypoints !! "wrist") /\ is_Some (keypoints !! "pinky_mcp")).
Proof.
  intros Hlms. unfold extractKeypoints. rewrite Hlms.
  set (named := foldl (nameLandmark lms) ∅ (seq 0 (List.length lms))).
  eexists. split; [reflexivity|].
  assert (Hring : named !! "ring_position" = None)
    by (apply named_rounds_other; by apply (bool_decide_unpack _)).
  assert (Hbracelet : named !! "bracelet_position" = None)
    by (apply named_rounds_other; by apply (bool_decide_unpack _)).
  assert (Hwatch : named !! "watch_position" = None)
    by (apply named_rounds_other; by apply (bool_decide_unpack _)).
  split; [|split].
  - rewrite !addWatchPosition_keep by done.
    rewrite (addBraceletPosition_keep _ "wrist") by done.
    unfold addBraceletPosition.
    rewrite (addRingPosition_keep _ "wrist") by done.
    destruct (named !! "wrist") as [wrist|] eqn:Hw.
    + by rewrite lookup_insert_eq.
    + by rewrite addRingPosition_keep.
  - rewrite !addWatchPosition_keep, !addBraceletPosition_keep by done.
    rewrite !(addRingPosition_keep _ "ring_finger_mcp"),
            !(addRingPosition_keep _ "ring_finger_pip") by done.
    unfold addRingPosition.
    destruct (named !! "ring_finger_mcp") as [mcp|],
             (named !! "ring_finger_pip") as [pip|];
      rewrite ?lookup_insert_eq; done.
  - set (before := addBraceletPosition (addRingPosition named)).
    assert (Hbefore : before !! "watch_position" = None).
    { subst before.
      by rewrite addBraceletPosition_keep, addRingPosition_keep. }
    rewrite !(addWatchPosition_keep _ "wrist"),
            !(addWatchPosition_keep _ "pinky_mcp") by done.
    unfold addWatchPosition.
    destruct (before !! "wrist") as [wrist|],
             (before !! "pinky_mcp") as [pinky|];
      rewrite ?lookup_insert_eq, ?Hbefore;
      split; try (intros [? ?]); try done;
      try (by intros [[? ?] [? ?]]); eauto.
Qed.

End HandKeypointMap.

(** A hand of 23 landmarks gives the keypoints of its first 21. *)
Lemma extractKeypoints_of_23_landmarks_example :
  exists keypoints,
    HandPoseDetector.extractKeypoints Examples.longHandPrediction
    = Ok keypoints /\
    HandPoseDetector.extractKeypoints Examples.pointHandPrediction
    = Ok keypoints.
Proof.
  destruct (extractKeypoints_of_first_21_landmarks Examples.longHandPrediction
              (replicate 23 (Some Examples.facePoint)) eq_refl)
    as (keypoints & Hextract & _ & Htake).
  exists keypoints. split; [exact Hextract|exact Htake].
Defined.


(** Wrist and pinky knuckle only: the bracelet position is the wrist, and
    there is no ring position. *)
Lemma extractKeypoints_derived_example :
  exists keypoints,
    HandPoseDetector.extractKeypoints Examples.watchPrediction = Ok keypoints /\
    keypoints !! "bracelet_position" = Some Examples.wrist /\
    keypoints !! "ring_position" = None.
Proof.
  destruct (extractKeypoints_derived_positions Examples.watchPrediction
              _ eq_refl)
    as (keypoints & Hextract & Hbracelet & Hring & _).
  destruct (extractKeypoints_named Examples.watchPrediction _ eq_refl)
    as (keypoints' & Hextract' & Hnamed).
  rewrite Hextract in Hextract'. injection Hextract' as <-.
  exists keypoints. split; [exact Hextract|].
  rewrite Hbracelet, Hring.
  rewrite (Hnamed 0%nat "wrist" eq_refl),
          (Hnamed 13%nat "ring_finger_mcp" eq_refl).
  split; reflexivity.
Defined.

(** ** Processing the predictions of the hand model *)

Section HandPredictions.
Context `{MathImpl}.
Import HandPoseDetector.

Lemma calculateHandMeasurements_total prediction :
  exists measurements, calculateHandMeasurements prediction = Ok measurements.
Proof.
  unfold calculateHandMeasurements, try_catch.
  destruct (handMeasurementsBody _); eauto.
Qed.

Lemma calculateHandOrientation_total prediction :
  exists orientation, calculateHandOrientation prediction = Ok orientation.
Proof.
  unfold calculateHandOrientation, try_catch.
  destruct (handOrientationBody _); eauto.
Qed.

(** One prediction: it is processed when it has a landmark array, and
    throws a [TypeError] (from [landmarks.length]) when it has none. *)
Lemma processPrediction_cases prediction :
  match landmarksOf prediction with
  | Some lms =>
      exists keypoints measurements orientation,
        extractKeypoints prediction = Ok keypoints /\
        calculateHandMeasurements prediction = Ok measurements /\
        calculateHandOrientation prediction = Ok orientation /\
        processPrediction prediction =
        Ok (mkHand (Some lms) (Some keypoints)
              (if bool_decide (handedness prediction = Some "Left")
               then "Left" else "Right")
              (Some measurements) (Some orientation) (score prediction))
  | None => processPrediction prediction = Throw TypeError
  end.
Proof.
  unfold processPrediction.
  destruct (landmarksOf prediction) as [lms|] eqn:Hlms.
  - destruct (extractKeypoints_named prediction lms Hlms)
      as (keypoints & Hextract & _).
    destruct (calculateHandMeasurements_total prediction) as [m Hm].
    destruct (calculateHandOrientation_total prediction) as [o Ho].
    exists keypoints, m, o. rewrite Hextract, Hm, Ho. done.
  - unfold extractKeypoints. by rewrite Hlms.
Qed.

(** X4: [processPredictions] returns one hand for each prediction, in the order
    of the predictions, provided every prediction has a landmark array;
    each hand carries the landmarks and the score of its prediction, the
    keypoints [extractKeypoints] makes of it, and the label ['Left'] when
    the prediction's handedness is exactly ['Left'] and ['Right'] in every
    other case, a missing handedness included.  One prediction without a
    landmark array makes the whole call throw a [TypeError]. *)
Theorem processPredictions_one_hand_per_prediction
    (predictions : list Prediction) :
  (Forall (fun prediction => is_Some (landmarksOf prediction)) predictions ->
   exists hands,
     processPredictions predictions = Ok hands /\
     List.length hands = List.length predictions /\
     forall (i : nat) prediction hand,
       predictions !! i = Some prediction -> hands !! i = Some hand ->
       hand_landmarks hand = landmarksOf prediction /\
       (exists keypoints,
          hand_keypoints hand = Some keypoints /\
          extractKeypoints prediction = Ok keypoints) /\
       hand_confidence hand = score prediction /\
       hand_handedness hand =
         (if bool_decide (handedness prediction = Some "Left")
          then "Left" else "Right")) /\
  (Exists (fun prediction => landmarksOf prediction = None) predictions ->
   processPredictions predictions = Throw TypeError).
Proof.
  split.
  - induction 1 as [|prediction rest [lms Hlms] _ (hands & Hhands & Hlen & Hall)].
    { exists []. split; [done|]. split; [done|]. intros i ? ? [=]. }
    pose proof (processPrediction_cases prediction) as Hone.
    rewrite Hlms in Hone.
    destruct Hone as (keypoints & m & o & Hk & _ & _ & Hone).
    eexists. simpl. rewrite Hone, Hhands. split; [reflexivity|].
    split; [simpl; by rewrite Hlen|].
    intros [|i] p hand; simpl.
    + intros [= <-] [= <-]. simpl. rewrite Hlms. eauto 6.
    + apply Hall.
  - induction predictions as [|prediction rest IH]; intros Hex.
    { by apply Exists_nil in Hex. }
    simpl. pose proof (processPrediction_cases prediction) as Hone.
    destruct (landmarksOf prediction) as [lms|] eqn:Hlms.
    + destruct Hone as (keypoints & m & o & _ & _ & _ & ->).
      apply Exists_cons in Hex as [Hex|Hex]; [congruence|].
      by rewrite (IH Hex).
    + by rewrite Hone.
Qed.

(** X5: The aspect ratio is [handLength / palmWidth] with no guard on the
    divisor.  When the index and the pinky knuckle coincide, so that the
    palm width measured is 0, the hand is not reported with the default
    aspect ratio 0: the ratio is NaN or an infinity. *)
Theorem aspectRatio_of_a_palm_of_width_0 prediction measurements :
  handMeasurementsBody (landmarksOf prediction) = Ok measurements ->
  is_zero (palmWidth measurements) = true ->
  calculateHandMeasurements prediction = Ok measurements /\
  is_finite (aspectRatio measurements) = false.
Proof.
  intros Hbody Hzero. unfold calculateHandMeasurements. rewrite Hbody.
  split; [done|].
  unfold handMeasurementsBody in Hbody.
  repeat match type of Hbody with
         | context [mbind _ ?c] =>
             let r := fresh "r" in
             destruct c as [r|] eqn:?; [|discriminate];
             cbn [mbind result_bind JS.bind] in Hbody
         end.
  injection Hbody as <-. simpl in *. by apply div_by_zero_not_finite.
Qed.

End HandPredictions.

(** Two predictions give two hands, a left one and a right one; with a
    prediction that has no landmarks among them the call throws. *)
Lemma processPredictions_example :
  HandPoseDetector.landmarksOf Examples.emptyHandPrediction = None /\
  forall M : MathImpl,
    (exists left right,
       HandPoseDetector.processPredictions
         [Examples.flatPrediction; Examples.watchPrediction]
       = Ok [left; right] /\
       HandPoseDetector.hand_handedness left = "Left" /\
       HandPoseDetector.hand_handedness right = "Right") /\
    HandPoseDetector.processPredictions
      [Examples.flatPrediction; Examples.emptyHandPrediction]
    = Throw TypeError.
Proof.
  split; [reflexivity|]. intros M. split.
  - destruct (proj1 (processPredictions_one_hand_per_prediction
                       [Examples.flatPrediction; Examples.watchPrediction]))
      as (hands & Hhands & Hlen & Hall).
    { repeat constructor; by eexists. }
    destruct hands as [|left [|right [|]]]; try discriminate Hlen.
    exists left, right. split; [exact Hhands|].
    destruct (Hall 0%nat _ left eq_refl eq_refl) as (_ & _ & _ & ->).
    destruct (Hall 1%nat _ right eq_refl eq_refl) as (_ & _ & _ & ->).
    split; reflexivity.
  - apply (proj2 (processPredictions_one_hand_per_prediction
                    [Examples.flatPrediction; Examples.emptyHandPrediction])).
    apply Exists_cons_tl, Exists_cons_hd. reflexivity.
Defined.

(** A hand whose landmarks all lie on one point has palm width 0, hand
    length 0 and the aspect ratio NaN. *)
Lemma aspectRatio_example :
  exists measurements,
    HandPoseDetector.palmWidth measurements = 0 /\
    is_nan (HandPoseDetector.aspectRatio measurements) = true /\
    forall M : MathImpl,
      HandPoseDetector.calculateHandMeasurements Examples.pointHandPrediction
      = Ok measurements /\
      is_finite (HandPoseDetector.aspectRatio measurements) = false.
Proof.
  eexists. split; [|split]; [| |intros M].
  3: { apply (aspectRatio_of_a_palm_of_width_0 Examples.pointHandPrediction);
       [vm_compute; reflexivity|reflexivity]. }
  all: reflexivity.
Defined.

(** ** The life of a hand detector *)

Section HandDetector.
Context `{MathImpl} {Model : Type}.
Import HandPoseDetector.

(** X6: On a page that binds no global [tf], [initialize] fails before it
    loads anything: it returns [false] and leaves the detector as it was.
    A detector made by the constructor then stays uninitialized however
    often [initialize] is called, and its [detect] throws. *)
Theorem detector_without_global_tf_never_detects
    (attempts : list (num -> num -> result Model)) now
    (estimateHands : Model -> result (option (list Prediction))) :
  (forall createDetector (this : Detector Model),
     initialize None createDetector this = (this, false)) /\
  foldl (fun this createDetector => (initialize None createDetector this).1)
        constructor attempts
  = constructor /\
  detect now estimateHands
    (foldl (fun this createDetector => (initialize None createDetector this).1)
           constructor attempts)
  = (constructor, Throw (Error "Hand pose detector not initialized")).
Proof.
  assert (Hfold :
    foldl (fun this createDetector =>
             (initialize (Model:=Model) None createDetector this).1)
          constructor attempts = constructor)
    by (induction attempts as [|a attempts IH]; [done|]; simpl; apply IH).
  split; [done|]. split; [done|]. by rewrite Hfold.
Qed.

(** X7: An initialized detector never throws from [detect].  Within 100 ms of
    the last detection it returns [null] and changes nothing, whatever the
    model would have said.  Otherwise it stamps the time and returns the
    processed hands, or [null] when the model threw, found no hand, or gave
    a prediction that [processPredictions] throws on. *)
Theorem detect_of_an_initialized_detector
    now (estimateHands : Model -> result (option (list Prediction)))
    (this : Detector Model) (loaded : Model) :
  isInitialized this = true ->
  model this = Some loaded ->
  exists value,
    (detect now estimateHands this).2 = Ok value /\
    isInitialized (detect now estimateHands this).1 = true /\
    model (detect now estimateHands this).1 = Some loaded /\
    ((now - lastPredictionTime this <? 100) = true ->
     value = None /\ (detect now estimateHands this).1 = this) /\
    ((now - lastPredictionTime this <? 100) = false ->
     lastPredictionTime (detect now estimateHands this).1 = now /\
     value =
       match estimateHands loaded with
       | Ok (Some predictions) =>
           match predictions, processPredictions predictions with
           | _ :: _, Ok hands => Some hands
           | _, _ => None
           end
       | _ => None
       end).
Proof.
  intros Hinit Hmodel. unfold detect. rewrite Hinit, Hmodel.
  destruct (now - lastPredictionTime this <? 100) eqn:Hsoon.
  - exists None. repeat split; try done.
  - eexists. split; [reflexivity|]. simpl.
    repeat split; try done.
Qed.

(** X8: Changing the configuration of an initialized detector disposes of its
    model and starts a new [initialize] without waiting for it: when
    [updateConfig] returns, the detector holds the new values and is
    uninitialized, so a [detect] that comes before the model is loaded
    again throws.  A configuration that gives neither value changes
    nothing. *)
Theorem updateConfig_leaves_the_detector_uninitialized
    (modelDispose : Model -> option (result ())) (config : Config)
    (this this' : Detector Model) (started : bool) now
    (estimateHands : Model -> result (option (list Prediction))) :
  updateConfig modelDispose config this = Ok (this', started) ->
  detectionConfidence this'
  = default (detectionConfidence this) (config_detectionConfidence config) /\
  maxHands this' = default (maxHands this) (config_maxHands config) /\
  (isInitialized this = true ->
   is_Some (config_detectionConfidence config) \/
   is_Some (config_maxHands config) ->
   started = true /\ isInitialized this' = false /\ model this' = None /\
   (detect now estimateHands this').2
   = Throw (Error "Hand pose detector not initialized")) /\
  (config = mkConfig None None -> this' = this /\ started = false).
Proof.
  unfold updateConfig.
  set (this1 := match config_detectionConfidence config with
                | Some _ => _ | None => this end).
  set (this2 := match config_maxHands config with
                | Some _ => _ | None => this1 end).
  assert (Hinit : isInitialized this2 = isInitialized this)
    by (subst this1 this2; by repeat case_match).
  assert (Hconf : detectionConfidence this2
                  = default (detectionConfidence this)
                            (config_detectionConfidence config))
    by (subst this1 this2; by repeat case_match).
  assert (Hhands : maxHands this2
                   = default (maxHands this) (config_maxHands config))
    by (subst this1 this2; by repeat case_match).
  assert (Hnone : config = mkConfig None None -> this2 = this)
    by (intros ->; by subst this1 this2).
  rewrite Hinit. rewrite <- Hconf, <- Hhands. clearbody this2. clear this1.
  destruct (isInitialized this) eqn:Hthis; simpl.
  - destruct (bool_decide (is_Some (config_detectionConfidence config))
              || bool_decide (is_Some (config_maxHands config))) eqn:Hgiven.
    + intros Hdispose.
      assert (this' = mkDetector None false (lastPredictionTime this2)
                        (detectionConfidence this2) (maxHands this2)
              /\ started = true) as [-> ->].
      { unfold dispose in Hdispose.
        destruct (model this2) as [loaded|];
          [destruct (modelDispose loaded) as [[|]|]|];
          simpl in Hdispose; by simplify_eq. }
      simpl. split; [done|]. split; [done|]. split; [done|].
      intros ->. simpl in Hgiven. discriminate.
    + intros [= <- <-]. split; [done|]. split; [done|]. split.
      * intros _ Hsome. exfalso.
        apply orb_false_elim in Hgiven as [H1 H2].
        apply bool_decide_eq_false in H1, H2. tauto.
      * intros Hc. by rewrite Hnone.
  - intros [= <- <-]. split; [done|]. split; [done|]. split; [done|].
    intros Hc. by rewrite Hnone.
Qed.

End HandDetector.

(** A loaded detector last used at time 0: at time 50 it returns [null]
    and stays as it is, at time 150 it asks the model, here one that finds
    no hand, and stamps the time. *)
Lemma detect_example :
  HandPoseDetector.isInitialized Examples.readyDetector = true /\
  forall M : MathImpl,
    HandPoseDetector.detect 50 (fun _ => Ok (Some [])) Examples.readyDetector
    = (Examples.readyDetector, Ok None) /\
    HandPoseDetector.detect 150 (fun _ => Ok (Some [])) Examples.readyDetector
    = (HandPoseDetector.mkDetector (Some ()) true 150 0.7 2, Ok None).
Proof.
  split; [reflexivity|]. intros M.
  destruct (detect_of_an_initialized_detector 50 (fun _ => Ok (Some []))
              Examples.readyDetector () eq_refl eq_refl)
    as (value & Hvalue & _ & _ & Hsoon & _).
  destruct (Hsoon eq_refl) as [-> Hsame].
  split; [|reflexivity].
  rewrite (surjective_pairing (HandPoseDetector.detect _ _ _)).
  by rewrite Hvalue, Hsame.
Defined.

(** Raising the confidence of a loaded detector to 0.6 leaves a detector
    without a model that holds the new confidence. *)
Lemma updateConfig_example :
  HandPoseDetector.updateConfig (fun _ => None)
    (HandPoseDetector.mkConfig (Some 0.6) None) Examples.readyDetector
  = Ok (HandPoseDetector.mkDetector None false 0 0.6 2, true) /\
  forall M : MathImpl,
    (HandPoseDetector.detect 150 (fun _ => Ok (Some []))
       (HandPoseDetector.mkDetector (Model:=()) None false 0 0.6 2)).2
    = Throw (Error "Hand pose detector not initialized").
Proof.
  split; [reflexivity|]. intros M.
  destruct (updateConfig_leaves_the_detector_uninitialized
              (fun _ => None) (HandPoseDetector.mkConfig (Some 0.6) None)
              Examples.readyDetector _ _ 150 (fun _ => Ok (Some [])) eq_refl)
    as (_ & _ & Hstarted & _).
  destruct Hstarted as (_ & _ & _ & Hdetect); [reflexivity|by left|].
  exact Hdetect.
Defined.

(** ** The rotation of a face *)

Section FaceRotation.
Context `{MathImpl}.
Import FaceLandmarkDetector.

(** X9: [calculateFaceRotation] wants the whole mesh: with fewer than 468
    landmarks, or without an eye or the nose tip, the rotation is
    [{pitch: 0, yaw: 0, roll: 0}], although [extractKeypoints] places the
    keypoints of such a face.  On a full mesh whose eyes are level, the
    right eye to the right of the left, the roll is exactly 0 whatever the
    engine's [Math.atan2] computes elsewhere. *)
Theorem calculateFaceRotation_of_partial_and_level_faces prediction :
  (forall l,
     landmarksOf prediction = Some l -> (List.length l < 468)%nat ->
     calculateFaceRotation prediction = mkRotation 0 0 0) /\
  (landmarksOf prediction = None ->
   calculateFaceRotation prediction = mkRotation 0 0 0) /\
  (forall l,
     landmarksOf prediction = Some l ->
     or_else (mjoin (l !! 33%nat)) (mjoin (l !! 159%nat)) = None \/
     or_else (mjoin (l !! 263%nat)) (mjoin (l !! 386%nat)) = None \/
     or_else (mjoin (l !! 1%nat)) (mjoin (l !! 19%nat)) = None ->
     calculateFaceRotation prediction = mkRotation 0 0 0) /\
  (forall l leftEye rightEye noseTip,
     landmarksOf prediction = Some l -> (468 <= List.length l)%nat ->
     or_else (mjoin (l !! 33%nat)) (mjoin (l !! 159%nat)) = Some leftEye ->
     or_else (mjoin (l !! 263%nat)) (mjoin (l !! 386%nat)) = Some rightEye ->
     or_else (mjoin (l !! 1%nat)) (mjoin (l !! 19%nat)) = Some noseTip ->
     is_finite (py leftEye) = true -> py rightEye = py leftEye ->
     (0 <? px rightEye - px leftEye) = true ->
     roll (calculateFaceRotation prediction) = 0).
Proof.
  unfold calculateFaceRotation. repeat split.
  - intros l -> Hlen. by rewrite bool_decide_true.
  - by intros ->.
  - intros l -> Hmissing. case_bool_decide; [done|].
    destruct Hmissing as [-> |[-> | ->]]; [done| |]; by repeat case_match.
  - intros l leftEye rightEye noseTip -> Hlen -> -> -> Hfin Hlevel Hright.
    rewrite bool_decide_false by lia. simpl.
    rewrite Hlevel, (sub_diag_finite _ Hfin).
    unfold Math_atan2. rewrite Hright.
    replace (is_nan (px rightEye - px leftEye)) with false; [done|].
    symmetry. unfold is_nan.
    destruct (px rightEye - px leftEye =? px rightEye - px leftEye) eqn:Heq;
      [done|].
    rewrite FloatAxioms.ltb_spec in Hright.
    rewrite FloatAxioms.eqb_spec in Heq.
    change (Prim2SF 0) with (S754_zero false) in Hright.
    destruct (Prim2SF (px rightEye - px leftEye)) as [s|s| |s m e];
      try done; try (by destruct s).
    unfold SFeqb, SFcompare in Heq.
    rewrite Z.compare_refl, Pos.compare_cont_refl in Heq. by destruct s.
Qed.

End FaceRotation.

(** The eyes of the mock face, level and 100 apart: the roll is 0; with
    the two ears only, the rotation is all zeros. *)
Lemma calculateFaceRotation_example :
  FaceLandmarkDetector.landmarksOf Examples.levelFacePrediction
  = Some (Examples.sparse 468 [(33%nat, mkPoint 150 100 (Some 0));
                               (263%nat, mkPoint 250 100 (Some 0));
                               (1%nat, mkPoint 200 150 (Some 0))]) /\
  forall M : MathImpl,
    FaceLandmarkDetector.roll
      (FaceLandmarkDetector.calculateFaceRotation Examples.levelFacePrediction)
    = 0 /\
    FaceLandmarkDetector.calculateFaceRotation Examples.earsPrediction
    = FaceLandmarkDetector.mkRotation 0 0 0.
Proof.
  split; [reflexivity|]. intros M. split.
  - apply (proj2 (proj2 (proj2
             (calculateFaceRotation_of_partial_and_level_faces
                Examples.levelFacePrediction)))
             _ (mkPoint 150 100 (Some 0)) (mkPoint 250 100 (Some 0))
             (mkPoint 200 150 (Some 0)) eq_refl);
      first [reflexivity | vm_compute; lia].
  - apply (proj1 (proj2 (proj2
             (calculateFaceRotation_of_partial_and_level_faces
                Examples.earsPrediction))) _ eq_refl).
    left. reflexivity.
Defined.

(** ** Rings in the AR view *)

Section DetectedRings.
Context `{MathImpl}.
Import HandPoseDetector.

(** A decimal numeral starts with a digit. *)
Lemma pretty_N_go_digit (x : N) : forall s,
  (exists c rest, s = String c rest /\ (Ascii.nat_of_ascii c <= 57)%nat) ->
  exists c rest, pretty_N_go x s = String c rest /\ (Ascii.nat_of_ascii c <= 57)%nat.
Proof.
  induction (N.lt_wf_0 x) as [x _ IH]. intros s Hs.
  destruct (decide (x = 0%N)) as [->|Hx]; [by rewrite pretty_N_go_0|].
  rewrite pretty_N_go_step by lia.
  apply IH; [apply N.div_lt; lia|].
  eexists _, _. split; [reflexivity|].
  unfold pretty_N_char. repeat case_match; vm_compute; lia.
Qed.

Lemma pretty_N_digit (x : N) :
  exists c rest, pretty x = String c rest /\ (Ascii.nat_of_ascii c <= 57)%nat.
Proof.
  unfold pretty, pretty_N.
  case_decide; [eexists _, _; split; [reflexivity|vm_compute; lia]|].
  rewrite pretty_N_go_step by lia.
  apply pretty_N_go_digit. eexists _, _. split; [reflexivity|].
  unfold pretty_N_char. repeat case_match; vm_compute; lia.
Qed.

(** The keys that the AR resolver looks up for a finger are no keys of the
    hand map. *)
Lemma finger_key_not_in_hand_map prediction keypoints (n : N) (joint : string) :
  extractKeypoints prediction = Ok keypoints ->
  keypoints !! (pretty n +:+ joint) = None.
Proof.
  intros Hextract.
  destruct (keypoints !! (pretty n +:+ joint)) as [p|] eqn:Hkey; [|done].
  exfalso.
  assert (Hin : pretty n +:+ joint ∈ handLandmarkNames
      ++ ["ring_position"; "bracelet_position"; "watch_position"])
    by (eapply extractKeypoints_keys; eauto).
  destruct (pretty_N_digit n) as (c & rest & Hn & Hc). rewrite Hn in Hin.
  assert (Hall : Forall (fun name => forall c rest,
                           name = String c rest -> (97 <= Ascii.nat_of_ascii c)%nat)
                        (handLandmarkNames ++
                         ["ring_position"; "bracelet_position";
                          "watch_position"])).
  { repeat constructor; intros ? ? [= <- _]; vm_compute; lia. }
  rewrite Forall_forall in Hall.
  specialize (Hall _ Hin c (rest +:+ joint) eq_refl). lia.
Qed.

Lemma processPredictions_keypoints predictions hands hand :
  processPredictions predictions = Ok hands ->
  hand ∈ hands ->
  exists prediction keypoints,
    hand_keypoints hand = Some keypoints /\
    extractKeypoints prediction = Ok keypoints.
Proof.
  revert hands. induction predictions as [|prediction rest IH];
    simpl; intros hands.
  - intros [= <-] ?%elem_of_nil. done.
  - unfold processPrediction.
    destruct (extractKeypoints prediction) as [keypoints|] eqn:Hextract;
      [|discriminate].
    cbn [mbind result_bind JS.bind].
    destruct (calculateHandMeasurements prediction); [|discriminate].
    destruct (calculateHandOrientation prediction); [|discriminate].
    cbn [JS.bind].
    destruct (processPredictions rest) as [others|]; [|discriminate].
    intros [= <-] [->|Hin]%elem_of_cons; [|by apply (IH others)].
    by exists prediction, keypoints.
Qed.

(** X10: The AR resolver reads the joints of finger [n] under the keys
    ["<n>_mcp"] and ["<n>_pip"]; the hand map names them
    ["ring_finger_mcp"], ["ring_finger_pip"] and so on.  On the hands that
    [processPredictions] returns the lookup therefore finds nothing, and a
    ring is not drawn, whatever finger, hand and image it asks for. *)
Theorem ring_is_not_drawn_on_processed_hands
    itemAdjustments predictions hands (item : JewelryItem) :
  processPredictions predictions = Ok hands ->
  type item = "ring" ->
  ARVirtualTryOn.drawHandItem itemAdjustments hands item = [].
Proof.
  intros Hhands Htype. unfold ARVirtualTryOn.drawHandItem.
  case_bool_decide; [done|].
  destruct (ARVirtualTryOn.targetHandOf hands item) as [hand|] eqn:Htarget;
    [|done].
  assert (hand ∈ hands) as Hin.
  { unfold ARVirtualTryOn.targetHandOf in Htarget.
    destruct (bool_decide (preferredHand item = Some "left"));
      (destruct (List.find _ hands) as [found|] eqn:Hfind;
       [ injection Htarget as <-; apply List.find_some in Hfind as [Hf _];
         by apply list_elem_of_In
       | destruct hands; simpl in Htarget; [done|];
         injection Htarget as <-; by left ]). }
  destruct (processPredictions_keypoints predictions hands hand Hhands Hin)
    as (prediction & keypoints & -> & Hextract).
  rewrite Htype. simpl.
  by rewrite (finger_key_not_in_hand_map prediction keypoints _ "_mcp").
Qed.

End DetectedRings.

(** A hand with all 21 landmarks, processed by the detector: the ring of
    the default finger is not drawn. *)
Lemma ring_is_not_drawn_example :
  type Examples.ringItem = "ring" /\
  forall M : MathImpl,
    exists hand,
      HandPoseDetector.processPredictions [Examples.pointHandPrediction]
      = Ok [hand] /\
      ARVirtualTryOn.drawHandItem ARVirtualTryOn.initialAdjustments
        [hand] Examples.ringItem = [].
Proof.
  split; [reflexivity|]. intros M.
  destruct (HandPoseDetector.processPredictions [Examples.pointHandPrediction])
    as [[|hand [|]]|] eqn:Hhands; try discriminate Hhands.
  exists hand. split; [reflexivity|].
  apply (ring_is_not_drawn_on_processed_hands ARVirtualTryOn.initialAdjustments
           [Examples.pointHandPrediction] [hand] Examples.ringItem Hhands
           eq_refl).
Defined.

(** ** The two resolvers side by side *)

Section Resolvers.
Context `{MathImpl}.

(** X11: [item.fingerIndex || 3] takes index 0, the thumb, for a missing index:
    both resolvers treat a ring for finger 0 exactly as a ring with no
    finger index, that is, as a ring for finger 3. *)
Theorem ring_for_finger_0_goes_to_finger_3
    (item : JewelryItem) this trackingPoints videoWidth videoHeight
    itemAdjustments handDetections :
  fingerIndex item = Some 0%N ->
  let unset :=
    mkItem (type item) (preferredHand item) None (sizeAdjustment item)
           (imageUrl item) (leftImageUrl item) (rightImageUrl item) in
  fingerIndexOr item 3 = 3%N /\
  JewelryRenderer.renderRing this item trackingPoints videoWidth videoHeight
  = JewelryRenderer.renderRing this unset trackingPoints videoWidth videoHeight /\
  ARVirtualTryOn.drawHandItem itemAdjustments handDetections item
  = ARVirtualTryOn.drawHandItem itemAdjustments handDetections unset.
Proof.
  intros Hzero unset.
  assert (Hidx : fingerIndexOr item 3 = fingerIndexOr unset 3)
    by (unfold fingerIndexOr; simpl; by rewrite Hzero).
  split; [unfold fingerIndexOr; by rewrite Hzero|]. split.
  - unfold JewelryRenderer.renderRing, JewelryRenderer.chooseHand.
    rewrite Hidx. reflexivity.
  - unfold ARVirtualTryOn.drawHandItem, ARVirtualTryOn.targetHandOf.
    rewrite Hidx. reflexivity.
Qed.

(** X12: The AR resolver knows earrings as type ['earring'], the canvas renderer
    as type ['earrings']: an item of either type is drawn by one of the two
    and ignored by the other. *)
Theorem earring_type_names_differ
    (item : JewelryItem) this trackingPoints videoWidth videoHeight
    itemAdjustments faceDetections :
  (type item = "earrings" ->
   ARVirtualTryOn.drawFaceItem itemAdjustments faceDetections item = []) /\
  (type item = "earring" ->
   JewelryRenderer.render this item trackingPoints videoWidth videoHeight
   = (JewelryRenderer.mkRenderer
        (JewelryRenderer.textures this)
        (JewelryRenderer.smoothedPositions this)
        (JewelryRenderer.smoothingFactor this) (Some "earring"),
      Ok [])).
Proof.
  split; intros Htype.
  - unfold ARVirtualTryOn.drawFaceItem. rewrite Htype.
    by destruct faceDetections.
  - unfold JewelryRenderer.render. by rewrite Htype.
Qed.

(** X13: Earrings go on in pairs, in both resolvers: when either ear is
    missing (the ear keypoint in the AR view, landmark 234 or 454 on the
    canvas) nothing is drawn, not even the earring of the ear that is
    there, and the canvas renderer keeps the positions it had. *)
Theorem earrings_need_both_ears
    (item : JewelryItem) itemAdjustments detection rest
    this trackingPoints videoWidth videoHeight :
  (type item = "earring" ->
   FaceLandmarkDetector.prop
     (default ∅ (ARVirtualTryOn.face_keypoints detection)) "leftEar" = None \/
   FaceLandmarkDetector.prop
     (default ∅ (ARVirtualTryOn.face_keypoints detection)) "rightEar" = None ->
   ARVirtualTryOn.drawFaceItem itemAdjustments (detection :: rest) item = []) /\
  (forall face,
     type item = "earrings" ->
     JewelryRenderer.face trackingPoints = Some face ->
     JewelryRenderer.getLeftEarringPosition face = None \/
     JewelryRenderer.getRightEarringPosition face = None ->
     JewelryRenderer.render this item trackingPoints videoWidth videoHeight =
     (JewelryRenderer.mkRenderer
        (JewelryRenderer.textures this)
        (JewelryRenderer.smoothedPositions this)
        (JewelryRenderer.smoothingFactor this) (Some "earrings"),
      Ok [])).
Proof.
  split.
  - intros Htype Hears. unfold ARVirtualTryOn.drawFaceItem.
    rewrite Htype. simpl.
    destruct Hears as [-> | ->]; [done|]. by case_match.
  - intros face Htype Hface Hears. unfold JewelryRenderer.render.
    rewrite Htype. simpl.
    unfold JewelryRenderer.renderEarrings. rewrite Hface.
    destruct Hears as [-> | ->]; [done|].
    by destruct (JewelryRenderer.getLeftEarringPosition face).
Qed.

End Resolvers.

(** A ring for the thumb is drawn where the ring for finger 3 is. *)
Lemma ring_for_finger_0_example :
  fingerIndexOr Examples.thumbRingItem 3 = 3%N /\
  forall M : MathImpl,
    JewelryRenderer.renderRing Examples.renderer Examples.thumbRingItem
      Examples.onlyRightHand 640 480
    = JewelryRenderer.renderRing Examples.renderer Examples.ringItem
        Examples.onlyRightHand 640 480.
Proof.
  split; [reflexivity|]. intros M.
  apply (ring_for_finger_0_goes_to_finger_3 Examples.thumbRingItem
           Examples.renderer Examples.onlyRightHand 640 480
           ARVirtualTryOn.initialAdjustments [] eq_refl).
Defined.

(** An item of type ['earring'] on a face that the canvas renderer draws
    earrings on: nothing is drawn. *)
Lemma earring_type_names_example :
  type Examples.earringItem = "earring" /\
  forall M : MathImpl,
    (JewelryRenderer.render Examples.renderer Examples.earringItem
       Examples.detectedFace 640 480).2 = Ok [] /\
    (JewelryRenderer.render Examples.renderer Examples.earringsItem
       Examples.detectedFace 640 480).2 <> Ok [].
Proof.
  split; [reflexivity|]. intros M. split.
  - rewrite (proj2 (earring_type_names_differ Examples.earringItem
                      Examples.renderer Examples.detectedFace 640 480
                      ARVirtualTryOn.initialAdjustments []) eq_refl).
    reflexivity.
  - vm_compute. discriminate.
Defined.

(** With the left ear only, neither resolver draws an earring. *)
Lemma earrings_one_ear_example :
  ARVirtualTryOn.drawFaceItem ARVirtualTryOn.initialAdjustments
    [Examples.leftEarOnlyDetection] Examples.earringItem = [] /\
  forall M : MathImpl,
    (JewelryRenderer.render Examples.renderer Examples.earringsItem
       Examples.leftEarOnlyFace 640 480).2 = Ok [].
Proof.
  split.
  - unfold ARVirtualTryOn.drawFaceItem. reflexivity.
  - intros M.
    rewrite (proj2 (earrings_need_both_ears Examples.earringsItem
                      ARVirtualTryOn.initialAdjustments
                      Examples.leftEarOnlyDetection []
                      Examples.renderer Examples.leftEarOnlyFace 640 480)
               _ eq_refl eq_refl); [reflexivity|].
    right. reflexivity.
Defined.

(** ** The AR resolver on faces *)

Section FaceItems.
Import ARVirtualTryOn.

(** X14: From the landmarks to the canvas: when the face map finds both ears,
    the AR resolver draws a necklace at the [neckBase] of that map, midway
    between the ears on x and 50 below the lower ear on y, in the
    coordinates of the landmarks, with the scale, rotation and offsets of
    the user's adjustments. *)
Theorem drawFaceItem_necklace_at_neckBase
    itemAdjustments (item : JewelryItem) prediction l leftEar rightEar url :
  type item = "necklace" ->
  url_truthy (imageUrl item) = Some url ->
  FaceLandmarkDetector.landmarksOf prediction = Some l ->
  or_else (mjoin (l !! 234%nat)) (mjoin (l !! 93%nat)) = Some leftEar ->
  or_else (mjoin (l !! 454%nat)) (mjoin (l !! 323%nat)) = Some rightEar ->
  exists keypoints,
    FaceLandmarkDetector.extractKeypoints prediction = Ok keypoints /\
    drawFaceItem itemAdjustments [mkFace (Some keypoints)] item =
    [ mkDrawImage url
        ((px leftEar + px rightEar) / 2)
        (Math_max (py leftEar) (py rightEar) + 50)
        (toNumber (sizeAdjustment item) * scale itemAdjustments)
        (rotation itemAdjustments)
        (xOffset itemAdjustments) (yOffset itemAdjustments) ].
Proof.
  intros Htype Hurl Hl Hleft Hright.
  assert (Hne : l <> []) by (intros ->; discriminate).
  destruct (extractKeypoints_nonempty prediction l Hl Hne)
    as (keypoints & Hextract & _ & Hneck).
  exists keypoints. split; [done|].
  unfold drawFaceItem. rewrite Htype. simpl.
  rewrite Hneck, Hleft, Hright, Hurl. reflexivity.
Qed.

End FaceItems.

(** The ears of the mock face, at (100, 150) and (300, 150): the necklace
    is drawn at (200, 200). *)
Lemma drawFaceItem_necklace_example :
  exists keypoints,
    FaceLandmarkDetector.extractKeypoints Examples.mockPrediction
    = Ok keypoints /\
    ARVirtualTryOn.drawFaceItem ARVirtualTryOn.initialAdjustments
      [ARVirtualTryOn.mkFace (Some keypoints)] Examples.necklaceItem
    = [ARVirtualTryOn.mkDrawImage "necklace.png" 200 200 1 0 0 0].
Proof.
  destruct (drawFaceItem_necklace_at_neckBase
              ARVirtualTryOn.initialAdjustments Examples.necklaceItem
              Examples.mockPrediction _
              (mkPoint 100 150 (Some 0)) (mkPoint 300 150 (Some 0))
              "necklace.png" eq_refl eq_refl eq_refl eq_refl eq_refl)
    as (keypoints & Hextract & Hdraw).
  exists keypoints. split; [exact Hextract|].
  rewrite Hdraw. vm_compute. reflexivity.
Defined.

(** ** The AR resolver on hands *)

Section HandItems.
Context `{MathImpl}.
Import ARVirtualTryOn.

Lemma num_or_not_nan (v d : num) :
  is_nan d = false -> is_nan (num_or v d) = false.
Proof.
  intros Hd. unfold num_or, truthy.
  destruct (is_nan v) eqn:Hv; [by rewrite orb_true_r|].
  by destruct (is_zero v).
Qed.

(** X15: A bracelet or a watch is turned by the hand's roll plus the user's
    rotation, written [roll + rotation || rotation]: whenever the sum is
    NaN (no orientation, or a roll that is NaN) or zero, the user's
    rotation is used.  So the rotation handed to the canvas is a number
    whenever the user's rotation is one, and on a hand without an
    orientation it is the user's rotation. *)
Theorem wrist_item_rotation_is_a_number
    itemAdjustments handDetections (item : JewelryItem) :
  type item = "bracelet" \/ type item = "watch" ->
  is_nan (rotation itemAdjustments) = false ->
  Forall (fun d => is_nan (di_rotation d) = false)
         (drawHandItem itemAdjustments handDetections item) /\
  (forall targetHand,
     targetHandOf handDetections item = Some targetHand ->
     HandPoseDetector.hand_orientation targetHand = None ->
     Forall (fun d => di_rotation d = rotation itemAdjustments)
            (drawHandItem itemAdjustments handDetections item)).
Proof.
  intros Htype Hrot. split.
  - unfold drawHandItem. case_bool_decide; [constructor|].
    destruct (targetHandOf handDetections item) as [targetHand|];
      [|constructor].
    destruct Htype as [Htype|Htype]; rewrite Htype; simpl;
      repeat case_match; repeat constructor; simpl;
      by apply num_or_not_nan.
  - intros targetHand Htarget Hnone. unfold drawHandItem.
    case_bool_decide; [constructor|]. rewrite Htarget.
    destruct Htype as [Htype|Htype]; rewrite Htype; simpl;
      repeat case_match; repeat constructor; simpl;
      rewrite Hnone; simpl; unfold num_or, truthy;
      by rewrite (nan_add_l nan _ eq_refl), orb_true_r.
Qed.

End HandItems.

(** A bracelet on a hand without an orientation, the rotation slider at
    0: the bracelet is drawn, with rotation 0. *)
Lemma wrist_item_rotation_example :
  type Examples.braceletItem = "bracelet" /\
  forall M : MathImpl,
    Forall (fun d => ARVirtualTryOn.di_rotation d = 0)
      (ARVirtualTryOn.drawHandItem ARVirtualTryOn.initialAdjustments
         [Examples.wristOnlyHand] Examples.braceletItem) /\
    List.length
      (ARVirtualTryOn.drawHandItem ARVirtualTryOn.initialAdjustments
         [Examples.wristOnlyHand] Examples.braceletItem) = 1%nat.
Proof.
  split; [reflexivity|]. intros M. split; [|reflexivity].
  destruct (wrist_item_rotation_is_a_number ARVirtualTryOn.initialAdjustments
              [Examples.wristOnlyHand] Examples.braceletItem)
    as [_ Hrotation]; [by left|reflexivity|].
  exact (Hrotation Examples.wristOnlyHand eq_refl eq_refl).
Defined.

(** ** The canvas renderer and its image cache *)

Section CanvasCache.
Context `{MathImpl}.
Import JewelryRenderer.











End CanvasCache.

Section CanvasSlots.
Context `{MathImpl}.
Import JewelryRenderer.

(** X17: Each kind of jewelry has a slot of its own in the smoothing cache:
    rendering an item leaves the slots of every other kind, and the
    smoothing factor, as they were. *)
Theorem render_keeps_other_slots this item trackingPoints videoWidth videoHeight :
  let before := smoothedPositions this in
  let after :=
    smoothedPositions
      (render this item trackingPoints videoWidth videoHeight).1 in
  (type item = "earrings" \/
   earrings_left after = earrings_left before /\
   earrings_right after = earrings_right before) /\
  (type item = "necklace" \/ necklace after = necklace before) /\
  (type item = "ring" \/ ring after = ring before) /\
  (type item = "bracelet" \/ bracelet after = bracelet before) /\
  (type item = "watch" \/ watch after = watch before) /\
  smoothingFactor (render this item trackingPoints videoWidth videoHeight).1
  = smoothingFactor this.
Proof.
  cbv zeta. unfold render.
  repeat case_bool_decide; simplify_eq/=.
  - unfold renderEarrings. repeat case_match; simplify_eq/=; tauto.
  - unfold renderNecklace. repeat case_match; simplify_eq/=; tauto.
  - unfold renderRing. repeat case_match; simplify_eq/=; tauto.
  - unfold renderBracelet. repeat case_match; simplify_eq/=; tauto.
  - unfold renderWatch. repeat case_match; simplify_eq/=; tauto.
  - tauto.
Qed.

(** X18: [renderEarrings] measures the eye distance between landmarks 27 and 33
    outside its [try]: when both ears are found and one of those two
    landmarks is missing, the call throws a [TypeError] after it has stored
    the two smoothed ear positions, and [render] passes the exception on
    without recording the type. *)
Theorem render_earrings_throws_without_eye_landmarks
    this item trackingPoints videoWidth videoHeight
    face (l : list (option Point3D)) (leftEar rightEar : Point3D) :
  type item = "earrings" ->
  JewelryRenderer.face trackingPoints = Some face ->
  face_landmarks face = Some l ->
  l !! 234%nat = Some (Some leftEar) ->
  l !! 454%nat = Some (Some rightEar) ->
  mjoin (l !! 27%nat) = None \/ mjoin (l !! 33%nat) = None ->
  let sp := smoothedPositions this in
  render this item trackingPoints videoWidth videoHeight =
  (withPositions this
     (mkSmoothed
        (Some (smoothPosition (earrings_left sp) leftEar (smoothingFactor this)))
        (Some (smoothPosition (earrings_right sp) rightEar (smoothingFactor this)))
        (necklace sp) (ring sp) (bracelet sp) (watch sp)),
   Throw TypeError).
Proof.
  intros Htype Hface Hl Hleft Hright Heyes. cbv zeta.
  unfold render. rewrite Htype. simpl.
  unfold renderEarrings, getLeftEarringPosition, getRightEarringPosition.
  rewrite Hface, Hl. simpl. rewrite Hleft, Hright. simpl.
  unfold calculateDistance.
  destruct Heyes as [Heye|Heye]; rewrite Heye; simpl.
  - by destruct (mjoin (l !! 33%nat)).
  - reflexivity.
Qed.

(** X19: A hand has the joints of five fingers.  For a finger index of 5 or
    more the joints looked up lie beyond the 21 landmarks, so the ring is
    not drawn and the ring slot of the cache is left alone. *)
Theorem render_ring_finger_out_of_range
    this item trackingPoints videoWidth videoHeight hand l (n : N) :
  type item = "ring" ->
  chooseHand item trackingPoints = Some hand ->
  hand_landmarks hand = Some l ->
  (List.length l <= 21)%nat ->
  fingerIndex item = Some n -> (5 <= n)%N ->
  render this item trackingPoints videoWidth videoHeight =
  (mkRenderer (textures this) (smoothedPositions this) (smoothingFactor this)
              (Some "ring"),
   Ok []).
Proof.
  intros Htype Hhand Hl Hlen Hn Hge. unfold render. rewrite Htype. simpl.
  unfold renderRing. rewrite Hhand.
  assert (Hidx : fingerIndexOr item 3 = n).
  { unfold fingerIndexOr. rewrite Hn. case_bool_decide; [lia|done]. }
  rewrite Hidx. unfold getFingerRingPosition, idx. rewrite Hl. simpl.
  rewrite (lookup_ge_None_2 l (N.to_nat (n * 4 + 1))) by lia. 
  simpl. by destruct (mjoin (l !! N.to_nat (n * 4 + 2))).
Qed.

End CanvasSlots.

(** Two ears and no eye landmarks: the ear positions are stored and the
    call throws. *)
Lemma render_earrings_throws_example :
  exists stored,
    JewelryRenderer.earrings_left (JewelryRenderer.smoothedPositions stored)
    = Some Examples.facePoint /\
    forall M : MathImpl,
      JewelryRenderer.render Examples.renderer Examples.earringsItem
        Examples.earsOnlyFace 640 480
      = (stored, Throw TypeError).
Proof.
  eexists. split; [|intros M].
  2: { eapply (render_earrings_throws_without_eye_landmarks
                 Examples.renderer Examples.earringsItem Examples.earsOnlyFace
                 640 480);
       first [reflexivity | by left]. }
  reflexivity.
Defined.

(** A ring for finger 5 on a hand of 21 landmarks: nothing is drawn and
    the ring slot stays empty. *)
Lemma render_ring_finger_5_example :
  fingerIndex Examples.sixthFingerRingItem = Some 5%N /\
  forall M : MathImpl,
    JewelryRenderer.render Examples.renderer Examples.sixthFingerRingItem
      Examples.onlyRightHand 640 480
    = (JewelryRenderer.mkRenderer
         (JewelryRenderer.textures Examples.renderer)
         JewelryRenderer.emptyPositions 0.7 (Some "ring"),
       Ok []).
Proof.
  split; [reflexivity|]. intros M.
  apply (render_ring_finger_out_of_range Examples.renderer
           Examples.sixthFingerRingItem Examples.onlyRightHand 640 480
           Examples.fullHand (replicate 21 (Some (mkPoint 0.5 0.5 (Some 0))))
           5%N);
    first [reflexivity | simpl; lia | lia].
Defined.

(** ** Not-a-number in the smoothing cache *)

Section SmoothingNaN.
Context `{MathImpl}.
Import JewelryRenderer.

Lemma smoothPosition_nan previous newPosition smoothFactor :
  is_nan (px previous) = true ->
  is_nan (px (smoothPosition (Some previous) newPosition smoothFactor)) = true.
Proof. intros Hnan. simpl. by apply nan_add_l, nan_mul_l. Qed.

(** What a call of [render] does to one slot of the cache: nothing, or it
    blends a new position into it. *)
Lemma render_slot (slot : SmoothedPositions -> option Point3D)
    this item trackingPoints videoWidth videoHeight :
  slot = earrings_left \/ slot = earrings_right \/ slot = necklace \/
  slot = ring \/ slot = bracelet \/ slot = watch ->
  slot (smoothedPositions
          (render this item trackingPoints videoWidth videoHeight).1)
  = slot (smoothedPositions this) \/
  exists newPosition,
    slot (smoothedPositions
            (render this item trackingPoints videoWidth videoHeight).1)
    = Some (smoothPosition (slot (smoothedPositions this)) newPosition
                           (smoothingFactor this)).
Proof.
  intros Hslot.
  unfold render, renderEarrings, renderNecklace, renderRing, renderBracelet,
    renderWatch.
  repeat case_bool_decide; repeat case_match; simplify_eq; cbn [fst];
    destruct Hslot as [->|[->|[->|[->|[->| ->]]]]]; cbn;
    first [ by left | right; by eexists ].
Qed.

Lemma render_keeps_nan (slot : SmoothedPositions -> option Point3D)
    this item trackingPoints videoWidth videoHeight :
  slot = earrings_left \/ slot = earrings_right \/ slot = necklace \/
  slot = ring \/ slot = bracelet \/ slot = watch ->
  (exists held, slot (smoothedPositions this) = Some held /\
                is_nan (px held) = true) ->
  exists held,
    slot (smoothedPositions
            (render this item trackingPoints videoWidth videoHeight).1)
    = Some held /\ is_nan (px held) = true.
Proof.
  intros Hslot (held & Hheld & Hnan).
  destruct (render_slot slot this item trackingPoints videoWidth videoHeight
              Hslot) as [-> | [newPosition ->]].
  - eauto.
  - rewrite Hheld. eexists. split; [reflexivity|].
    by apply smoothPosition_nan.
Qed.

(** X20: The smoother never forgets a NaN.  Once the x of a cached position is
    NaN, which one frame with a NaN landmark brings about, it is NaN after
    every later frame, whatever the detections are: each new position is
    blended with the NaN before it.  Only [clearCache] empties the slot. *)
Theorem nan_stays_in_the_smoothing_cache
    (slot : SmoothedPositions -> option Point3D)
    this item videoWidth videoHeight (inputs : list TrackingPoints) held :
  slot = earrings_left \/ slot = earrings_right \/ slot = necklace \/
  slot = ring \/ slot = bracelet \/ slot = watch ->
  slot (smoothedPositions this) = Some held ->
  is_nan (px held) = true ->
  (exists held',
     slot (smoothedPositions
             (frames this item videoWidth videoHeight inputs).1)
     = Some held' /\ is_nan (px held') = true) /\
  slot (smoothedPositions
          (clearCache (frames this item videoWidth videoHeight inputs).1))
  = None.
Proof.
  intros Hslot Hheld Hnan. split.
  - assert (Hex : exists held, slot (smoothedPositions this) = Some held /\
                               is_nan (px held) = true) by eauto.
    clear held Hheld Hnan. revert this Hex.
    induction inputs as [|trackingPoints inputs IH]; intros this Hex; [done|].
    simpl.
    pose proof (render_keeps_nan slot this item trackingPoints
                  videoWidth videoHeight Hslot Hex) as Hstep.
    destruct (render this item trackingPoints videoWidth videoHeight)
      as [this1 r].
    specialize (IH this1 Hstep).
    by destruct (frames this1 item videoWidth videoHeight inputs).
  - by destruct Hslot as [->|[->|[->|[->|[->| ->]]]]].
Qed.

End SmoothingNaN.

(** A NaN in the bracelet slot is still there after two frames with a
    hand in full view. *)
Lemma nan_stays_example :
  is_nan (px (mkPoint nan 0.5 (Some 0))) = true /\
  forall M : MathImpl,
    exists held,
      JewelryRenderer.bracelet
        (JewelryRenderer.smoothedPositions
           (JewelryRenderer.frames Examples.nanRenderer Examples.braceletItem
              640 480 [Examples.onlyRightHand; Examples.onlyRightHand]).1)
      = Some held /\ is_nan (px held) = true.
Proof.
  split; [reflexivity|]. intros M.
  apply (nan_stays_in_the_smoothing_cache JewelryRenderer.bracelet
           Examples.nanRenderer Examples.braceletItem 640 480
           [Examples.onlyRightHand; Examples.onlyRightHand]
           (mkPoint nan 0.5 (Some 0)));
    [tauto|reflexivity|reflexivity].
Defined.

(** ** The telemetry store *)

Section TelemetryStore.
Context {Body : Type} (metrics : Body -> bool).
Import TelemetryController.

Lemma receiveTelemetry_accepted now (telemetryStore : list (Entry Body))
    (req : Request Body) body :
  req_body req = Some body -> metrics body = true ->
  receiveTelemetry metrics now telemetryStore req =
  (take MAX_TELEMETRY_ENTRIES (mkEntry body now :: telemetryStore),
   mkResponse 200
     (ReceivedJson "Telemetry data received"
        (bool_decide (query_analyze req = Some "true"))),
   if bool_decide (query_analyze req = Some "true")
   then Some (mkEntry body now) else None).
Proof.
  intros Hbody Hmetrics. unfold receiveTelemetry.
  rewrite Hbody, Hmetrics. simpl negb. cbv iota zeta.
  case_bool_decide as Hlen; [done|].
  rewrite take_ge; [done|]. unfold MAX_TELEMETRY_ENTRIES in *. lia.
Qed.

Lemma receiveTelemetry_bound now (telemetryStore : list (Entry Body)) req :
  (List.length telemetryStore <= MAX_TELEMETRY_ENTRIES)%nat ->
  (List.length (receiveTelemetry metrics now telemetryStore req).1.1
   <= MAX_TELEMETRY_ENTRIES)%nat.
Proof.
  intros Hlen.
  destruct (req_body req) as [body|] eqn:Hbody;
    [destruct (metrics body) eqn:Hmetrics|].
  - rewrite (receiveTelemetry_accepted now telemetryStore req body) by done.
    cbn [fst]. rewrite length_take. lia.
  - unfold receiveTelemetry. by rewrite Hbody, Hmetrics.
  - unfold receiveTelemetry. by rewrite Hbody.
Qed.

Lemma serveAll_cons (telemetryStore : list (Entry Body)) call calls :
  (serveAll metrics telemetryStore (call :: calls)).1
  = (serveAll metrics (serve metrics telemetryStore call).1 calls).1.
Proof.
  cbn [serveAll].
  destruct (serve metrics telemetryStore call) as [store1 response].
  cbn [fst]. by destruct (serveAll metrics store1 calls).
Qed.

(** X21: After any number of accepted reports the store holds the latest 100 of
    them, the newest first; the older ones are gone. *)
Theorem telemetry_store_holds_the_latest_100
    (reports : list (string * Request Body)) :
  Forall (fun report =>
            exists body,
              req_body report.2 = Some body /\ metrics body = true) reports ->
  (serveAll metrics []
     (map (fun report => Receive report.1 report.2) reports)).1
  = take MAX_TELEMETRY_ENTRIES
      (reverse
         (omap (fun report =>
                  (fun body => mkEntry body report.1) <$> req_body report.2)
               reports)).
Proof.
  intros Hall.
  assert (Hgen : forall telemetryStore,
    (serveAll metrics telemetryStore
       (map (fun report => Receive report.1 report.2) reports)).1
    = take MAX_TELEMETRY_ENTRIES
        (reverse
           (omap (fun report =>
                    (fun body => mkEntry body report.1) <$> req_body report.2)
                 reports)
         ++ telemetryStore) \/
    (MAX_TELEMETRY_ENTRIES < List.length telemetryStore)%nat /\ reports = []).
  { induction Hall as [|[now req] reports (body & Hbody & Hmetrics) _ IH];
      intros telemetryStore.
    - simpl.
      destruct (decide (List.length telemetryStore <= MAX_TELEMETRY_ENTRIES)%nat).
      + left. by rewrite take_ge.
      + right. split; [lia|done].
    - left. simpl in Hbody.
      rewrite map_cons, serveAll_cons. cbn [serve fst snd].
      rewrite (receiveTelemetry_accepted now telemetryStore req body) by done.
      cbn [fst omap list_omap snd]. rewrite Hbody. cbn [fmap option_fmap option_map].
      set (entry := mkEntry body now).
      destruct (IH (take MAX_TELEMETRY_ENTRIES (entry :: telemetryStore)))
        as [IH1|[Hlong _]].
      2: { rewrite length_take in Hlong. lia. }
      rewrite IH1. rewrite reverse_cons, <- app_assoc.
      set (newer := reverse _).
      change ([entry] ++ telemetryStore) with (entry :: telemetryStore).
      destruct (decide (List.length newer <= MAX_TELEMETRY_ENTRIES)%nat).
      + rewrite !take_app_ge by done.
        f_equal. rewrite take_take. f_equal. lia.
      + rewrite !take_app_le by lia. done. }
  destruct (Hgen []) as [Hstore|[Hlong _]]; [|simpl in Hlong; lia].
  by rewrite app_nil_r in Hstore.
Qed.

(** X22: Whatever requests arrive in whatever order, the store never holds more
    than 100 entries, and every request is answered.  A report without
    metrics is answered with status 400, one without a body with status
    500, and neither touches the store or asks for an analysis. *)
Theorem telemetry_store_is_bounded (calls : list (Call Body)) :
  (List.length (serveAll metrics [] calls).1 <= MAX_TELEMETRY_ENTRIES)%nat /\
  List.length (serveAll metrics [] calls).2 = List.length calls /\
  (forall now telemetryStore req,
     req_body req = None \/
     (exists body, req_body req = Some body /\ metrics body = false) ->
     exists code message error,
       receiveTelemetry metrics now telemetryStore req
       = (telemetryStore, mkResponse code (ErrorJson message error), None) /\
       (code = 400%nat \/ code = 500%nat)).
Proof.
  assert (Hgen : forall telemetryStore,
    (List.length telemetryStore <= MAX_TELEMETRY_ENTRIES)%nat ->
    (List.length (serveAll metrics telemetryStore calls).1
     <= MAX_TELEMETRY_ENTRIES)%nat /\
    List.length (serveAll metrics telemetryStore calls).2 = List.length calls).
  { induction calls as [|call calls IH]; intros telemetryStore Hlen; [done|].
    simpl.
    assert (Hserve : (List.length (serve metrics telemetryStore call).1
                      <= MAX_TELEMETRY_ENTRIES)%nat).
    { destruct call as [now req|req|req]; simpl; [|done|lia].
      by apply receiveTelemetry_bound. }
    destruct (serve metrics telemetryStore call) as [store1 response].
    destruct (IH store1 Hserve) as [IH1 IH2].
    destruct (serveAll metrics store1 calls) as [store2 responses].
    simpl in *. split; [done|]. by rewrite IH2. }
  destruct (Hgen []) as [H1 H2]; [simpl; lia|].
  split; [done|]. split; [done|].
  intros now telemetryStore req [Hnone|(body & Hbody & Hmetrics)];
    unfold receiveTelemetry.
  - rewrite Hnone. eexists _, _, _. split; [reflexivity|]. by right.
  - rewrite Hbody, Hmetrics. eexists _, _, _. split; [reflexivity|]. by left.
Qed.

Lemma slice0_prefix {A} (l : list A) (end_ : Z) : slice0 l end_ `prefix_of` l.
Proof. unfold slice0. apply prefix_take. Qed.

(** X23: [getTelemetry] answers with the newest entries of the store, in order,
    and leaves the store alone.  With a positive limit it returns that
    many, or all there are; with no limit, one that is not a number, or
    the limit 0, it returns up to 10; with a negative limit [-k] it returns
    all but the [k] oldest. *)
Theorem getTelemetry_returns_the_newest
    (telemetryStore : list (Entry Body)) (req : Request Body) :
  exists data,
    getTelemetry telemetryStore req
    = mkResponse 200 (EntriesJson (List.length data) data) /\
    data `prefix_of` telemetryStore /\
    List.length data =
      match query_limit req with
      | Some (Zpos limit) => Pos.to_nat limit `min` List.length telemetryStore
      | Some (Zneg k) => List.length telemetryStore - Pos.to_nat k
      | Some Z0 | None => 10 `min` List.length telemetryStore
      end%nat.
Proof.
  unfold getTelemetry. eexists. split; [reflexivity|].
  split; [apply slice0_prefix|].
  unfold slice0. rewrite length_take.
  destruct (query_limit req) as [[|limit|k]|]; simpl Z.eqb; cbv iota;
    change (_ <? 0)%Z with false || change (_ <? 0)%Z with true;
    cbv iota; lia.
Qed.

(** X24: A report that was accepted is the first entry of the next
    [getTelemetry], followed by entries that were in the store before; and
    after [clearTelemetry] there is nothing to get. *)
Theorem telemetry_report_is_read_back_first
    now (telemetryStore : list (Entry Body)) (report query : Request Body)
    body (limit : positive) :
  req_body report = Some body -> metrics body = true ->
  query_limit query = Some (Zpos limit) ->
  (exists older,
     getTelemetry (receiveTelemetry metrics now telemetryStore report).1.1 query
     = mkResponse 200
         (EntriesJson (S (List.length older)) (mkEntry body now :: older)) /\
     older `prefix_of` telemetryStore) /\
  getTelemetry (clearTelemetry telemetryStore report).1 query
  = mkResponse 200 (EntriesJson 0 []).
Proof.
  intros Hbody Hmetrics Hlimit. split.
  - rewrite (receiveTelemetry_accepted now telemetryStore report body) by done.
    cbn [fst]. unfold getTelemetry, slice0. rewrite Hlimit. simpl Z.eqb.
    cbv iota. change (_ <? 0)%Z with false. cbv iota zeta.
    set (n := Z.to_nat _).
    assert (Hn : (0 < n)%nat) by (subst n; rewrite length_take; simpl; lia).
    destruct n as [|n]; [lia|]. simpl.
    eexists. split; [reflexivity|].
    etrans; [apply prefix_take|]. apply prefix_take.
  - unfold getTelemetry, slice0. rewrite Hlimit. reflexivity.
Qed.

End TelemetryStore.

(** 150 reports sent at the time "t": the store holds 100 of them. *)
Lemma telemetry_store_example :
  (TelemetryController.serveAll id []
     (map (fun report =>
             TelemetryController.Receive report.1 report.2)
          (replicate 150 ("t", Examples.report)))).1
  = replicate 100 (TelemetryController.mkEntry true "t").
Proof.
  rewrite (telemetry_store_holds_the_latest_100 id
             (replicate 150 ("t", Examples.report))).
  - vm_compute. reflexivity.
  - apply Forall_replicate. by exists true.
Defined.

(** A report is read back by a query for one entry. *)
Lemma telemetry_round_trip_example :
  exists store,
    (TelemetryController.receiveTelemetry id "now" [] Examples.report).1.1
    = store /\
    TelemetryController.getTelemetry store (Examples.query 1)
    = TelemetryController.mkResponse 200
        (TelemetryController.EntriesJson 1
           [TelemetryController.mkEntry true "now"]).
Proof.
  eexists. split; [reflexivity|].
  destruct (proj1 (telemetry_report_is_read_back_first id "now" []
                     Examples.report (Examples.query 1) true 1
                     eq_refl eq_refl eq_refl))
    as (older & Hget & Hprefix).
  apply prefix_nil_inv in Hprefix. subst older. exact Hget.
Defined.
